(** * Legal case similarity core: a shallow embedding and its properties

    The development follows the Python sources of the document similarity
    subsystem:

    - [models/search_result.py]            (module [SearchResult])
    - [components/similarity_search_engine.py] (module [SimilaritySearchEngine])
    - [components/legal_vectorizer.py]     (module [LegalVectorizer])
    - [components/text_preprocessor.py]    (module [TextPreprocessor])
    - [models/case_document.py]            (module [CaseDocument])
    - [components/case_repository.py]      (module [CaseRepository])

    Python floats are IEEE-754 binary64 numbers and are modelled by Rocq's
    primitive floats, so every comparison below (including the ones on NaN)
    is the comparison Python performs.  Exceptions are an error result;
    the repository's files are an explicit state threaded through the calls. *)

From Stdlib Require Import List String Ascii Bool ZArith Lia Floats.
From Stdlib Require Import Sorting.Sorted Sorting.Permutation.
Import ListNotations.
Set Warnings "-register-all,-inexact-float".
Open Scope string_scope.
Open Scope Z_scope.

(* ================================================================== *)
(** * Part I: data model and operations                                *)
(* ================================================================== *)

(** ** Python values, exceptions and results *)

Module Py.

(** The values [json.load] can produce, which are also the non-string
    arguments a caller may hand to a text function. *)
Inductive py_value : Type :=
| PyNone
| PyBool (b : bool)
| PyInt (z : Z)
| PyFloat (f : float)
| PyStr (s : string)
| PyList (l : list py_value)
| PyDict (d : list (string * py_value)).

(** A [dict] with string keys, in insertion order. *)
Definition dict : Type := list (string * py_value).

(** The exceptions raised by the modelled code, one constructor per raise
    site or library failure; [exn_class] gives the Python class. *)
Inductive exn : Type :=
| CapacityExceeded                 (* ValueError: Repository capacity exceeded *)
| CaseAlreadyExists (id : string)  (* ValueError: Case with ID ... already exists *)
| InvalidCaseData (errors : list string) (* ValueError: Invalid case data *)
| InvalidMetadataStructure (errors : list string) (* ValueError: Invalid metadata structure *)
| InvalidJSON                      (* ValueError: Invalid JSON in metadata file *)
| ErrorLoadingMetadata             (* ValueError: Error loading metadata *)
| ShapeMismatch                    (* ValueError raised by numpy on unequal row lengths *)
| VectorCountMismatch              (* ValueError: Number of vectors must match ... *)
| DimensionMismatch                (* ValueError: Query vector dimension must match ... *)
| ScoreOutOfRange                  (* ValueError: Similarity score must be between 0 and 1 *)
| EmptyDocuments                   (* ValueError: Documents list cannot be empty *)
| NotFittedError
| KeyError (key : string)
| IndexError
| TypeError
| AttributeError
| LookupError                      (* a missing NLTK resource *)
| MetadataWriteError               (* OSError opening cases_metadata.json for writing *)
| VectorWriteError.                (* OSError opening case_vectors.pkl for writing *)

Inductive exn_class : Type :=
| ClsValueError | ClsNotFittedError | ClsKeyError | ClsIndexError
| ClsTypeError | ClsAttributeError | ClsLookupError | ClsOSError.

Definition class_of (e : exn) : exn_class :=
  match e with
  | CapacityExceeded | CaseAlreadyExists _ | InvalidCaseData _
  | InvalidMetadataStructure _ | InvalidJSON
  | ErrorLoadingMetadata | ShapeMismatch | VectorCountMismatch
  | DimensionMismatch | ScoreOutOfRange | EmptyDocuments => ClsValueError
  | NotFittedError => ClsNotFittedError
  | KeyError _ => ClsKeyError
  | IndexError => ClsIndexError
  | TypeError => ClsTypeError
  | AttributeError => ClsAttributeError
  | LookupError => ClsLookupError
  | MetadataWriteError | VectorWriteError => ClsOSError
  end.

(** The outcome of a call: a returned value or a raised exception. *)
Inductive result (A : Type) : Type :=
| Ok (a : A)
| Err (e : exn).
Arguments Ok {A} a.
Arguments Err {A} e.

Definition bind {A B : Type} (r : result A) (k : A -> result B) : result B :=
  match r with
  | Ok a => k a
  | Err e => Err e
  end.

Definition is_ok {A : Type} (r : result A) : bool :=
  match r with Ok _ => true | Err _ => false end.

(** [for x in l: ...] with a body that may raise, collecting the values. *)
Fixpoint mapM {A B : Type} (f : A -> result B) (l : list A) : result (list B) :=
  match l with
  | [] => Ok []
  | x :: l' =>
      bind (f x) (fun y => bind (mapM f l') (fun ys => Ok (y :: ys)))
  end.

(** Truth value testing, as [not x] and [if x:] perform it. *)
Definition truthy (v : py_value) : bool :=
  match v with
  | PyNone => false
  | PyBool b => b
  | PyInt z => negb (z =? 0)
  | PyFloat f => negb (PrimFloat.eqb f 0%float)
  | PyStr s => negb (String.eqb s "")
  | PyList l => match l with [] => false | _ => true end
  | PyDict d => match d with [] => false | _ => true end
  end.

(** [isinstance(v, str)], [isinstance(v, int)] (a [bool] is an [int]),
    [isinstance(v, dict)], [isinstance(v, list)]. *)
Definition is_str (v : py_value) : bool :=
  match v with PyStr _ => true | _ => false end.
Definition is_int (v : py_value) : bool :=
  match v with PyInt _ | PyBool _ => true | _ => false end.
Definition is_dict (v : py_value) : bool :=
  match v with PyDict _ => true | _ => false end.
Definition is_list (v : py_value) : bool :=
  match v with PyList _ => true | _ => false end.

(** [d.get(k)], [k in d], [d[k] = v] and [d.keys()]. *)
Fixpoint dict_get (k : string) (d : dict) : option py_value :=
  match d with
  | [] => None
  | (k', v) :: d' => if String.eqb k k' then Some v else dict_get k d'
  end.

Definition dict_mem (k : string) (d : dict) : bool :=
  match dict_get k d with Some _ => true | None => false end.

Fixpoint dict_set (k : string) (v : py_value) (d : dict) : dict :=
  match d with
  | [] => [(k, v)]
  | (k', v') :: d' =>
      if String.eqb k k' then (k', v) :: d' else (k', v') :: dict_set k v d'
  end.

(** [v[k]] for a string key: [KeyError] on a dict without it, [TypeError]
    on anything that is not a dict. *)
Definition subscript (v : py_value) (k : string) : result py_value :=
  match v with
  | PyDict d =>
      match dict_get k d with
      | Some x => Ok x
      | None => Err (KeyError k)
      end
  | _ => Err TypeError
  end.

(** [v.get(k, default)]: only dicts have the method. *)
Definition get_or (v : py_value) (k : string) (default : py_value) : result py_value :=
  match v with
  | PyDict d =>
      match dict_get k d with
      | Some x => Ok x
      | None => Ok default
      end
  | _ => Err AttributeError
  end.

(** Python's two-argument [min] and [max] on floats keep the first argument
    unless the second compares strictly smaller (larger). *)
Definition py_min (a b : float) : float := if PrimFloat.ltb b a then b else a.
Definition py_max (a b : float) : float := if PrimFloat.ltb a b then b else a.

(** [l[:k]] for a Python integer [k]: a negative bound counts from the end. *)
Definition slice_to {A : Type} (k : Z) (l : list A) : list A :=
  if k <? 0 then firstn (Z.to_nat (Z.of_nat (List.length l) + k)) l
  else firstn (Z.to_nat k) l.

(** ASCII whitespace as [str.strip], [str.split] and the regex class [\s]
    see it: tab, line feed, vertical tab, form feed, carriage return, the
    four separators 28..31 and the space. *)
Definition is_space (c : ascii) : bool :=
  let n := nat_of_ascii c in
  ((9 <=? n) && (n <=? 13) || (28 <=? n) && (n <=? 32))%nat.

(** [bool(s.strip())]: some character of [s] is not whitespace. *)
Fixpoint strip_nonempty (s : string) : bool :=
  match s with
  | EmptyString => false
  | String c s' => negb (is_space c) || strip_nonempty s'
  end.

End Py.
Import Py.

(** ** numpy arrays and the numeric library calls the code makes *)

Module Np.

(** A one-dimensional float array. *)
Definition vector : Type := list float.

(** A two-dimensional float array of shape [(length rows, ncols)]; an array
    with no rows still has its second dimension. *)
Record ndarray : Type := mk_ndarray {
  ncols : nat;
  rows : list vector
}.

(** [len(a)] and [a.shape[0]]. *)
Definition len (a : ndarray) : nat := List.length (rows a).

(** [v.reshape(1, -1)]: a single row that holds all of [v]. *)
Definition reshape_row (v : vector) : ndarray :=
  {| ncols := List.length v; rows := [v] |}.

(** [np.vstack([a, b])]: the rows of [b] under those of [a]; numpy raises
    [ValueError] when the second dimensions differ. *)
Definition vstack (a b : ndarray) : result ndarray :=
  if Nat.eqb (ncols a) (ncols b)
  then Ok {| ncols := ncols a; rows := rows a ++ rows b |}
  else Err ShapeMismatch.

(** [l] without its element at position [i]. *)
Fixpoint remove_nth {A : Type} (i : nat) (l : list A) : list A :=
  match l, i with
  | [], _ => []
  | _ :: l', O => l'
  | x :: l', S i' => x :: remove_nth i' l'
  end.

(** [np.delete(a, i, axis=0)] for an index inside the array. *)
Definition delete_row (a : ndarray) (i : nat) : ndarray :=
  {| ncols := ncols a; rows := remove_nth i (rows a) |}.




(** The order numpy sorts floats by: [a < b], with NaN after every number. *)
Definition np_lt (a b : float) : bool :=
  PrimFloat.ltb a b || (PrimFloat.is_nan b && negb (PrimFloat.is_nan a)).






End Np.
Import Np.

(** ** models/search_result.py *)

Module SearchResult.

Record t : Type := mk {
  case_id : py_value;
  title : py_value;
  date : py_value;
  similarity_score : float;
  snippet : py_value;
  file_path : py_value
}.

(** [max(0.0, min(1.0, score))]. *)
Definition clamp (score : float) : float := py_max 0%float (py_min 1%float score).

(** The dataclass constructor followed by [__post_init__]: the score is
    clamped, then checked with [0.0 <= score <= 1.0]. *)
Definition init (case_id title date : py_value) (similarity_score : float)
    (snippet file_path : py_value) : result t :=
  let score := clamp similarity_score in
  if negb (PrimFloat.leb 0%float score && PrimFloat.leb score 1%float)
  then Err ScoreOutOfRange
  else Ok (mk case_id title date score snippet file_path).

End SearchResult.

(** ** components/similarity_search_engine.py *)

Module SimilaritySearchEngine.

Record t : Type := mk {
  case_vectors : ndarray;
  case_metadata : list py_value
}.

(** [__init__]: the number of vectors must match the number of metadata
    entries. *)
Definition init (case_vectors : ndarray) (case_metadata : list py_value) : result t :=
  if negb (Nat.eqb (len case_vectors) (List.length case_metadata))
  then Err VectorCountMismatch
  else Ok (mk case_vectors case_metadata).

(** [x[:200]] on a value: strings and lists can be sliced. *)
Fixpoint prefix (n : nat) (s : string) : string :=
  match n, s with
  | S n', String c s' => String c (prefix n' s')
  | _, _ => EmptyString
  end.





(** [get_case_count()]. *)
Definition get_case_count (self : t) : nat := List.length (case_metadata self).


End SimilaritySearchEngine.

(** ** components/legal_vectorizer.py *)

Module LegalVectorizer.

(** scikit-learn's [TfidfVectorizer], as far as the class uses it: an object
    built from the vocabulary, [fit] on a corpus, and [transform] followed by
    [toarray], which yields one dense row per document. *)
Class Tfidf : Type := {
  model : Type;
  create : list string -> model;
  sk_fit : model -> list string -> model;
  sk_transform : model -> list string -> ndarray;
  sk_feature_names : model -> list string;
  sk_transform_rows :
    forall m docs, List.length (rows (sk_transform m docs)) = List.length docs
}.

Record t `{Tfidf} : Type := mk {
  vocabulary : list string;
  vectorizer : model;
  _is_fitted : bool;
  _feature_names : option (list string)
}.

(** The argument of [transform]: one document or a list of documents. *)
Inductive documents : Type :=
| Single (document : string)
| Several (docs : list string).

Section Methods.
Context `{Tfidf}.

(** [__init__(vocabulary)]. *)
Definition init (terms : list string) : t :=
  {| vocabulary := terms;
     vectorizer := create terms;
     _is_fitted := false;
     _feature_names := None |}.

(** [fit(documents)]. *)
Definition fit (self : t) (docs : list string) : result t :=
  match docs with
  | [] => Err EmptyDocuments
  | _ =>
      let fitted := sk_fit (vectorizer self) docs in
      Ok {| vocabulary := vocabulary self;
            vectorizer := fitted;
            _is_fitted := true;
            _feature_names := Some (sk_feature_names fitted) |}
  end.

(** [transform(documents)]. *)
Definition transform (self : t) (docs : documents) : result ndarray :=
  if negb (_is_fitted self) then Err NotFittedError
  else
    let docs :=
      match docs with
      | Single document => [document]
      | Several docs => docs
      end in
    Ok (sk_transform (vectorizer self) docs).

(** [fit_transform(documents)]. *)
Definition fit_transform (self : t) (docs : list string) : result (t * ndarray) :=
  bind (fit self docs) (fun self' =>
  bind (transform self' (Several docs)) (fun m => Ok (self', m))).



(** The property [is_fitted]. *)
Definition is_fitted (self : t) : bool := _is_fitted self.

(** The property [vocabulary_size]. *)
Definition vocabulary_size (self : t) : nat := List.length (vocabulary self).

(** [get_feature_names()]: [list(self._feature_names)]. *)
Definition get_feature_names (self : t) : result (list string) :=
  if negb (_is_fitted self) then Err NotFittedError
  else
    match _feature_names self with
    | Some names => Ok names
    | None => Err TypeError
    end.

(** [get_vector_dimension()]: [len(self._feature_names)]. *)
Definition get_vector_dimension (self : t) : result nat :=
  if negb (_is_fitted self) then Err NotFittedError
  else
    match _feature_names self with
    | Some names => Ok (List.length names)
    | None => Err TypeError
    end.

(** The comprehension
    [[(feature_names[i], vector[i]) for i in range(len(vector)) if vector[i] > 0]],
    from position [i]: the name is looked up for the positive entries
    only. *)
Fixpoint positive_features (feature_names : list string) (i : nat) (vector : vector)
  : result (list (string * float)) :=
  match vector with
  | [] => Ok []
  | score :: rest =>
      if PrimFloat.ltb 0%float score
      then
        match nth_error feature_names i with
        | Some name =>
            bind (positive_features feature_names (S i) rest) (fun feature_scores =>
            Ok ((name, score) :: feature_scores))
        | None => Err IndexError
        end
      else positive_features feature_names (S i) rest
  end.

(** [feature_scores.sort(key=lambda x: x[1], reverse=True)].  The sort is
    stable, also in reverse: pairs with equal scores keep their order.
    The scores are all greater than zero here, so [<] orders them
    totally and the result does not depend on the sorting method. *)
Fixpoint insert_desc (pair : string * float) (sorted : list (string * float))
  : list (string * float) :=
  match sorted with
  | [] => [pair]
  | other :: rest =>
      if PrimFloat.ltb (snd pair) (snd other)
      then other :: insert_desc pair rest
      else pair :: sorted
  end.

Definition sort_desc (feature_scores : list (string * float)) : list (string * float) :=
  fold_right insert_desc [] feature_scores.

(** [get_top_features(document, n_features)]. *)
Definition get_top_features (self : t) (document : string) (n_features : Z)
  : result (list (string * float)) :=
  if negb (_is_fitted self) then Err NotFittedError
  else
    bind (transform self (Several [document])) (fun matrix =>
    match nth_error (rows matrix) 0 with
    | None => Err IndexError
    | Some vector =>
        bind (get_feature_names self) (fun feature_names =>
        bind (positive_features feature_names 0 vector) (fun feature_scores =>
        Ok (slice_to n_features (sort_desc feature_scores))))
    end).

End Methods.

(** A small stand-in for the library, used to run examples: no weighting,
    the column of a vocabulary term is 1.0 when the document is that term
    and 0.0 otherwise. *)
Definition count_row (terms : list string) (doc : string) : vector :=
  map (fun term => if String.eqb term doc then 1%float else 0%float) terms.

#[export] Instance CountingTfidf : Tfidf := {|
  model := list string;
  create := fun terms => terms;
  sk_fit := fun m _ => m;
  sk_transform := fun m docs =>
    {| ncols := List.length m; rows := map (count_row m) docs |};
  sk_feature_names := fun m => m;
  sk_transform_rows := fun m docs => length_map (count_row m) docs
|}.

End LegalVectorizer.

(** ** models/legal_vocabulary.py *)

Module LegalVocabulary.

(** The vocabulary as its methods use it: [_terms] a list of strings,
    [_categories] a dict from category names to lists of strings, in
    insertion order, and [_weights] a dict from terms to values. *)
Record t : Type := mk {
  _terms : list string;
  _categories : list (string * list string);
  _weights : dict
}.

(** [x in l] on a list of strings. *)
Definition mem (x : string) (l : list string) : bool := existsb (String.eqb x) l.

(** [l.remove(x)] for an [x] that is in [l]: the first occurrence goes. *)
Fixpoint remove_one (x : string) (l : list string) : list string :=
  match l with
  | [] => []
  | y :: l' => if String.eqb y x then l' else y :: remove_one x l'
  end.

(** [d.pop(k, None)]. *)
Fixpoint dict_pop (k : string) (d : dict) : dict :=
  match d with
  | [] => []
  | (k', v) :: d' => if String.eqb k k' then d' else (k', v) :: dict_pop k d'
  end.

(** [category in self._categories]. *)
Definition has_category (category : string) (categories : list (string * list string))
  : bool :=
  existsb (fun entry => String.eqb category (fst entry)) categories.

(** The property [size] and [__len__]. *)
Definition size (self : t) : nat := List.length (_terms self).

(** [__contains__]. *)
Definition contains (self : t) (term : string) : bool := mem term (_terms self).

(** [get_terms_by_category(category)]. *)
Definition get_terms_by_category (self : t) (category : string) : list string :=
  match find (fun entry => String.eqb category (fst entry)) (_categories self) with
  | Some (_, terms) => terms
  | None => []
  end.

(** [get_category_for_term(term)]: the first category that lists it. *)
Definition get_category_for_term (self : t) (term : string) : option string :=
  match find (fun entry => mem term (snd entry)) (_categories self) with
  | Some (category, _) => Some category
  | None => None
  end.

(** [self._categories[category].append(term)] unless the term is there. *)
Fixpoint append_to_category (category term : string)
    (categories : list (string * list string)) : list (string * list string) :=
  match categories with
  | [] => []
  | (name, terms) :: rest =>
      if String.eqb category name
      then (name, if mem term terms then terms else (terms ++ [term])%list) :: rest
      else (name, terms) :: append_to_category category term rest
  end.

(** [add_term(term, category, weight)]; a [None] or empty category is
    skipped, and so is one that the vocabulary does not have. *)
Definition add_term (self : t) (term : string) (category : option string)
    (weight : py_value) : t :=
  let terms :=
    if negb (mem term (_terms self)) then (_terms self ++ [term])%list
    else _terms self in
  let categories :=
    match category with
    | Some category =>
        if negb (String.eqb category "") && has_category category (_categories self)
        then append_to_category category term (_categories self)
        else _categories self
    | None => _categories self
    end in
  let weights :=
    match weight with
    | PyNone => _weights self
    | _ => dict_set term weight (_weights self)
    end in
  {| _terms := terms; _categories := categories; _weights := weights |}.

(** [remove_term(term)]: the vocabulary afterwards, and the value
    returned. *)
Definition remove_term (self : t) (term : string) : t * bool :=
  if mem term (_terms self)
  then
    ({| _terms := remove_one term (_terms self);
        _categories :=
          map (fun entry =>
                 (fst entry,
                  if mem term (snd entry) then remove_one term (snd entry)
                  else snd entry))
              (_categories self);
        _weights := dict_pop term (_weights self) |},
     true)
  else (self, false).

(** The issues of [validate_vocabulary], with the data their messages
    show. *)
Inductive issue : Type :=
| SizeOutOfRange (size : nat)
| DuplicateTerms (duplicates : list string)
| TermNotInVocabulary (term category : string)
| UncategorizedTerms (terms : list string).

Record report : Type := mk_report {
  valid : bool;
  issues : list issue;
  vocabulary_size : nat;
  categories_count : nat;
  categorized_terms : nat;
  uncategorized_terms : nat
}.

(** [set(l)] as a list without repetition; Python fixes no order for the
    members of a set, and the counts below do not depend on one. *)
Definition as_set (l : list string) : list string := nodup string_dec l.

(** [validate_vocabulary()]. *)
Definition validate_vocabulary (self : t) : report :=
  let terms := _terms self in
  let size_issues :=
    if negb ((200 <=? List.length terms)%nat && (List.length terms <=? 300)%nat)
    then [SizeOutOfRange (List.length terms)] else [] in
  let duplicate_issues :=
    if negb (Nat.eqb (List.length terms) (List.length (as_set terms)))
    then [DuplicateTerms
            (filter (fun term => (1 <? count_occ string_dec terms term)%nat)
                    (as_set terms))]
    else [] in
  let category_issues :=
    flat_map (fun entry =>
                flat_map (fun term =>
                            if negb (mem term terms)
                            then [TermNotInVocabulary term (fst entry)] else [])
                         (snd entry))
             (_categories self) in
  let all_category_terms := as_set (flat_map snd (_categories self)) in
  let uncategorized :=
    filter (fun term => negb (mem term all_category_terms)) (as_set terms) in
  let uncategorized_issues :=
    match uncategorized with
    | [] => []
    | _ => [UncategorizedTerms uncategorized]
    end in
  let issues :=
    (size_issues ++ duplicate_issues ++ category_issues ++ uncategorized_issues)%list in
  {| valid := match issues with [] => true | _ => false end;
     issues := issues;
     vocabulary_size := List.length terms;
     categories_count := List.length (_categories self);
     categorized_terms := List.length all_category_terms;
     uncategorized_terms := List.length uncategorized |}.

End LegalVocabulary.

(** ** components/text_preprocessor.py *)

Module TextPreprocessor.

(** The NLTK resources the class calls.  Each may be missing at run time,
    in which case the call raises. *)
Class Nltk : Type := {
  stopwords_words : result (list string);       (* stopwords.words('english') *)
  word_tokenize : string -> result (list string);
  lemmatize : string -> result string            (* WordNetLemmatizer().lemmatize *)
}.

Record t : Type := mk {
  enable_lemmatization : bool;
  lemmatizer : bool;                 (* a WordNetLemmatizer is held *)
  stopwords_set : list string
}.

(** The built-in stopwords of [_initialize_components]. *)
Definition basic_stopwords : list string :=
  ["a"; "an"; "and"; "are"; "as"; "at"; "be"; "by"; "for"; "from";
   "has"; "he"; "in"; "is"; "it"; "its"; "of"; "on"; "that"; "the";
   "to"; "was"; "will"; "with"; "the"; "this"; "but"; "they"; "have";
   "had"; "what"; "said"; "each"; "which"; "their"; "time"; "if"].

(** ASCII character classes and string helpers. *)
Definition is_upper (c : ascii) : bool :=
  let n := nat_of_ascii c in ((65 <=? n) && (n <=? 90))%nat.
Definition is_lower (c : ascii) : bool :=
  let n := nat_of_ascii c in ((97 <=? n) && (n <=? 122))%nat.
Definition is_digit (c : ascii) : bool :=
  let n := nat_of_ascii c in ((48 <=? n) && (n <=? 57))%nat.
Definition is_alpha (c : ascii) : bool := is_upper c || is_lower c.
(** The regex class [\w]. *)
Definition is_word (c : ascii) : bool :=
  is_alpha c || is_digit c || Ascii.eqb c "_"%char.

Definition lower_char (c : ascii) : ascii :=
  if is_upper c then ascii_of_nat (nat_of_ascii c + 32) else c.

Fixpoint map_string (f : ascii -> ascii) (s : string) : string :=
  match s with
  | EmptyString => EmptyString
  | String c s' => String (f c) (map_string f s')
  end.

Fixpoint forall_string (p : ascii -> bool) (s : string) : bool :=
  match s with
  | EmptyString => true
  | String c s' => p c && forall_string p s'
  end.

(** [s.lower()]. *)
Definition lower (s : string) : string := map_string lower_char s.

(** [s.isalpha()]: at least one character, all of them letters. *)
Definition isalpha (s : string) : bool :=
  negb (String.eqb s "") && forall_string is_alpha s.

(** [re.sub(r'\s+', ' ', s)]: each run of whitespace becomes one space. *)
Fixpoint collapse_spaces (in_run : bool) (s : string) : string :=
  match s with
  | EmptyString => EmptyString
  | String c s' =>
      if is_space c
      then if in_run then collapse_spaces true s'
           else String " "%char (collapse_spaces true s')
      else String c (collapse_spaces false s')
  end.

Fixpoint lstrip (s : string) : string :=
  match s with
  | EmptyString => EmptyString
  | String c s' => if is_space c then lstrip s' else s
  end.

Fixpoint rstrip (s : string) : string :=
  match s with
  | EmptyString => EmptyString
  | String c s' =>
      match rstrip s' with
      | EmptyString => if is_space c then EmptyString else String c EmptyString
      | r => String c r
      end
  end.

(** [s.strip()]. *)
Definition strip (s : string) : string := rstrip (lstrip s).

(** [s.split()]: the maximal runs of characters that are not whitespace;
    [word] is the run being read, reversed. *)
Fixpoint split_from (word : list ascii) (s : string) : list string :=
  let flush := match word with
               | [] => []
               | _ => [string_of_list_ascii (rev word)]
               end in
  match s with
  | EmptyString => flush
  | String c s' =>
      if is_space c then flush ++ split_from [] s'
      else split_from (c :: word) s'
  end.

Definition split (s : string) : list string := split_from [] s.

(** [' '.join(tokens)]. *)
Fixpoint join_spaces (tokens : list string) : string :=
  match tokens with
  | [] => ""
  | [tok] => tok
  | tok :: rest => tok ++ " " ++ join_spaces rest
  end.

(** The text the character classes above describe as Python does: on
    characters outside ASCII, [str.lower], [\w], [\s] and [str.isalpha]
    follow Unicode. *)
Definition is_ascii (c : ascii) : bool := (nat_of_ascii c <? 128)%nat.

(** No space follows a space, and none comes first when [after_space]. *)
Fixpoint no_double_space (after_space : bool) (s : string) : bool :=
  match s with
  | EmptyString => true
  | String c s' =>
      if Ascii.eqb c " "%char
      then negb after_space && no_double_space true s'
      else no_double_space false s'
  end.

(** Moreover no space comes last: with [after_space], the string is made
    of one or more words with one space between two of them. *)
Fixpoint single_spaced (after_space : bool) (s : string) : bool :=
  match s with
  | EmptyString => negb after_space
  | String c s' =>
      if Ascii.eqb c " "%char
      then negb after_space && single_spaced true s'
      else single_spaced false s'
  end.

Section Methods.
Context `{Nltk}.

(** [__init__(enable_lemmatization)] with [_initialize_components]. *)
Definition init (enable_lemmatization : bool) : t :=
  match stopwords_words with
  | Ok words =>
      {| enable_lemmatization := enable_lemmatization;
         lemmatizer := enable_lemmatization;
         stopwords_set := words |}
  | Err _ =>
      {| enable_lemmatization := enable_lemmatization;
         lemmatizer := false;
         stopwords_set := basic_stopwords |}
  end.

(** [normalize_text(text)]. *)
Definition normalize_text (text : py_value) : string :=
  match text with
  | PyStr s =>
      if negb (truthy text) then ""
      else
        let normalized := lower s in
        let normalized :=
          map_string (fun c => if is_word c || is_space c then c else " "%char)
                     normalized in
        strip (collapse_spaces false normalized)
  | _ => ""
  end.

(** [tokenize_text(text)]. *)
Definition tokenize_text (text : string) : list string :=
  if String.eqb text "" then []
  else
    match word_tokenize text with
    | Ok tokens => filter isalpha tokens
    | Err _ => filter isalpha (split text)
    end.

(** [remove_stopwords(tokens)]. *)
Definition remove_stopwords (self : t) (tokens : list string) : list string :=
  filter (fun token =>
            negb (existsb (String.eqb (lower token)) (stopwords_set self))
            && (2 <? String.length token)%nat)
         tokens.

(** [lemmatize_tokens(tokens)]. *)
Definition lemmatize_tokens (self : t) (tokens : list string) : list string :=
  match tokens with
  | [] => tokens
  | _ =>
      if negb (enable_lemmatization self) || negb (lemmatizer self) then tokens
      else
        map (fun token =>
               match lemmatize (lower token) with
               | Ok lemmatized => lemmatized
               | Err _ => lower token
               end)
            tokens
  end.

(** [preprocess(text)].  The guard in front of the [try] block answers an
    empty or non-string argument; the stages called inside it absorb their
    own failures. *)
Definition preprocess (self : t) (text : py_value) : result string :=
  if negb (truthy text) || negb (is_str text) then Ok ""
  else
    let normalized_text := normalize_text text in
    if String.eqb normalized_text "" then Ok ""
    else
      let tokens := tokenize_text normalized_text in
      match tokens with
      | [] => Ok ""
      | _ =>
          let filtered_tokens := remove_stopwords self tokens in
          let processed_tokens :=
            if enable_lemmatization self
            then lemmatize_tokens self filtered_tokens
            else map lower filtered_tokens in
          Ok (join_spaces processed_tokens)
      end.

(** [preprocess_batch(texts)]. *)
Definition preprocess_batch (self : t) (texts : list py_value) : list string :=
  map (fun text =>
         match preprocess self text with
         | Ok processed => processed
         | Err _ => ""
         end)
      texts.

End Methods.

(** NLTK with no resource installed: every call raises [LookupError], so
    the class runs on its fallbacks. *)
#[export] Instance NoNltk : Nltk := {|
  stopwords_words := Err LookupError;
  word_tokenize := fun _ => Err LookupError;
  lemmatize := fun _ => Err LookupError
|}.

End TextPreprocessor.

(** ** models/case_document.py *)

Module CaseDocument.

(** Python's [datetime] as the code uses it: values print with [isoformat],
    and [fromisoformat] parses a string or raises [ValueError]. *)
Class DateTime : Type := {
  datetime : Type;
  isoformat : datetime -> string;
  fromisoformat : string -> option datetime
}.

Record t `{DateTime} : Type := mk {
  case_id : string;
  title : string;
  date : datetime;
  file_path : string;
  text_content : string;
  vector : option Np.vector;
  metadata : dict
}.

(** [to_dict()]: the vector and the text are left out. *)
Definition to_dict `{DateTime} (self : t) : dict :=
  [("case_id", PyStr (case_id self));
   ("title", PyStr (title self));
   ("date", PyStr (isoformat (date self)));
   ("file_path", PyStr (file_path self));
   ("metadata", PyDict (metadata self))].

(** The outcome of a call that can also raise the [ValueError] of
    [datetime.fromisoformat] on a string it cannot parse. *)
Inductive outcome (A : Type) : Type :=
| Returned (a : A)
| Raised (e : exn)
| RaisedInvalidIsoformat (s : string).
Arguments Returned {A} a.
Arguments Raised {A} e.
Arguments RaisedInvalidIsoformat {A} s.

Definition of_result {A : Type} (r : result A) : outcome A :=
  match r with
  | Ok a => Returned a
  | Err e => Raised e
  end.

Definition bind_outcome {A B : Type} (o : outcome A) (k : A -> outcome B) : outcome B :=
  match o with
  | Returned a => k a
  | Raised e => Raised e
  | RaisedInvalidIsoformat s => RaisedInvalidIsoformat s
  end.

(** The object [from_dict] builds.  The constructor checks no type, so
    the fields taken from the dict hold whatever the dict holds. *)
Record loaded `{DateTime} : Type := mk_loaded {
  loaded_case_id : py_value;
  loaded_title : py_value;
  loaded_date : datetime;
  loaded_file_path : py_value;
  loaded_text_content : string;
  loaded_metadata : py_value
}.

(** [from_dict(data, text_content)], with [__post_init__] turning a
    [None] metadata into an empty dict. *)
Definition from_dict `{DateTime} (data : py_value) (text_content : string)
  : outcome loaded :=
  bind_outcome (of_result (subscript data "case_id")) (fun case_id =>
  bind_outcome (of_result (subscript data "title")) (fun title =>
  bind_outcome (of_result (subscript data "date")) (fun date =>
  bind_outcome
    match date with
    | PyStr s =>
        match fromisoformat s with
        | Some d => Returned d
        | None => RaisedInvalidIsoformat s
        end
    | _ => Raised TypeError
    end (fun date =>
  bind_outcome (of_result (subscript data "file_path")) (fun file_path =>
  bind_outcome (of_result (get_or data "metadata" (PyDict []))) (fun metadata =>
  Returned
    {| loaded_case_id := case_id;
       loaded_title := title;
       loaded_date := date;
       loaded_file_path := file_path;
       loaded_text_content := text_content;
       loaded_metadata := match metadata with
                          | PyNone => PyDict []
                          | _ => metadata
                          end |})))))).

(** A document as the repository hands it back: the fields of
    [case_document] with no text and no vector. *)
Definition stored_view `{DateTime} (case_document : t) : loaded :=
  {| loaded_case_id := PyStr (case_id case_document);
     loaded_title := PyStr (title case_document);
     loaded_date := date case_document;
     loaded_file_path := PyStr (file_path case_document);
     loaded_text_content := "";
     loaded_metadata := PyDict (metadata case_document) |}.

(** [s[:k]] on a string, for a Python integer [k]. *)
Definition str_slice_to (k : Z) (s : string) : string :=
  if k <? 0
  then SimilaritySearchEngine.prefix (Z.to_nat (Z.of_nat (String.length s) + k)) s
  else SimilaritySearchEngine.prefix (Z.to_nat k) s.

(** [get_snippet(max_length)]. *)
Definition get_snippet `{DateTime} (self : t) (max_length : Z) : string :=
  if Z.of_nat (String.length (text_content self)) <=? max_length
  then text_content self
  else str_slice_to max_length (text_content self) ++ "...".

(** A stand-in for the library, used to run examples: a date is kept as
    its ISO text, and the texts of ten characters are the ones accepted. *)
#[export] Instance TextDate : DateTime := {|
  datetime := string;
  isoformat := fun d => d;
  fromisoformat := fun s => if Nat.eqb (String.length s) 10 then Some s else None
|}.

End CaseDocument.

(** ** Python equality on the values of a JSON document *)

Module PyCompare.

(** The integer a float is exactly equal to, when there is one. *)
Definition float_to_Z (f : float) : option Z :=
  match Prim2SF f with
  | S754_zero _ => Some 0
  | S754_finite s m e =>
      let magnitude :=
        if 0 <=? e then Some (Zpos m * 2 ^ e)
        else if (Zpos m) mod (2 ^ (- e)) =? 0 then Some (Zpos m / 2 ^ (- e))
        else None in
      option_map (fun z => if s then - z else z) magnitude
  | _ => None
  end.

(** [v == z] for a Python integer [z]: [True] and [False] are the integers
    1 and 0, a float is compared by its exact value, and a value of any
    other type is not equal to an integer. *)
Definition eq_int (v : py_value) (z : Z) : bool :=
  match v with
  | PyInt n => n =? z
  | PyBool b => (if b then 1 else 0) =? z
  | PyFloat f =>
      match float_to_Z f with
      | Some n => n =? z
      | None => false
      end
  | _ => false
  end.

(** [a == b] between two hashable values. *)
Definition eq_scalar (a b : py_value) : bool :=
  match a, b with
  | PyNone, PyNone => true
  | PyStr s, PyStr t => String.eqb s t
  | PyInt n, _ => eq_int b n
  | PyBool x, _ => eq_int b (if x then 1 else 0)
  | PyFloat f, PyFloat g => PrimFloat.eqb f g
  | PyFloat _, _ =>
      match b with
      | PyInt n => eq_int a n
      | PyBool y => eq_int a (if y then 1 else 0)
      | _ => false
      end
  | _, _ => false
  end.

(** Lists and dicts cannot be members of a set. *)
Definition hashable (v : py_value) : bool :=
  match v with
  | PyList _ | PyDict _ => false
  | _ => true
  end.

(** Set membership compares by identity before it compares by [==]; the
    NaN of a JSON document is one object, equal to no float and
    identical to itself. *)
Definition same_nan (a b : py_value) : bool :=
  match a, b with
  | PyFloat f, PyFloat g => PrimFloat.is_nan f && PrimFloat.is_nan g
  | _, _ => false
  end.

(** [x in seen] for a set of hashable values. *)
Definition member (x : py_value) (seen : list py_value) : bool :=
  existsb (fun y => same_nan x y || eq_scalar x y) seen.

(** The distinct members of [set(values)], in order of first occurrence. *)
Fixpoint distinct_from (seen values : list py_value) : list py_value :=
  match values with
  | [] => []
  | x :: rest =>
      if member x seen then distinct_from seen rest
      else x :: distinct_from (x :: seen) rest
  end.

Definition distinct (values : list py_value) : list py_value :=
  distinct_from [] values.

End PyCompare.

(** ** components/case_repository.py *)

Module CaseRepository.

Definition SCHEMA_VERSION : string := "1.0".
Definition REQUIRED_CASE_FIELDS : list string :=
  ["case_id"; "title"; "date"; "file_path"].
Definition MAX_REPOSITORY_SIZE : Z := 1000.

(** The two files of the data directory.  A file is absent, holds bytes
    its reader rejects, or holds a value. *)
Inductive json_file : Type :=
| Unparsable
| Json (data : py_value).

Inductive pickle_file : Type :=
| Unpicklable
| Pickled (vectors : ndarray).

Record files : Type := mk_files {
  metadata_file : option json_file;   (* data/cases_metadata.json *)
  vectors_file : option pickle_file   (* data/vectors/case_vectors.pkl *)
}.

(** What a call finds around it: the clock, and whether each file can be
    opened for writing ([open(path, 'w')] raises [OSError] otherwise and
    leaves the file as it was). *)
Record io_env : Type := mk_env {
  now : string;                       (* datetime.now().isoformat() *)
  metadata_writable : bool;
  vectors_writable : bool
}.

(** A method: it reads and writes the files, and returns or raises.  The
    files stay as they are at the moment of a raise. *)
Definition io (A : Type) : Type := files -> files * result A.

Definition ret {A : Type} (a : A) : io A := fun fs => (fs, Ok a).
Definition raise {A : Type} (e : exn) : io A := fun fs => (fs, Err e).
Definition lift {A : Type} (r : result A) : io A := fun fs => (fs, r).
Definition bind_io {A B : Type} (m : io A) (k : A -> io B) : io B :=
  fun fs =>
    match m fs with
    | (fs', Ok a) => k a fs'
    | (fs', Err e) => (fs', Err e)
    end.

Notation "x <- m ;; k" := (bind_io m (fun x => k))
  (at level 61, m at next level, right associativity).
Notation "m ;;; k" := (bind_io m (fun _ => k))
  (at level 61, right associativity).

(** The report of [validate_repository].  An issue carries the data its
    message is formatted from. *)
Module Report.

Inductive issue : Type :=
| SchemaError (error : string)
| CaseError (i : nat) (error : string)
| CapacityExceededIssue (count : nat)
| CountMismatch (metadata_count vector_count : nat)
| DuplicateIdsFound
| DuplicateIds (ids : list string)     (* joined in the order of the set *)
| IncorrectVectorIndex (case_id : py_value) (expected : nat) (actual : py_value)
| TotalCasesMismatch (declared : py_value) (actual : nat)
| MetadataFileNotFound
| InvalidJsonInFile
| ErrorDuringValidation (e : exn).

Record t : Type := mk {
  metadata_count : nat;
  vector_count : nat;
  consistent : bool;
  issues : list issue;
  schema_valid : bool;
  capacity_ok : bool
}.

(** The dict [results] starts from. *)
Definition initial : t :=
  {| metadata_count := 0; vector_count := 0; consistent := true;
     issues := []; schema_valid := true; capacity_ok := true |}.

(** [results['consistent'] = False] and [results['issues'].extend(found)]. *)
Definition flag (found : list issue) (r : t) : t :=
  {| metadata_count := metadata_count r; vector_count := vector_count r;
     consistent := false; issues := issues r ++ found;
     schema_valid := schema_valid r; capacity_ok := capacity_ok r |}.

Definition set_metadata_count (n : nat) (r : t) : t :=
  {| metadata_count := n; vector_count := vector_count r;
     consistent := consistent r; issues := issues r;
     schema_valid := schema_valid r; capacity_ok := capacity_ok r |}.

Definition set_vector_count (n : nat) (r : t) : t :=
  {| metadata_count := metadata_count r; vector_count := n;
     consistent := consistent r; issues := issues r;
     schema_valid := schema_valid r; capacity_ok := capacity_ok r |}.

Definition clear_schema_valid (r : t) : t :=
  {| metadata_count := metadata_count r; vector_count := vector_count r;
     consistent := consistent r; issues := issues r;
     schema_valid := false; capacity_ok := capacity_ok r |}.

Definition clear_capacity_ok (r : t) : t :=
  {| metadata_count := metadata_count r; vector_count := vector_count r;
     consistent := consistent r; issues := issues r;
     schema_valid := schema_valid r; capacity_ok := false |}.

End Report.

(** [', '.join(names)]. *)
Fixpoint join_comma (names : list string) : string :=
  match names with
  | [] => ""
  | [n] => n
  | n :: rest => n ++ ", " ++ join_comma rest
  end.

(** The test [not isinstance(v, str) or not v.strip()], negated. *)
Definition nonempty_str (v : py_value) : bool :=
  match v with
  | PyStr s => strip_nonempty s
  | _ => false
  end.

Section Methods.
Context `{CaseDocument.DateTime}.

(** [_save_metadata(data)]. *)
Definition _save_metadata (env : io_env) (data : py_value) : io unit :=
  fun fs =>
    if metadata_writable env
    then ({| metadata_file := Some (Json data); vectors_file := vectors_file fs |}, Ok tt)
    else (fs, Err MetadataWriteError).

(** [_initialize_metadata_file()]. *)
Definition _initialize_metadata_file (env : io_env) : io unit :=
  let initial_metadata :=
    PyDict [("cases", PyList []);
            ("metadata",
             PyDict [("version", PyStr SCHEMA_VERSION);
                     ("created_at", PyStr (now env));
                     ("last_updated", PyStr (now env));
                     ("total_cases", PyInt 0);
                     ("schema_version", PyStr SCHEMA_VERSION)])] in
  _save_metadata env initial_metadata.

(** [__init__(data_dir)]: the metadata file is created when it is missing. *)
Definition init (env : io_env) : io unit :=
  fun fs =>
    match metadata_file fs with
    | None => _initialize_metadata_file env fs
    | Some _ => (fs, Ok tt)
    end.

(** The error list of [_validate_case_metadata] for a dict. *)
Definition case_errors (case_data : dict) : list string :=
  let missing_fields :=
    filter (fun f => negb (dict_mem f case_data)) REQUIRED_CASE_FIELDS in
  ((match missing_fields with
   | [] => []
   | _ => [("Missing required fields: " ++ join_comma missing_fields)%string]
   end)
  ++ (match dict_get "case_id" case_data with
      | Some v => if nonempty_str v then []
                  else ["case_id must be a non-empty string"]
      | None => []
      end)
  ++ (match dict_get "title" case_data with
      | Some v => if nonempty_str v then []
                  else ["title must be a non-empty string"]
      | None => []
      end)
  ++ (match dict_get "date" case_data with
      | Some (PyStr s) =>
          match CaseDocument.fromisoformat s with
          | Some _ => []
          | None => ["date must be a valid ISO format datetime string"]
          end
      | Some _ => ["date must be a string in ISO format"]
      | None => []
      end)
  ++ (match dict_get "file_path" case_data with
      | Some v => if nonempty_str v then []
                  else ["file_path must be a non-empty string"]
      | None => []
      end)
  ++ (match dict_get "vector_index" case_data with
      | Some (PyInt z) =>
          if z <? 0 then ["vector_index must be a non-negative integer"] else []
      | Some (PyBool _) => []
      | Some _ => ["vector_index must be a non-negative integer"]
      | None => []
      end)
  ++ (match dict_get "metadata" case_data with
      | Some PyNone => []
      | Some (PyDict _) => []
      | Some _ => ["metadata must be a dictionary"]
      | None => []
      end))%list.

(** [_validate_case_metadata(case_data)]; [case_data.keys()] needs a dict. *)
Definition _validate_case_metadata (case_data : py_value) : result (list string) :=
  match case_data with
  | PyDict d => Ok (case_errors d)
  | _ => Err AttributeError
  end.

(** [k in v] for a list or a string [v]. *)
Definition list_has_str (k : string) (l : list py_value) : bool :=
  existsb (fun v => match v with PyStr s => String.eqb s k | _ => false end) l.
Definition str_has (k s : string) : bool :=
  match String.index 0 k s with Some _ => true | None => false end.

(** [_validate_metadata_structure(metadata)].  On a value that is not a
    dict the membership tests still run on lists and strings, and the
    subscript that follows a successful one raises [TypeError]. *)
Definition _validate_metadata_structure (metadata : py_value) : result (list string) :=
  let meta_fields :=
    ["version"; "created_at"; "last_updated"; "total_cases"; "schema_version"] in
  let no_dict (has_cases has_metadata : bool) : result (list string) :=
    if has_cases || has_metadata then Err TypeError
    else Ok ["Missing 'cases' field in metadata";
             "Missing 'metadata' field in metadata"] in
  match metadata with
  | PyDict d =>
      Ok ((match dict_get "cases" d with
           | None => ["Missing 'cases' field in metadata"]
           | Some v => if is_list v then [] else ["'cases' field must be a list"]
           end)
          ++ (match dict_get "metadata" d with
              | None => ["Missing 'metadata' field in metadata"]
              | Some (PyDict meta_section) =>
                  match filter (fun f => negb (dict_mem f meta_section)) meta_fields with
                  | [] => []
                  | missing => [("Missing metadata fields: " ++ join_comma missing)%string]
                  end
              | Some _ => ["'metadata' field must be a dictionary"]
              end))%list
  | PyList l => no_dict (list_has_str "cases" l) (list_has_str "metadata" l)
  | PyStr s => no_dict (str_has "cases" s) (str_has "metadata" s)
  | _ => Err TypeError
  end.

(** The loop [for i, case_data in enumerate(cases)] that validates each
    case and raises on the first one with errors. *)
Fixpoint check_cases (cases : list py_value) : result unit :=
  match cases with
  | [] => Ok tt
  | case_data :: rest =>
      bind (_validate_case_metadata case_data) (fun errors =>
      match errors with
      | [] => check_cases rest
      | _ => Err (InvalidCaseData errors)
      end)
  end.

(** The [try] block of [load_case_metadata] on the parsed file. *)
Definition load_body (data : py_value) : result (list py_value) :=
  bind (_validate_metadata_structure data) (fun structure_errors =>
  match structure_errors with
  | _ :: _ => Err (InvalidMetadataStructure structure_errors)
  | [] =>
      bind (get_or data "cases" (PyList [])) (fun cases =>
      match cases with
      | PyList cases => bind (check_cases cases) (fun _ => Ok cases)
      | _ => Err TypeError
      end)
  end).

(** [load_case_metadata()]: a missing file is initialised and read as
    empty, invalid JSON and every other failure become [ValueError]. *)
Definition load_case_metadata (env : io_env) : io (list py_value) :=
  fun fs =>
    match metadata_file fs with
    | None => (_initialize_metadata_file env ;;; ret []) fs
    | Some Unparsable => (fs, Err InvalidJSON)
    | Some (Json data) =>
        match load_body data with
        | Ok cases => (fs, Ok cases)
        | Err _ => (fs, Err ErrorLoadingMetadata)
        end
    end.

(** [_get_creation_time()]. *)
Definition _get_creation_time (env : io_env) : io py_value :=
  fun fs =>
    match metadata_file fs with
    | None | Some Unparsable => (fs, Ok (PyStr (now env)))
    | Some (Json existing_data) =>
        (fs, bind (get_or existing_data "metadata" (PyDict [])) (fun m =>
             get_or m "created_at" (PyStr (now env))))
    end.

(** [save_case_metadata(cases_metadata)]. *)
Definition save_case_metadata (env : io_env) (cases_metadata : list py_value) : io unit :=
  lift (check_cases cases_metadata) ;;;
  if Z.of_nat (List.length cases_metadata) >? MAX_REPOSITORY_SIZE
  then raise CapacityExceeded
  else
    created_at <- _get_creation_time env ;;
    _save_metadata env
      (PyDict [("cases", PyList cases_metadata);
               ("metadata",
                PyDict [("version", PyStr SCHEMA_VERSION);
                        ("created_at", created_at);
                        ("last_updated", PyStr (now env));
                        ("total_cases", PyInt (Z.of_nat (List.length cases_metadata)));
                        ("schema_version", PyStr SCHEMA_VERSION)])]).

(** [load_case_vectors()]: [None] when the file is missing or unreadable. *)
Definition load_case_vectors : io (option ndarray) :=
  fun fs =>
    match vectors_file fs with
    | Some (Pickled vectors) => (fs, Ok (Some vectors))
    | _ => (fs, Ok None)
    end.

(** [save_case_vectors(vectors)]. *)
Definition save_case_vectors (env : io_env) (vectors : ndarray) : io unit :=
  fun fs =>
    if vectors_writable env
    then ({| metadata_file := metadata_file fs; vectors_file := Some (Pickled vectors) |}, Ok tt)
    else (fs, Err VectorWriteError).

(** [case['case_id'] == case_id] for a loaded case. *)
Definition has_case_id (case_id : string) (case : py_value) : result bool :=
  bind (subscript case "case_id") (fun v =>
  Ok match v with
     | PyStr s => String.eqb s case_id
     | _ => false
     end).

(** The first case with the given id and its position, as the generator
    under [next] and the loop with [break] find it. *)
Fixpoint find_case (case_id : string) (i : nat) (cases : list py_value)
  : result (option (nat * py_value)) :=
  match cases with
  | [] => Ok None
  | case :: rest =>
      bind (has_case_id case_id case) (fun found =>
      if found then Ok (Some (i, case)) else find_case case_id (S i) rest)
  end.

(** [case['vector_index'] = i] on each case of the list, from position [i]. *)
Fixpoint renumber (i : nat) (cases : list py_value) : result (list py_value) :=
  match cases with
  | [] => Ok []
  | PyDict d :: rest =>
      bind (renumber (S i) rest) (fun rest' =>
      Ok (PyDict (dict_set "vector_index" (PyInt (Z.of_nat i)) d) :: rest'))
  | _ :: _ => Err TypeError
  end.

(** [add_case(case_document, vector)]. *)
Definition add_case (env : io_env) (case_document : CaseDocument.t)
    (vector : Np.vector) : io unit :=
  cases_metadata <- load_case_metadata env ;;
  if Z.of_nat (List.length cases_metadata) >=? MAX_REPOSITORY_SIZE
  then raise CapacityExceeded
  else
    existing_case <- lift (find_case (CaseDocument.case_id case_document) 0 cases_metadata) ;;
    if match existing_case with
       | Some (_, case) => truthy case
       | None => false
       end
    then raise (CaseAlreadyExists (CaseDocument.case_id case_document))
    else
      let case_dict :=
        dict_set "vector_index" (PyInt (Z.of_nat (List.length cases_metadata)))
                 (CaseDocument.to_dict case_document) in
      match case_errors case_dict with
      | _ :: _ as errors => raise (InvalidCaseData errors)
      | [] =>
          let cases_metadata := (cases_metadata ++ [PyDict case_dict])%list in
          save_case_metadata env cases_metadata ;;;
          existing_vectors <- load_case_vectors ;;
          new_vectors <- lift
            match existing_vectors with
            | Some existing => vstack existing (reshape_row vector)
            | None => Ok (reshape_row vector)
            end ;;
          save_case_vectors env new_vectors
      end.

(** [get_case_count()]. *)
Definition get_case_count (env : io_env) : io nat :=
  cases_metadata <- load_case_metadata env ;;
  ret (List.length cases_metadata).

(** [remove_case(case_id)]. *)
Definition remove_case (env : io_env) (case_id : string) : io bool :=
  cases_metadata <- load_case_metadata env ;;
  found <- lift (find_case case_id 0 cases_metadata) ;;
  match found with
  | None => ret false
  | Some (remove_index, _) =>
      cases_metadata <- lift (renumber 0 (remove_nth remove_index cases_metadata)) ;;
      save_case_metadata env cases_metadata ;;;
      existing_vectors <- load_case_vectors ;;
      match existing_vectors with
      | Some existing =>
          if (remove_index <? len existing)%nat
          then save_case_vectors env (delete_row existing remove_index) ;;; ret true
          else ret true
      | None => ret true
      end
  end.

(** One call of a mutating method, and a sequence of calls, each with the
    environment it runs in; the files pass from one call to the next
    whether it returned or raised. *)
Inductive operation : Type :=
| AddCase (case_document : CaseDocument.t) (vector : Np.vector)
| RemoveCase (case_id : string).

Definition call (env : io_env) (op : operation) : io py_value :=
  match op with
  | AddCase case_document vector =>
      add_case env case_document vector ;;; ret PyNone
  | RemoveCase case_id =>
      removed <- remove_case env case_id ;; ret (PyBool removed)
  end.

Fixpoint run (calls : list (io_env * operation)) (fs : files)
  : files * list (result py_value) :=
  match calls with
  | [] => (fs, [])
  | (env, op) :: rest =>
      let (fs', r) := call env op fs in
      let (fs'', rs) := run rest fs' in
      (fs'', r :: rs)
  end.

(** [l] with its element at position [i] replaced. *)
Fixpoint replace_nth {A : Type} (i : nat) (x : A) (l : list A) : list A :=
  match l, i with
  | [], _ => []
  | _ :: l', O => x :: l'
  | y :: l', S i' => y :: replace_nth i' x l'
  end.

(** [d.update(updates)]. *)
Definition dict_update (updates d : dict) : dict :=
  fold_left (fun acc kv => dict_set (fst kv) (snd kv) acc) updates d.

(** [get_case_by_id(case_id)].  The cases come validated from the load,
    so [os.path.exists] is handed a string; the branch it guards does
    nothing. *)
Definition get_case_by_id (env : io_env) (case_id : string)
  : files -> files * CaseDocument.outcome (option CaseDocument.loaded) :=
  fun fs =>
    match load_case_metadata env fs with
    | (fs', Err e) => (fs', CaseDocument.Raised e)
    | (fs', Ok cases_metadata) =>
        (fs',
         CaseDocument.bind_outcome
           (CaseDocument.of_result (find_case case_id 0 cases_metadata))
           (fun found =>
              match found with
              | None => CaseDocument.Returned None
              | Some (_, case_data) =>
                  CaseDocument.bind_outcome
                    (CaseDocument.of_result (subscript case_data "file_path"))
                    (fun _ =>
                  CaseDocument.bind_outcome (CaseDocument.from_dict case_data "")
                    (fun document => CaseDocument.Returned (Some document)))
              end))
    end.

(** The loop of [get_all_cases]. *)
Fixpoint from_dicts (cases : list py_value)
  : CaseDocument.outcome (list CaseDocument.loaded) :=
  match cases with
  | [] => CaseDocument.Returned []
  | case_data :: rest =>
      CaseDocument.bind_outcome (CaseDocument.from_dict case_data "") (fun case_doc =>
      CaseDocument.bind_outcome (from_dicts rest) (fun docs =>
      CaseDocument.Returned (case_doc :: docs)))
  end.

(** [get_all_cases()]. *)
Definition get_all_cases (env : io_env)
  : files -> files * CaseDocument.outcome (list CaseDocument.loaded) :=
  fun fs =>
    match load_case_metadata env fs with
    | (fs', Err e) => (fs', CaseDocument.Raised e)
    | (fs', Ok cases_metadata) => (fs', from_dicts cases_metadata)
    end.

(** [update_case_metadata(case_id, updates)]. *)
Definition update_case_metadata (env : io_env) (case_id : string) (updates : dict)
  : io bool :=
  cases_metadata <- load_case_metadata env ;;
  found <- lift (find_case case_id 0 cases_metadata) ;;
  match found with
  | None => ret false
  | Some (case_index, case) =>
      match case with
      | PyDict d =>
          let updated_case := dict_update updates d in
          match case_errors updated_case with
          | _ :: _ as errors => raise (InvalidCaseData errors)
          | [] =>
              save_case_metadata env
                (replace_nth case_index (PyDict updated_case) cases_metadata) ;;;
              ret true
          end
      | _ => raise AttributeError
      end
  end.

(** The loop of [validate_repository] over the cases; a case that is not a
    dict makes [_validate_case_metadata] raise in the middle of it. *)
Fixpoint validate_cases (i : nat) (cases : list py_value) (results : Report.t)
  : Report.t * option exn :=
  match cases with
  | [] => (results, None)
  | case_data :: rest =>
      match _validate_case_metadata case_data with
      | Err e => (results, Some e)
      | Ok [] => validate_cases (S i) rest results
      | Ok case_errors =>
          validate_cases (S i) rest
            (Report.flag (map (Report.CaseError i) case_errors) results)
      end
  end.

(** The ids that occur again after an earlier occurrence: the set
    [duplicates], in order of first repetition. *)
Fixpoint repeated_from (seen : list py_value) (case_ids : list py_value) : list py_value :=
  match case_ids with
  | [] => []
  | case_id :: rest =>
      if PyCompare.member case_id seen
      then case_id :: repeated_from (case_id :: seen) rest
      else repeated_from (case_id :: seen) rest
  end.

Definition duplicates_of (case_ids : list py_value) : list py_value :=
  PyCompare.distinct (repeated_from [] case_ids).

(** [', '.join(duplicates)] needs strings. *)
Fixpoint as_strings (values : list py_value) : result (list string) :=
  match values with
  | [] => Ok []
  | PyStr s :: rest => bind (as_strings rest) (fun names => Ok (s :: names))
  | _ :: _ => Err TypeError
  end.

(** The check for duplicate case ids. *)
Definition validate_duplicates (case_ids : list py_value) (results : Report.t)
  : Report.t * option exn :=
  if negb (forallb PyCompare.hashable case_ids) then (results, Some TypeError)
  else if negb (Nat.eqb (List.length case_ids) (List.length (PyCompare.distinct case_ids)))
  then
    let results := Report.flag [Report.DuplicateIdsFound] results in
    match as_strings (duplicates_of case_ids) with
    | Ok names => (Report.flag [Report.DuplicateIds names] results, None)
    | Err e => (results, Some e)
    end
  else (results, None).

(** The loop that checks each [vector_index] against its position. *)
Fixpoint validate_indices (i : nat) (cases : list py_value) (results : Report.t)
  : Report.t * option exn :=
  match cases with
  | [] => (results, None)
  | case :: rest =>
      match get_or case "vector_index" (PyInt (-1)) with
      | Err e => (results, Some e)
      | Ok actual_index =>
          if negb (PyCompare.eq_int actual_index (Z.of_nat i))
          then
            match subscript case "case_id" with
            | Err e => (Report.flag [] results, Some e)
            | Ok case_id =>
                validate_indices (S i) rest
                  (Report.flag [Report.IncorrectVectorIndex case_id i actual_index]
                               results)
            end
          else validate_indices (S i) rest results
      end
  end.

(** The [try] block of [validate_repository] after the file was parsed:
    the report as it stands when the block ends, and the exception that
    ended it, if one did. *)
Definition validate_body (full_metadata : py_value) (fs : files)
  : Report.t * option exn :=
  let results := Report.initial in
  match _validate_metadata_structure full_metadata with
  | Err e => (results, Some e)
  | Ok (_ :: _ as structure_errors) =>
      (Report.flag (map Report.SchemaError structure_errors)
                   (Report.clear_schema_valid results), None)
  | Ok [] =>
      match get_or full_metadata "cases" (PyList []) with
      | Ok (PyList cases_metadata) =>
          let results := Report.set_metadata_count (List.length cases_metadata) results in
          match validate_cases 0 cases_metadata results with
          | (results, Some e) => (results, Some e)
          | (results, None) =>
              let results :=
                if Z.of_nat (List.length cases_metadata) >? MAX_REPOSITORY_SIZE
                then Report.flag
                       [Report.CapacityExceededIssue (List.length cases_metadata)]
                       (Report.clear_capacity_ok results)
                else results in
              let vectors := snd (load_case_vectors fs) in
              let results :=
                match vectors with
                | Ok (Some vectors) =>
                    let results := Report.set_vector_count (len vectors) results in
                    if negb (Nat.eqb (List.length cases_metadata) (len vectors))
                    then Report.flag
                           [Report.CountMismatch (List.length cases_metadata) (len vectors)]
                           results
                    else results
                | _ => Report.set_vector_count 0 results
                end in
              match mapM (fun case => subscript case "case_id") cases_metadata with
              | Err e => (results, Some e)
              | Ok case_ids =>
                  match validate_duplicates case_ids results with
                  | (results, Some e) => (results, Some e)
                  | (results, None) =>
                      match validate_indices 0 cases_metadata results with
                      | (results, Some e) => (results, Some e)
                      | (results, None) =>
                          match bind (get_or full_metadata "metadata" (PyDict []))
                                     (fun meta_section =>
                                        get_or meta_section "total_cases" (PyInt 0)) with
                          | Err e => (results, Some e)
                          | Ok total_cases =>
                              if negb (PyCompare.eq_int total_cases
                                         (Z.of_nat (List.length cases_metadata)))
                              then (Report.flag
                                      [Report.TotalCasesMismatch total_cases
                                         (List.length cases_metadata)] results, None)
                              else (results, None)
                          end
                      end
                  end
              end
          end
      | Ok _ => (results, Some TypeError)
      | Err e => (results, Some e)
      end
  end.

(** [validate_repository()]: the [try] block and its handlers.  It reads
    the two files and writes none. *)
Definition validate_repository (fs : files) : Report.t :=
  match metadata_file fs with
  | None => Report.flag [Report.MetadataFileNotFound] Report.initial
  | Some Unparsable =>
      Report.flag [Report.InvalidJsonInFile]
                  (Report.clear_schema_valid Report.initial)
  | Some (Json full_metadata) =>
      match validate_body full_metadata fs with
      | (results, None) => results
      | (results, Some e) => Report.flag [Report.ErrorDuringValidation e] results
      end
  end.

(** *** Reading a state *)

(** The cases a present, well-formed metadata file holds: what
    [load_case_metadata] returns without touching the files. *)
Definition stored_cases (fs : files) : option (list py_value) :=
  match metadata_file fs with
  | Some (Json data) =>
      match load_body data with
      | Ok cases => Some cases
      | Err _ => None
      end
  | _ => None
  end.

(** The number of vector rows, counted as [validate_repository] counts
    them: [len(vectors)], and 0 when no array can be loaded. *)
Definition vector_count (fs : files) : nat :=
  match vectors_file fs with
  | Some (Pickled vectors) => len vectors
  | _ => 0%nat
  end.

(** The rows of the stored array. *)
Definition stored_rows (fs : files) : list Np.vector :=
  match vectors_file fs with
  | Some (Pickled vectors) => rows vectors
  | _ => []
  end.

(** The repository index invariant: the i-th record has [vector_index] i,
    and there are as many vector rows as records. *)
Definition index_invariant (fs : files) : Prop :=
  exists cases,
    stored_cases fs = Some cases
    /\ (forall i case, nth_error cases i = Some case ->
                       subscript case "vector_index" = Ok (PyInt (Z.of_nat i)))
    /\ vector_count fs = List.length cases.

(** The record [add_case] appends for a document, at position [n]. *)
Definition new_record (case_document : CaseDocument.t) (n : nat) : py_value :=
  PyDict (dict_set "vector_index" (PyInt (Z.of_nat n))
                   (CaseDocument.to_dict case_document)).

(** A case that passes [_validate_case_metadata]. *)
Definition valid_case (case : py_value) : Prop :=
  exists d, case = PyDict d /\ case_errors d = [].

(** Some stored case carries the id. *)
Definition has_id (case_id : string) (cases : list py_value) : Prop :=
  exists case, In case cases /\ subscript case "case_id" = Ok (PyStr case_id).

(** The [total_cases] the metadata file declares. *)
Definition stored_total (fs : files) : option py_value :=
  match metadata_file fs with
  | Some (Json (PyDict d)) =>
      match dict_get "metadata" d with
      | Some (PyDict m) => dict_get "total_cases" m
      | _ => None
      end
  | _ => None
  end.


(** The records of a list of documents, numbered from [i]. *)
Fixpoint records_from (i : nat) (docs : list CaseDocument.t) : list py_value :=
  match docs with
  | [] => []
  | case_document :: rest => new_record case_document i :: records_from (S i) rest
  end.

(** The metadata file holds the records of [docs], densely numbered,
    with unique ids, within capacity, and declares their count. *)
Definition tracks (docs : list CaseDocument.t) (fs : files) : Prop :=
  stored_cases fs = Some (records_from 0 docs)
  /\ NoDup (map CaseDocument.case_id docs)
  /\ Z.of_nat (List.length docs) <= MAX_REPOSITORY_SIZE
  /\ stored_total fs = Some (PyInt (Z.of_nat (List.length docs))).

(** [docs] without the first document that carries the id. *)
Fixpoint remove_first (case_id : string) (docs : list CaseDocument.t)
  : list CaseDocument.t :=
  match docs with
  | [] => []
  | d :: rest =>
      if String.eqb (CaseDocument.case_id d) case_id then rest
      else d :: remove_first case_id rest
  end.

End Methods.

(** The failures that arise in the vector step of a call, after its
    metadata write. *)
Definition late_failure (e : exn) : bool :=
  match e with
  | ShapeMismatch | VectorWriteError => true
  | _ => false
  end.


Section Replay.
Context `{CaseDocument.DateTime}.



End Replay.

(** The data directory before the repository is first constructed. *)
Definition no_files : files := {| metadata_file := None; vectors_file := None |}.

End CaseRepository.

(** ** api/main.py *)

Module Api.
Import CaseRepository.

Section Startup.
Context `{CaseDocument.DateTime}.

(** The start of the application, lines 77-85: the stored vectors and
    metadata are loaded, and the search engine is built when there are
    vectors and at least one case; otherwise there is no engine.  An
    exception of the load or of the engine's constructor ends the start. *)
Definition initialize_engine (env : io_env) : io (option SimilaritySearchEngine.t) :=
  case_vectors <- load_case_vectors ;;
  case_metadata <- load_case_metadata env ;;
  match case_vectors, case_metadata with
  | Some vectors, _ :: _ =>
      similarity_engine <- lift (SimilaritySearchEngine.init vectors case_metadata) ;;
      ret (Some similarity_engine)
  | _, _ => ret None
  end.

End Startup.

End Api.

(** ** The order of binary64 numbers

    Comparisons of primitive floats are specified through [Prim2SF]; the
    rank below places every float on a lexicographic scale of integers
    on which [<] reads as arithmetic, with NaN on top as numpy sorts it. *)

Module FloatOrder.

Definition rank : Type := (Z * (Z * Z))%type.

Definition sf_rank (x : spec_float) : rank :=
  match x with
  | S754_nan => (3, (0, 0))
  | S754_infinity false => (2, (0, 0))
  | S754_infinity true => (-2, (0, 0))
  | S754_zero _ => (0, (0, 0))
  | S754_finite false m e => (1, (e, Zpos m))
  | S754_finite true m e => (-1, (- e, Zneg m))
  end.

Definition frank (x : float) : rank := sf_rank (Prim2SF x).

Definition rank_lt (a b : rank) : Prop :=
  fst a < fst b \/
  (fst a = fst b /\
   (fst (snd a) < fst (snd b) \/
    (fst (snd a) = fst (snd b) /\ snd (snd a) < snd (snd b)))).





End FloatOrder.
Import FloatOrder.

(** ** Example data *)

Module Examples.

(** A metadata entry as the repository stores it. *)
Definition entry (case_id title : string) (index : Z) : py_value :=
  PyDict [("case_id", PyStr case_id);
          ("title", PyStr title);
          ("date", PyStr "2024-01-15");
          ("file_path", PyStr ("data/cases/" ++ case_id ++ ".pdf"));
          ("metadata", PyDict []);
          ("vector_index", PyInt index)].







(** Documents and environments for the repository. *)
Definition document (case_id title : string) : CaseDocument.t (H := CaseDocument.TextDate) :=
  @CaseDocument.mk CaseDocument.TextDate
    case_id title "2024-01-15" ("data/cases/" ++ case_id ++ ".pdf") "" None [].

Definition healthy : CaseRepository.io_env :=
  {| CaseRepository.now := "2024-02-01T10:00:00";
     CaseRepository.metadata_writable := true;
     CaseRepository.vectors_writable := true |}.

(** The vector file cannot be opened for writing. *)
Definition vectors_read_only : CaseRepository.io_env :=
  {| CaseRepository.now := "2024-02-01T10:00:00";
     CaseRepository.metadata_writable := true;
     CaseRepository.vectors_writable := false |}.


(** A freshly constructed repository. *)
Definition fresh : CaseRepository.files :=
  fst (CaseRepository.init healthy CaseRepository.no_files).

(** The envelope [save_case_metadata] writes around a list of cases. *)
Definition envelope (cases : list py_value) : py_value :=
  PyDict [("cases", PyList cases);
          ("metadata",
           PyDict [("version", PyStr "1.0");
                   ("created_at", PyStr "2024-02-01T10:00:00");
                   ("last_updated", PyStr "2024-02-01T10:00:00");
                   ("total_cases", PyInt (Z.of_nat (List.length cases)));
                   ("schema_version", PyStr "1.0")])].

(** [n] cases with the ids c000, c001, c002, ... *)
Definition digit (i : nat) : ascii := ascii_of_nat (48 + Nat.modulo i 10).

Definition numbered_id (i : nat) : string :=
  String "c"%char
    (String (digit (Nat.div i 100))
       (String (digit (Nat.div i 10)) (String (digit i) EmptyString))).

Definition many_entries (n : nat) : list py_value :=
  map (fun i => entry (numbered_id i) "Some case" (Z.of_nat i)) (seq 0 n).

(** A repository at capacity: 1000 cases and their 1000 vectors. *)
Definition full : CaseRepository.files :=
  {| CaseRepository.metadata_file :=
       Some (CaseRepository.Json (envelope (many_entries 1000)));
     CaseRepository.vectors_file :=
       Some (CaseRepository.Pickled
               {| ncols := 2; rows := repeat [1; 0]%float 1000 |}) |}.

(** Two cases in the metadata file, and no vector file. *)
Definition two_without_vectors : CaseRepository.files :=
  {| CaseRepository.metadata_file :=
       Some (CaseRepository.Json
               (envelope [entry "case-a" "A" 0; entry "case-b" "B" 1]));
     CaseRepository.vectors_file := None |}.

(** Three cases are added and the middle one is removed. *)
Definition scenario_calls
  : list (CaseRepository.io_env * CaseRepository.operation (H := CaseDocument.TextDate)) :=
  [(healthy, CaseRepository.AddCase (document "case-1" "First") [1; 0; 0]%float);
   (healthy, CaseRepository.AddCase (document "case-2" "Second") [0; 1; 0]%float);
   (healthy, CaseRepository.AddCase (document "case-3" "Third") [0.7; 0.7; 0]%float);
   (healthy, CaseRepository.RemoveCase "case-2")].


(** The repository after one case was added to a fresh one. *)
Definition one_case : CaseRepository.files :=
  fst (CaseRepository.add_case (H := CaseDocument.TextDate) healthy
         (document "case-1" "First") [1; 0]%float fresh).

(** The second case is added while the vector file is read-only. *)
Definition torn : CaseRepository.files :=
  fst (CaseRepository.add_case (H := CaseDocument.TextDate) vectors_read_only
         (document "case-2" "Second") [0; 1]%float one_case).

(** A vocabulary of 200 terms, all in one category. *)
Definition many_terms (n : nat) : list string := map numbered_id (seq 0 n).

Definition vocabulary : LegalVocabulary.t :=
  {| LegalVocabulary._terms := many_terms 200;
     LegalVocabulary._categories := [("general", many_terms 200)];
     LegalVocabulary._weights := [] |}.

(** A vectorizer over two terms, fitted on two documents. *)
Definition two_terms : list string := ["contract"; "tort"].

Definition fitted_vectorizer : LegalVectorizer.t (H := LegalVectorizer.CountingTfidf) :=
  @LegalVectorizer.mk LegalVectorizer.CountingTfidf
    two_terms two_terms true (Some two_terms).

End Examples.

(* ================================================================== *)
(** * Part II: properties                                              *)
(* ================================================================== *)

(** ** Floats *)

Ltac cmp_cases :=
  repeat match goal with
  | |- context [Pos.compare_cont Eq ?a ?b] =>
      change (Pos.compare_cont Eq a b) with (Pos.compare a b)
  | |- context [Z.compare ?a ?b] => destruct (Z.compare_spec a b)
  | |- context [Pos.compare ?a ?b] => destruct (Pos.compare_spec a b)
  end.

Ltac sf_cases x y :=
  destruct x as [[]|[]| |[] ? ?], y as [[]|[]| |[] ? ?];
  cbn; cmp_cases; cbn;
  split; intros; try discriminate; try lia;
  try (repeat split; try lia; try discriminate).

Lemma SFltb_rank x y :
  SFltb x y = true <->
  (fst (sf_rank x) <> 3 /\ fst (sf_rank y) <> 3 /\ rank_lt (sf_rank x) (sf_rank y)).
Proof. unfold SFltb, SFcompare, rank_lt. sf_cases x y. Qed.

Lemma SFleb_rank x y :
  SFleb x y = true <->
  (fst (sf_rank x) <> 3 /\ fst (sf_rank y) <> 3 /\ ~ rank_lt (sf_rank y) (sf_rank x)).
Proof. unfold SFleb, SFcompare, rank_lt. sf_cases x y. Qed.

Lemma SFeqb_rank x y :
  SFeqb x y = true <->
  (fst (sf_rank x) <> 3 /\ fst (sf_rank x) = fst (sf_rank y)
   /\ fst (snd (sf_rank x)) = fst (snd (sf_rank y))
   /\ snd (snd (sf_rank x)) = snd (snd (sf_rank y))).
Proof. unfold SFeqb, SFcompare. sf_cases x y. Qed.

Lemma sf_rank_bound x :
  -2 <= fst (sf_rank x) <= 3
  /\ (fst (sf_rank x) <> 1 -> fst (sf_rank x) <> -1 ->
      fst (snd (sf_rank x)) = 0 /\ snd (snd (sf_rank x)) = 0).
Proof. destruct x as [[]|[]| |[] ? ?]; cbn; lia. Qed.

Lemma frank_bound x :
  -2 <= fst (frank x) <= 3
  /\ (fst (frank x) <> 1 -> fst (frank x) <> -1 ->
      fst (snd (frank x)) = 0 /\ snd (snd (frank x)) = 0).
Proof. apply sf_rank_bound. Qed.

Lemma ltb_rank x y :
  PrimFloat.ltb x y = true <->
  (fst (frank x) <> 3 /\ fst (frank y) <> 3 /\ rank_lt (frank x) (frank y)).
Proof. rewrite ltb_spec. apply SFltb_rank. Qed.

Lemma leb_rank x y :
  PrimFloat.leb x y = true <->
  (fst (frank x) <> 3 /\ fst (frank y) <> 3 /\ ~ rank_lt (frank y) (frank x)).
Proof. rewrite leb_spec. apply SFleb_rank. Qed.

Lemma eqb_rank x y :
  PrimFloat.eqb x y = true <->
  (fst (frank x) <> 3 /\ fst (frank x) = fst (frank y)
   /\ fst (snd (frank x)) = fst (snd (frank y))
   /\ snd (snd (frank x)) = snd (snd (frank y))).
Proof. rewrite eqb_spec. apply SFeqb_rank. Qed.

Lemma is_nan_rank x : PrimFloat.is_nan x = true <-> fst (frank x) = 3.
Proof.
  unfold PrimFloat.is_nan. rewrite negb_true_iff, <- not_true_iff_false, eqb_rank.
  pose proof (frank_bound x). split; intros; lia.
Qed.

Lemma np_lt_rank a b : np_lt a b = true <-> rank_lt (frank a) (frank b).
Proof.
  unfold np_lt. rewrite orb_true_iff, andb_true_iff, negb_true_iff.
  rewrite <- (not_true_iff_false (PrimFloat.is_nan a)), !is_nan_rank, ltb_rank.
  pose proof (frank_bound a). pose proof (frank_bound b).
  unfold rank_lt. split; intros; lia.
Qed.

Lemma np_lt_rank_false a b : np_lt a b = false <-> ~ rank_lt (frank a) (frank b).
Proof. rewrite <- not_true_iff_false, np_lt_rank. reflexivity. Qed.

Lemma ltb_rank_false x y :
  PrimFloat.ltb x y = false <->
  ~ (fst (frank x) <> 3 /\ fst (frank y) <> 3 /\ rank_lt (frank x) (frank y)).
Proof. rewrite <- not_true_iff_false, ltb_rank. reflexivity. Qed.

Lemma frank_0 : frank 0%float = (0, (0, 0)).
Proof. reflexivity. Qed.

Lemma frank_1 : frank 1%float = (1, (-52, 4503599627370496)).
Proof. reflexivity. Qed.

(** Every float fact in the context and the goal becomes arithmetic on
    ranks, which [lia] decides. *)
Ltac rank_facts :=
  repeat match goal with
  | H : PrimFloat.ltb _ _ = true |- _ => apply ltb_rank in H
  | H : PrimFloat.ltb _ _ = false |- _ => apply ltb_rank_false in H
  | H : PrimFloat.leb _ _ = true |- _ => apply leb_rank in H
  | H : PrimFloat.eqb _ _ = true |- _ => apply eqb_rank in H
  | H : np_lt _ _ = true |- _ => apply np_lt_rank in H
  | H : np_lt _ _ = false |- _ => apply np_lt_rank_false in H
  | H : PrimFloat.is_nan _ = true |- _ => apply is_nan_rank in H
  | |- PrimFloat.ltb _ _ = true => apply ltb_rank
  | |- PrimFloat.leb _ _ = true => apply leb_rank
  | |- np_lt _ _ = true => apply np_lt_rank
  | |- np_lt _ _ = false => apply np_lt_rank_false
  end;
  rewrite ?frank_0, ?frank_1 in *.

Ltac rank_lia :=
  rank_facts;
  repeat match goal with
  | |- context [frank ?x] =>
      let B := fresh "B" in
      pose proof (frank_bound x) as B;
      let r := fresh "r" in
      set (r := frank x) in *; clearbody r; destruct r as [? [? ?]]
  | H : context [frank ?x] |- _ =>
      let B := fresh "B" in
      pose proof (frank_bound x) as B;
      let r := fresh "r" in
      set (r := frank x) in *; clearbody r; destruct r as [? [? ?]]
  end;
  unfold rank_lt in *; cbn [fst snd] in *; lia.

Lemma ltb_leb x y : PrimFloat.ltb x y = true -> PrimFloat.leb x y = true.
Proof. intros. rank_lia. Qed.



(** ** Sorted lists *)

Section SortedLists.
Context {A : Type}.

Lemma StronglySorted_app_iff (R : A -> A -> Prop) (l1 l2 : list A) :
  StronglySorted R (l1 ++ l2) <->
  StronglySorted R l1 /\ StronglySorted R l2
  /\ (forall x y, In x l1 -> In y l2 -> R x y).
Proof.
  induction l1 as [|a l1 IH]; cbn.
  - split; [intros Hs | intros (_ & Hs & _); exact Hs].
    split; [constructor | split; [exact Hs | intros x y []]].
  - split.
    + intros Hs. inversion Hs as [|? ? Hs' Hall]; subst.
      apply IH in Hs' as (H1 & H2 & H12).
      rewrite Forall_app in Hall. destruct Hall as [Ha1 Ha2].
      split; [constructor; assumption|]. split; [assumption|].
      intros x y [<-|Hx] Hy.
      * rewrite Forall_forall in Ha2. auto.
      * auto.
    + intros (H1 & H2 & H12). inversion H1 as [|? ? H1' Hall]; subst.
      constructor.
      * apply IH. repeat split; auto.
      * rewrite Forall_app. split; [assumption|].
        rewrite Forall_forall. intros y Hy. apply H12; auto.
Qed.



Lemma In_firstn (n : nat) (l : list A) (x : A) : In x (firstn n l) -> In x l.
Proof.
  intros Hx. rewrite <- (firstn_skipn n l). apply in_or_app. left. exact Hx.
Qed.



End SortedLists.

(** ** numpy's argsort *)







(** ** The similarity search engine *)













Lemma nth_error_firstn_Some {A : Type} (n p : nat) (l : list A) (x : A) :
  nth_error (firstn n l) p = Some x -> nth_error l p = Some x.
Proof.
  revert p l. induction n as [|n IH]; intros p l Hp; cbn in Hp.
  - destruct p; discriminate.
  - destruct l as [|a l]; [destruct p; discriminate|].
    destruct p as [|p]; cbn in *; auto.
Qed.



(** ** Similarity bounds *)







(** ** The vectorizer before and after [fit] *)



(** ** The text normalizer on empty and non-string input *)



(** The scenario of the specification runs on the fallbacks. *)
Example preprocess_scenario :
  TextPreprocessor.preprocess (H := TextPreprocessor.NoNltk)
    (TextPreprocessor.init (H := TextPreprocessor.NoNltk) true)
    (PyStr "This is a TEST!!!")
  = Ok "test".
Proof. reflexivity. Qed.

(** ** The case repository *)

Section Repository.
Context `{DT : CaseDocument.DateTime}.
Import CaseRepository.
Arguments case_errors : simpl never.

Lemma dict_get_set k k' v d :
  dict_get k (dict_set k' v d) = if String.eqb k k' then Some v else dict_get k d.
Proof.
  induction d as [|[k0 v0] d IH]; cbn.
  - destruct (String.eqb k k'); reflexivity.
  - destruct (String.eqb k' k0) eqn:E0; cbn.
    + apply String.eqb_eq in E0. subst k0. destruct (String.eqb k k'); reflexivity.
    + destruct (String.eqb k k0) eqn:E1; [|exact IH].
      apply String.eqb_eq in E1. subst k0.
      rewrite String.eqb_sym in E0. rewrite E0. reflexivity.
Qed.

Lemma dict_mem_set k k' v d :
  dict_mem k (dict_set k' v d) = (String.eqb k k' || dict_mem k d)%bool.
Proof.
  unfold dict_mem. rewrite dict_get_set. destruct (String.eqb k k'); reflexivity.
Qed.

Lemma check_cases_valid cases :
  check_cases cases = Ok tt <-> Forall valid_case cases.
Proof.
  induction cases as [|c cases IH]; cbn.
  - split; constructor.
  - split.
    + intros Hc. destruct c; try discriminate. cbn in Hc.
      destruct (case_errors d) eqn:E; [|discriminate].
      constructor; [exists d; auto | apply IH; exact Hc].
    + intros Hv. inversion Hv as [|? ? (d & -> & Hd) Hrest]; subst.
      cbn. rewrite Hd. apply IH. exact Hrest.
Qed.

Lemma check_cases_unit cases u : check_cases cases = Ok u -> check_cases cases = Ok tt.
Proof. destruct u. auto. Qed.

Lemma check_cases_err cases e : check_cases cases = Err e -> late_failure e = false.
Proof.
  induction cases as [|c cases IH]; cbn; [discriminate|].
  destruct c; cbn; try (intros [= <-]; reflexivity).
  destruct (case_errors d); [exact IH | intros [= <-]; reflexivity].
Qed.

Lemma app_nil_both {A : Type} (l1 l2 : list A) : (l1 ++ l2 = [] -> l1 = [] /\ l2 = [])%list.
Proof. destruct l1; cbn; [auto | discriminate]. Qed.

(** A valid case has a string [case_id], so the lookups of the search
    loops cannot raise, and it is a non-empty dict. *)
Lemma valid_case_id case :
  valid_case case ->
  exists s, subscript case "case_id" = Ok (PyStr s) /\ truthy case = true.
Proof.
  intros (d & -> & Hd). unfold case_errors in Hd.
  apply app_nil_both in Hd as [Hmiss Hd].
  apply app_nil_both in Hd as [Hid _].
  cbn in Hmiss. unfold dict_mem in Hmiss.
  destruct (dict_get "case_id" d) as [v|] eqn:Hget; [|discriminate Hmiss].
  destruct v; try discriminate Hid.
  cbn. rewrite Hget. exists s. split; [reflexivity|].
  destruct d; [discriminate Hget | reflexivity].
Qed.

Lemma find_case_spec case_id cases :
  Forall valid_case cases ->
  forall i,
  (exists j case,
      find_case case_id i cases = Ok (Some ((i + j)%nat, case))
      /\ nth_error cases j = Some case
      /\ subscript case "case_id" = Ok (PyStr case_id)
      /\ truthy case = true
      /\ (forall j' case', (j' < j)%nat -> nth_error cases j' = Some case' ->
                           subscript case' "case_id" <> Ok (PyStr case_id)))
  \/ (find_case case_id i cases = Ok None /\ ~ has_id case_id cases).
Proof.
  induction 1 as [|c cases Hc Hcases IH]; intros i.
  - right. split; [reflexivity|]. intros (? & [] & _).
  - destruct (valid_case_id c Hc) as (s & Hs & Ht).
    cbn. unfold has_case_id. rewrite Hs. cbn.
    destruct (String.eqb s case_id) eqn:E.
    + apply String.eqb_eq in E. subst s. left. exists 0%nat, c.
      rewrite Nat.add_0_r. repeat split; auto. intros ? ? Hlt. lia.
    + apply String.eqb_neq in E.
      destruct (IH (S i)) as [(j & case & Hf & Hn & Hid & Htr & Hfirst) | [Hf Hno]].
      * left. exists (S j), case. rewrite Nat.add_succ_r. repeat split; auto.
        intros j' case' Hlt Hn'. destruct j' as [|j']; cbn in Hn'.
        -- injection Hn' as <-. rewrite Hs. congruence.
        -- apply (Hfirst j'); [lia | exact Hn'].
      * right. split; [exact Hf|]. intros (case & [<-|Hin] & Hid).
        -- rewrite Hs in Hid. congruence.
        -- apply Hno. exists case. auto.
Qed.

Lemma find_case_err case_id cases i e :
  find_case case_id i cases = Err e -> late_failure e = false.
Proof.
  revert i. induction cases as [|c cases IH]; intros i; cbn; [discriminate|].
  unfold has_case_id, subscript.
  destruct c; cbn; try (intros [= <-]; reflexivity).
  destruct (dict_get "case_id" d) as [v|]; cbn; [|intros [= <-]; reflexivity].
  match goal with |- context [if ?b then _ else _] => destruct b end;
    [discriminate | apply IH].
Qed.

Lemma load_body_inv data cases :
  load_body data = Ok cases ->
  exists d m,
    data = PyDict d
    /\ dict_get "cases" d = Some (PyList cases)
    /\ dict_get "metadata" d = Some (PyDict m)
    /\ Forall valid_case cases.
Proof.
  unfold load_body, _validate_metadata_structure.
  destruct data as [| | | |s|l|d]; try (cbn; intros Habs; discriminate Habs).
  - destruct (str_has "cases" s || str_has "metadata" s); cbn;
      intros Habs; discriminate Habs.
  - destruct (list_has_str "cases" l || list_has_str "metadata" l); cbn;
      intros Habs; discriminate Habs.
  - cbn [bind get_or].
    destruct (dict_get "cases" d) as [c|] eqn:Hc;
      [|cbn; intros Habs; discriminate Habs].
    destruct c; try (cbn; intros Habs; discriminate Habs). cbn [is_list app].
    destruct (dict_get "metadata" d) as [m|] eqn:Hm;
      [|cbn; intros Habs; discriminate Habs].
    destruct m; try (cbn; intros Habs; discriminate Habs).
    match goal with |- context [filter ?f ?l] => destruct (filter f l) end;
      [|cbn; intros Habs; discriminate Habs].
    cbn [bind].
    destruct (check_cases l) as [[]|] eqn:Hl;
      [|cbn; intros Habs; discriminate Habs].
    cbn. intros [= <-]. exists d, d0. repeat split; auto.
    apply check_cases_valid. exact Hl.
Qed.

(** The file written by [save_case_metadata] reads back as the cases saved. *)
Lemma load_body_saved cases created_at last_updated :
  Forall valid_case cases ->
  load_body
    (PyDict [("cases", PyList cases);
             ("metadata",
              PyDict [("version", PyStr SCHEMA_VERSION);
                      ("created_at", created_at);
                      ("last_updated", last_updated);
                      ("total_cases", PyInt (Z.of_nat (List.length cases)));
                      ("schema_version", PyStr SCHEMA_VERSION)])])
  = Ok cases.
Proof.
  intros Hv. apply check_cases_valid in Hv.
  unfold load_body. cbn. rewrite Hv. reflexivity.
Qed.

Lemma stored_cases_valid fs cases :
  stored_cases fs = Some cases -> Forall valid_case cases.
Proof.
  unfold stored_cases. destruct (metadata_file fs) as [[|data]|]; try discriminate.
  destruct (load_body data) eqn:E; [|discriminate].
  intros [= <-]. apply load_body_inv in E as (? & ? & _ & _ & _ & Hv). exact Hv.
Qed.

Lemma load_stored env fs cases :
  stored_cases fs = Some cases -> load_case_metadata env fs = (fs, Ok cases).
Proof.
  unfold stored_cases, load_case_metadata.
  destruct (metadata_file fs) as [[|data]|]; try discriminate.
  destruct (load_body data); [|discriminate]. intros [= <-]. reflexivity.
Qed.

(** What a call of [load_case_metadata] leaves behind. *)
Lemma load_case_metadata_spec env fs fs' r :
  load_case_metadata env fs = (fs', r) ->
  (exists cases,
      r = Ok cases /\ stored_cases fs' = Some cases
      /\ vectors_file fs' = vectors_file fs
      /\ (fs' = fs \/ (metadata_file fs = None /\ cases = [])))
  \/ (exists e, r = Err e /\ fs' = fs /\ late_failure e = false).
Proof.
  unfold load_case_metadata.
  destruct (metadata_file fs) as [[|data]|] eqn:Hfile.
  - intros [= <- <-]. right. eexists. repeat split; reflexivity.
  - destruct (load_body data) eqn:E; intros [= <- <-].
    + left. eexists. repeat split; auto.
      unfold stored_cases. rewrite Hfile, E. reflexivity.
    + right. eexists. repeat split; reflexivity.
  - unfold bind_io, _initialize_metadata_file, _save_metadata, ret.
    destruct (metadata_writable env); intros [= <- <-].
    + left. exists []. repeat split; auto.
    + right. eexists. repeat split; reflexivity.
Qed.

(** What a call of [save_case_metadata] leaves behind: the cases are
    stored, or nothing was written. *)
Lemma save_case_metadata_spec env cases fs fs' r :
  save_case_metadata env cases fs = (fs', r) ->
  (r = Ok tt /\ stored_cases fs' = Some cases
   /\ vectors_file fs' = vectors_file fs
   /\ Z.of_nat (List.length cases) <= MAX_REPOSITORY_SIZE)
  \/ (exists e, r = Err e /\ fs' = fs /\ late_failure e = false).
Proof.
  unfold save_case_metadata, bind_io, lift, raise.
  destruct (check_cases cases) as [[]|e] eqn:Hc.
  2:{ intros [= <- <-]. right. exists e. repeat split.
      eapply check_cases_err; eauto. }
  destruct (Z.of_nat (List.length cases) >? MAX_REPOSITORY_SIZE) eqn:Hcap.
  { intros [= <- <-]. right. eexists. repeat split; reflexivity. }
  assert (Hle : Z.of_nat (List.length cases) <= MAX_REPOSITORY_SIZE).
  { destruct (Z.gtb_spec (Z.of_nat (List.length cases)) MAX_REPOSITORY_SIZE);
      [discriminate | assumption]. }
  destruct (_get_creation_time env fs) as [fs1 [created_at|e]] eqn:Hct.
  2:{ unfold _get_creation_time in Hct.
      destruct (metadata_file fs) as [[|data]|]; try discriminate.
      injection Hct as <- Hct. intros [= <- <-]. right. exists e. repeat split.
      unfold get_or in Hct. destruct data; try (injection Hct as <-; reflexivity).
      cbn in Hct. destruct (dict_get "metadata" d) as [[| | | | | |m]|];
        cbn in Hct; try (injection Hct as <-; reflexivity);
        try discriminate.
      destruct (dict_get "created_at" m); discriminate. }
  assert (fs1 = fs) as ->.
  { unfold _get_creation_time in Hct.
    destruct (metadata_file fs) as [[|data]|]; congruence. }
  unfold _save_metadata. destruct (metadata_writable env); intros [= <- <-].
  - left. repeat split; auto.
    unfold stored_cases. cbn [metadata_file].
    rewrite load_body_saved; [reflexivity | apply check_cases_valid; exact Hc].
  - right. eexists. repeat split; reflexivity.
Qed.

Lemma case_errors_set_index d i :
  case_errors d = [] ->
  case_errors (dict_set "vector_index" (PyInt (Z.of_nat i)) d) = [].
Proof.
  unfold case_errors. intros Hd.
  rewrite !dict_get_set.
  rewrite (filter_ext_in
             (fun f => negb (dict_mem f (dict_set "vector_index" (PyInt (Z.of_nat i)) d)))
             (fun f => negb (dict_mem f d))).
  2:{ intros f Hf. rewrite dict_mem_set.
      destruct Hf as [<-|[<-|[<-|[<-|[]]]]]; reflexivity. }
  apply app_nil_both in Hd as [H1 Hd]. rewrite H1.
  apply app_nil_both in Hd as [H2 Hd].
  apply app_nil_both in Hd as [H3 Hd].
  apply app_nil_both in Hd as [H4 Hd].
  apply app_nil_both in Hd as [H5 Hd].
  apply app_nil_both in Hd as [_ H7].
  change (String.eqb "case_id" "vector_index") with false.
  change (String.eqb "title" "vector_index") with false.
  change (String.eqb "date" "vector_index") with false.
  change (String.eqb "file_path" "vector_index") with false.
  change (String.eqb "metadata" "vector_index") with false.
  change (String.eqb "vector_index" "vector_index") with true.
  cbv iota. rewrite H2, H3, H4, H5, H7.
  destruct (Z.ltb_spec (Z.of_nat i) 0); [lia | reflexivity].
Qed.

Lemma subscript_set_index (d : dict) (v : py_value) :
  subscript (PyDict (dict_set "vector_index" v d)) "vector_index" = Ok v.
Proof. cbn. rewrite dict_get_set, String.eqb_refl. reflexivity. Qed.

(** The renumbering loop of [remove_case] on valid cases. *)
Lemma renumber_spec cases :
  Forall valid_case cases ->
  forall i,
  exists cases',
    renumber i cases = Ok cases'
    /\ Forall valid_case cases'
    /\ List.length cases' = List.length cases
    /\ (forall j case, nth_error cases' j = Some case ->
                       subscript case "vector_index" = Ok (PyInt (Z.of_nat (i + j))))
    /\ Forall2 (fun case case' =>
                  forall k, k <> "vector_index" ->
                            subscript case' k = subscript case k)
               cases cases'.
Proof.
  induction 1 as [|c cases (d & -> & Hd) _ IH]; intros i.
  - exists []. repeat split; try constructor. intros [|j] ?; discriminate.
  - destruct (IH (S i)) as (cases' & Hr & Hv & Hlen & Hidx & Hsame).
    cbn [renumber]. rewrite Hr. cbn [bind].
    eexists. split; [reflexivity|]. split; [|split; [|split]].
    + constructor; [|exact Hv]. eexists. split; [reflexivity|].
      apply case_errors_set_index. exact Hd.
    + cbn. congruence.
    + intros [|j] case Hn; cbn in Hn.
      * injection Hn as <-. rewrite Nat.add_0_r. apply subscript_set_index.
      * rewrite Nat.add_succ_r. apply (Hidx j case Hn).
    + constructor; [|exact Hsame]. intros k Hk. cbn. rewrite dict_get_set.
      apply String.eqb_neq in Hk. rewrite Hk. reflexivity.
Qed.

Lemma remove_nth_firstn_skipn {A : Type} (i : nat) (l : list A) :
  remove_nth i l = (firstn i l ++ skipn (S i) l)%list.
Proof.
  revert i. induction l as [|x l IH]; intros [|i]; cbn; auto.
  rewrite IH. reflexivity.
Qed.

Lemma remove_nth_length {A : Type} (i : nat) (l : list A) :
  (i < List.length l)%nat -> List.length (remove_nth i l) = (List.length l - 1)%nat.
Proof.
  revert i. induction l as [|x l IH]; intros [|i] Hi; cbn in *; try lia.
  rewrite IH by lia. lia.
Qed.

Lemma Forall_remove_nth {A : Type} (P : A -> Prop) (i : nat) (l : list A) :
  Forall P l -> Forall P (remove_nth i l).
Proof.
  intros Hl. rewrite remove_nth_firstn_skipn. apply Forall_app. split.
  - rewrite <- (firstn_skipn i l) in Hl. apply Forall_app in Hl. tauto.
  - rewrite <- (firstn_skipn (S i) l) in Hl. apply Forall_app in Hl. tauto.
Qed.


(** Every outcome of [add_case]: it raises before writing anything, or the
    metadata now ends with the new record and the vector step either
    appended the row or raised. *)
Lemma add_case_spec env doc v fs fs' r :
  add_case env doc v fs = (fs', r) ->
  (exists e,
      r = Err e /\ late_failure e = false
      /\ vectors_file fs' = vectors_file fs
      /\ (fs' = fs \/ (metadata_file fs = None /\ stored_cases fs' = Some [])))
  \/ (exists cases,
         snd (load_case_metadata env fs) = Ok cases
         /\ Z.of_nat (List.length cases) < MAX_REPOSITORY_SIZE
         /\ stored_cases fs' = Some (cases ++ [new_record doc (List.length cases)])%list
         /\ ((r = Ok tt /\ stored_rows fs' = (stored_rows fs ++ [v])%list)
             \/ (exists e, r = Err e /\ late_failure e = true
                           /\ vectors_file fs' = vectors_file fs))).
Proof.
  unfold add_case, bind_io.
  destruct (load_case_metadata env fs) as [fs1 r1] eqn:Hload.
  pose proof (load_case_metadata_spec _ _ _ _ Hload)
    as [(cases & -> & Hst & Hvec & Hmeta) | (e & -> & -> & He)].
  2:{ intros [= <- <-]. left. exists e. auto. }
  assert (Hmeta' : fs1 = fs \/ (metadata_file fs = None /\ stored_cases fs1 = Some [])).
  { destruct Hmeta as [->|[Hn ->]]; auto. }
  clear Hmeta.
  destruct (Z.of_nat (List.length cases) >=? MAX_REPOSITORY_SIZE) eqn:Hcap.
  { unfold raise. intros [= <- <-]. left. eexists. repeat split; auto. }
  assert (Hlt : Z.of_nat (List.length cases) < MAX_REPOSITORY_SIZE).
  { destruct (Z.geb_spec (Z.of_nat (List.length cases)) MAX_REPOSITORY_SIZE);
      [discriminate | assumption]. }
  unfold lift at 1.
  destruct (find_case (CaseDocument.case_id doc) 0 cases) as [found|e] eqn:Hfind.
  2:{ intros [= <- <-]. left. exists e. repeat split; auto.
      eapply find_case_err; eauto. }
  match goal with |- context [if ?b then raise _ else _] => destruct b end.
  { unfold raise. intros [= <- <-]. left. eexists. repeat split; auto. }
  fold (new_record doc (List.length cases)).
  destruct (case_errors _) as [|err errs] eqn:Herr.
  2:{ unfold raise. intros [= <- <-]. left. eexists. repeat split; auto. }
  destruct (save_case_metadata env (cases ++ [new_record doc (List.length cases)]) fs1)
    as [fs2 r2] eqn:Hsave.
  apply save_case_metadata_spec in Hsave
    as [(-> & Hst2 & Hvec2 & _) | (e & -> & -> & He)].
  2:{ intros [= <- <-]. left. exists e. auto. }
  intros Hrest. right. exists cases.
  split; [reflexivity|]. split; [exact Hlt|].
  assert (Hv2 : vectors_file fs2 = vectors_file fs) by congruence.
  unfold load_case_vectors, lift, save_case_vectors in Hrest.
  unfold stored_rows. rewrite <- Hv2.
  destruct (vectors_file fs2) as [[|a]|] eqn:Hvf.
  - destruct (vectors_writable env); injection Hrest as <- <-; cbn.
    + split; [exact Hst2 | left; auto].
    + split; [exact Hst2 | right; eexists; repeat split; auto].
  - unfold vstack in Hrest.
    destruct (Nat.eqb (ncols a) (ncols (reshape_row v))).
    + destruct (vectors_writable env); injection Hrest as <- <-; cbn.
      * split; [exact Hst2 | left; auto].
      * split; [exact Hst2 | right; eexists; repeat split; auto].
    + injection Hrest as <- <-.
      split; [exact Hst2 | right; eexists; repeat split; auto].
  - destruct (vectors_writable env); injection Hrest as <- <-; cbn.
    + split; [exact Hst2 | left; auto].
    + split; [exact Hst2 | right; eexists; repeat split; auto].
Qed.


(** C5, as the code has it. When a stored record carries the id of the
    case being added, [add_case] raises and leaves both files exactly as
    they were; the error is the duplicate error unless the repository is
    at capacity, where the capacity check, which comes first, raises its
    own. *)
Theorem add_case_rejects_duplicate :
  forall env doc v fs cases,
    stored_cases fs = Some cases ->
    has_id (CaseDocument.case_id doc) cases ->
    add_case env doc v fs
    = (fs, Err (if Z.of_nat (List.length cases) >=? MAX_REPOSITORY_SIZE
                then CapacityExceeded
                else CaseAlreadyExists (CaseDocument.case_id doc))).
Proof.
  intros env doc v fs cases Hst Hid.
  unfold add_case, bind_io. rewrite (load_stored env fs cases Hst).
  destruct (Z.of_nat (List.length cases) >=? MAX_REPOSITORY_SIZE); [reflexivity|].
  unfold lift at 1.
  destruct (find_case_spec (CaseDocument.case_id doc) cases
              (stored_cases_valid _ _ Hst) 0%nat)
    as [(j & case & Hf & _ & _ & Ht & _) | [_ Hno]]; [|contradiction].
  rewrite Hf, Ht. reflexivity.
Qed.

(** C6. When the case count equals [MAX_REPOSITORY_SIZE], [add_case]
    raises the capacity error and both files, hence the case count, are
    unchanged. *)
Theorem add_case_at_capacity :
  forall env env' doc v fs n,
    snd (get_case_count env fs) = Ok n ->
    Z.of_nat n = MAX_REPOSITORY_SIZE ->
    add_case env' doc v fs = (fs, Err CapacityExceeded)
    /\ get_case_count env (fst (add_case env' doc v fs)) = (fs, Ok n).
Proof.
  intros env env' doc v fs n Hcount Hn.
  unfold get_case_count, bind_io in Hcount.
  destruct (load_case_metadata env fs) as [fs1 r1] eqn:Hload.
  apply load_case_metadata_spec in Hload
    as [(cases & -> & Hst & _ & Hmeta) | (e & -> & _)]; [|discriminate].
  cbn in Hcount. injection Hcount as <-.
  destruct Hmeta as [-> | [_ ->]]; [|discriminate].
  assert (Hadd : add_case env' doc v fs = (fs, Err CapacityExceeded)).
  { unfold add_case, bind_io. rewrite (load_stored env' fs cases Hst).
    rewrite Hn. reflexivity. }
  split; [exact Hadd|]. rewrite Hadd. cbn [fst].
  unfold get_case_count, bind_io. rewrite (load_stored env fs cases Hst).
  reflexivity.
Qed.

(** On a stored repository, [save_case_metadata] of valid cases within
    capacity succeeds whenever the file can be written. *)
Lemma save_case_metadata_valid env cases fs old :
  stored_cases fs = Some old ->
  Forall valid_case cases ->
  Z.of_nat (List.length cases) <= MAX_REPOSITORY_SIZE ->
  metadata_writable env = true ->
  exists fs', save_case_metadata env cases fs = (fs', Ok tt).
Proof.
  intros Hst Hv Hcap Hw.
  unfold stored_cases in Hst.
  destruct (metadata_file fs) as [[|data]|] eqn:Hfile; try discriminate.
  destruct (load_body data) eqn:Hbody; [|discriminate].
  apply load_body_inv in Hbody as (d & m & -> & _ & Hm & _).
  apply check_cases_valid in Hv.
  unfold save_case_metadata, bind_io, lift. rewrite Hv.
  destruct (Z.gtb_spec (Z.of_nat (List.length cases)) MAX_REPOSITORY_SIZE); [lia|].
  unfold _get_creation_time. rewrite Hfile. cbn [get_or bind]. rewrite Hm.
  cbn [bind get_or].
  destruct (dict_get "created_at" m); unfold _save_metadata; rewrite Hw; eauto.
Qed.


Lemma find_case_found case_id cases i case :
  Forall valid_case cases ->
  find_case case_id 0 cases = Ok (Some (i, case)) ->
  nth_error cases i = Some case
  /\ subscript case "case_id" = Ok (PyStr case_id)
  /\ (forall j case', (j < i)%nat -> nth_error cases j = Some case' ->
                      subscript case' "case_id" <> Ok (PyStr case_id)).
Proof.
  intros Hv Hf.
  destruct (find_case_spec case_id cases Hv 0%nat)
    as [(j & c & Hf' & Hn & Hid & _ & Hfirst) | [Hf' _]]; [|congruence].
  rewrite Hf in Hf'. injection Hf' as -> ->. auto.
Qed.

(** Every outcome of [remove_case] on a case that is present at
    position [i]. *)
Lemma remove_case_found env case_id fs cases i case :
  stored_cases fs = Some cases ->
  find_case case_id 0 cases = Ok (Some (i, case)) ->
  exists cases',
    renumber 0 (remove_nth i cases) = Ok cases'
    /\ List.length cases' = (List.length cases - 1)%nat
    /\ (i < List.length cases)%nat
    /\ (forall j c, nth_error cases' j = Some c ->
                    subscript c "vector_index" = Ok (PyInt (Z.of_nat j)))
    /\ forall fs' r,
        remove_case env case_id fs = (fs', r) ->
        (exists e, r = Err e /\ late_failure e = false /\ fs' = fs
                   /\ (metadata_writable env = false
                       \/ Z.of_nat (List.length cases') > MAX_REPOSITORY_SIZE))
        \/ (stored_cases fs' = Some cases'
            /\ (((i < vector_count fs)%nat /\ vectors_writable env = true
                 /\ r = Ok true
                 /\ stored_rows fs' = remove_nth i (stored_rows fs))
                \/ ((i < vector_count fs)%nat /\ vectors_writable env = false
                    /\ r = Err VectorWriteError
                    /\ vectors_file fs' = vectors_file fs)
                \/ ((vector_count fs <= i)%nat /\ r = Ok true
                    /\ vectors_file fs' = vectors_file fs))).
Proof.
  intros Hst Hfind.
  pose proof (stored_cases_valid _ _ Hst) as Hv.
  destruct (find_case_found _ _ _ _ Hv Hfind) as (Hnth & _ & _).
  assert (Hi : (i < List.length cases)%nat)
    by (apply nth_error_Some; congruence).
  destruct (renumber_spec (remove_nth i cases) (Forall_remove_nth _ i _ Hv) 0%nat)
    as (cases' & Hren & Hv' & Hlen & Hidx & _).
  exists cases'. split; [exact Hren|].
  split; [rewrite Hlen; apply remove_nth_length; exact Hi|].
  split; [exact Hi|]. split; [exact Hidx|].
  intros fs' r. unfold remove_case, bind_io.
  rewrite (load_stored env fs cases Hst). unfold lift.
  rewrite Hfind, Hren.
  destruct (save_case_metadata env cases' fs) as [fs1 r1] eqn:Hsave.
  pose proof (save_case_metadata_spec _ _ _ _ _ Hsave)
    as [(-> & Hst1 & Hvec1 & Hcap) | (e & -> & -> & He)].
  2:{ intros [= <- <-]. left. exists e. repeat split; auto.
      destruct (metadata_writable env) eqn:Hw; [|auto]. right.
      destruct (Z.le_gt_cases (Z.of_nat (List.length cases')) MAX_REPOSITORY_SIZE)
        as [Hle|Hgt]; [|lia].
      destruct (save_case_metadata_valid env cases' fs cases Hst Hv' Hle Hw)
        as [fs2 Hok]. congruence. }
  intros Hrest. right. split.
  - unfold load_case_vectors, save_case_vectors, ret in Hrest.
    destruct (vectors_file fs1) as [[|a]|];
      try (injection Hrest as <- _; exact Hst1).
    destruct (i <? len a)%nat; [|injection Hrest as <- _; exact Hst1].
    destruct (vectors_writable env); injection Hrest as <- _; exact Hst1.
  - unfold load_case_vectors, save_case_vectors, ret in Hrest.
    unfold vector_count, stored_rows. rewrite <- Hvec1.
    destruct (vectors_file fs1) as [[|a]|] eqn:Hvf.
    + injection Hrest as <- <-. right. right. repeat split; auto. lia.
    + destruct (Nat.ltb_spec i (len a)).
      * destruct (vectors_writable env); injection Hrest as <- <-.
        -- left. repeat split; auto.
        -- right. left. repeat split; auto.
      * injection Hrest as <- <-. right. right. repeat split; auto.
    + injection Hrest as <- <-. right. right. repeat split; auto. lia.
Qed.

(** C10. When the case is present at position [i] and the vector store is
    absent or has no row at that position, [remove_case] still deletes the
    record, renumbers the survivors, persists the metadata and returns
    true, and it leaves the vector file untouched; unless the vector store
    was exactly one row short, the two counts then differ. *)
Theorem remove_case_without_vector_row :
  forall env case_id fs cases i case,
    stored_cases fs = Some cases ->
    find_case case_id 0 cases = Ok (Some (i, case)) ->
    (vector_count fs <= i)%nat ->
    metadata_writable env = true ->
    Z.of_nat (List.length cases) <= MAX_REPOSITORY_SIZE ->
    exists fs' cases',
      remove_case env case_id fs = (fs', Ok true)
      /\ renumber 0 (remove_nth i cases) = Ok cases'
      /\ stored_cases fs' = Some cases'
      /\ List.length cases' = (List.length cases - 1)%nat
      /\ (forall j c, nth_error cases' j = Some c ->
                      subscript c "vector_index" = Ok (PyInt (Z.of_nat j)))
      /\ vectors_file fs' = vectors_file fs
      /\ (vector_count fs <> (List.length cases - 1)%nat ->
          vector_count fs' <> List.length cases').
Proof.
  intros env case_id fs cases i case Hst Hfind Hrows Hw Hcap.
  destruct (remove_case_found env case_id fs cases i case Hst Hfind)
    as (cases' & Hren & Hlen & Hi & Hidx & Hout).
  destruct (remove_case env case_id fs) as [fs' r] eqn:Hrem.
  specialize (Hout fs' r eq_refl).
  destruct Hout as [(e & _ & _ & _ & [Hnw | Hover])
                   | (Hst' & [(Hlt & _) | [(Hlt & _) | (_ & -> & Hvec)]])];
    try congruence; try lia.
  exists fs', cases'. repeat split; auto.
  unfold vector_count. rewrite Hvec. fold (vector_count fs). lia.
Qed.






End Repository.

(** The examples run on dates kept as text. *)
#[local] Existing Instance CaseDocument.TextDate.



(** C5 as stated fails.  A repository at capacity holds a case with the
    id c000; adding a case with that id raises the capacity error, not the
    duplicate error. *)
Lemma add_case_duplicate_counterexample :
  CaseRepository.stored_cases (H := CaseDocument.TextDate) Examples.full
  = Some (Examples.many_entries 1000)
  /\ In (Examples.entry "c000" "Some case" 0) (Examples.many_entries 1000)
  /\ subscript (Examples.entry "c000" "Some case" 0) "case_id" = Ok (PyStr "c000")
  /\ CaseRepository.add_case (H := CaseDocument.TextDate) Examples.healthy
       (Examples.document "c000" "Again") [1; 0]%float Examples.full
     = (Examples.full, Err CapacityExceeded).
Proof.
  split; [vm_compute; reflexivity|]. split; [left; reflexivity|].
  split; [reflexivity|]. vm_compute. reflexivity.
Qed.

(** A duplicate in a repository of one case. *)
Lemma add_case_rejects_duplicate_witness :
  let one := fst (CaseRepository.add_case (H := CaseDocument.TextDate) Examples.healthy
                    (Examples.document "case-1" "First") [1; 0]%float Examples.fresh) in
  CaseRepository.add_case (H := CaseDocument.TextDate) Examples.healthy
    (Examples.document "case-1" "Again") [0; 1]%float one
  = (one, Err (CaseAlreadyExists "case-1")).
Proof.
  cbv zeta.
  apply (add_case_rejects_duplicate Examples.healthy
           (Examples.document "case-1" "Again") [0; 1]%float _
           [Examples.entry "case-1" "First" 0]).
  - reflexivity.
  - exists (Examples.entry "case-1" "First" 0). split; [left|]; reflexivity.
Defined.

(** The repository of 1000 cases. *)
Lemma add_case_at_capacity_witness :
  CaseRepository.add_case (H := CaseDocument.TextDate) Examples.healthy
    (Examples.document "new" "One more") [1; 0]%float Examples.full
  = (Examples.full, Err CapacityExceeded)
  /\ CaseRepository.get_case_count (H := CaseDocument.TextDate) Examples.healthy
       (fst (CaseRepository.add_case (H := CaseDocument.TextDate) Examples.healthy
               (Examples.document "new" "One more") [1; 0]%float Examples.full))
     = (Examples.full, Ok 1000%nat).
Proof.
  apply (add_case_at_capacity Examples.healthy Examples.healthy
           (Examples.document "new" "One more") [1; 0]%float Examples.full 1000%nat).
  - vm_compute. reflexivity.
  - reflexivity.
Defined.

(** The first of two cases is removed from a repository that has no vector
    file: one record is left, and no vector. *)
Lemma remove_case_without_vector_row_witness :
  exists fs' cases',
    CaseRepository.remove_case Examples.healthy "case-a" Examples.two_without_vectors
    = (fs', Ok true)
    /\ CaseRepository.renumber 0
         (remove_nth 0 [Examples.entry "case-a" "A" 0; Examples.entry "case-b" "B" 1])
       = Ok cases'
    /\ CaseRepository.stored_cases fs' = Some cases'
    /\ List.length cases' = 1%nat
    /\ (forall j c, nth_error cases' j = Some c ->
                    subscript c "vector_index" = Ok (PyInt (Z.of_nat j)))
    /\ CaseRepository.vectors_file fs'
       = CaseRepository.vectors_file Examples.two_without_vectors
    /\ (CaseRepository.vector_count Examples.two_without_vectors <> 1%nat ->
        CaseRepository.vector_count fs' <> List.length cases').
Proof.
  apply (remove_case_without_vector_row Examples.healthy "case-a"
           Examples.two_without_vectors
           [Examples.entry "case-a" "A" 0; Examples.entry "case-b" "B" 1]
           0%nat (Examples.entry "case-a" "A" 0)).
  - reflexivity.
  - reflexivity.
  - cbn. lia.
  - reflexivity.
  - cbn. unfold CaseRepository.MAX_REPOSITORY_SIZE. lia.
Defined.

Example remove_case_leaves_counts_unequal :
  let fs' := fst (CaseRepository.remove_case Examples.healthy "case-a"
                    Examples.two_without_vectors) in
  CaseRepository.stored_cases fs' = Some [Examples.entry "case-b" "B" 0]
  /\ CaseRepository.vector_count fs' = 0%nat.
Proof. split; reflexivity. Qed.


Example scenario_leaves_two_aligned_cases :
  let fs' := fst (CaseRepository.run Examples.scenario_calls Examples.fresh) in
  CaseRepository.stored_cases fs'
  = Some [Examples.entry "case-1" "First" 0; Examples.entry "case-3" "Third" 1]
  /\ CaseRepository.stored_rows fs' = [[1; 0; 0]; [0.7; 0.7; 0]]%float.
Proof. split; reflexivity. Qed.


(* ================================================================== *)
(** * Part III: further properties of the code                         *)
(* ================================================================== *)

#[local] Remove Hints CaseDocument.TextDate : typeclass_instances.

(** ** The metadata file as a list of documents *)

Section Tracking.
Context `{DT : CaseDocument.DateTime}.
Import CaseRepository.
Arguments case_errors : simpl never.

Lemma stored_same_metadata fs fs' :
  metadata_file fs' = metadata_file fs ->
  stored_cases fs' = stored_cases fs /\ stored_total fs' = stored_total fs.
Proof. intros Hm. unfold stored_cases, stored_total. rewrite Hm. auto. Qed.

Lemma records_from_length i docs :
  List.length (records_from i docs) = List.length docs.
Proof. revert i. induction docs; intros; cbn; auto. Qed.

Lemma records_from_snoc i docs d :
  records_from i (docs ++ [d])
  = (records_from i docs ++ [new_record d (i + List.length docs)])%list.
Proof.
  revert i. induction docs as [|x docs IH]; intros i; cbn.
  - rewrite Nat.add_0_r. reflexivity.
  - rewrite IH, Nat.add_succ_r. reflexivity.
Qed.

Lemma new_record_case_id d n :
  subscript (new_record d n) "case_id" = Ok (PyStr (CaseDocument.case_id d)).
Proof. reflexivity. Qed.

Lemma new_record_renumber d n m :
  dict_set "vector_index" (PyInt (Z.of_nat m))
    (dict_set "vector_index" (PyInt (Z.of_nat n)) (CaseDocument.to_dict d))
  = dict_set "vector_index" (PyInt (Z.of_nat m)) (CaseDocument.to_dict d).
Proof. reflexivity. Qed.

(** The search loops find the first document with the id. *)
Lemma find_case_records case_id docs :
  forall k i,
  (~ In case_id (map CaseDocument.case_id docs)
   /\ find_case case_id k (records_from i docs) = Ok None)
  \/ (exists j d,
         find_case case_id k (records_from i docs)
         = Ok (Some ((k + j)%nat, new_record d (i + j)))
         /\ nth_error docs j = Some d
         /\ CaseDocument.case_id d = case_id
         /\ remove_first case_id docs = remove_nth j docs).
Proof.
  induction docs as [|d docs IH]; intros k i.
  - left. split; [intros [] | reflexivity].
  - cbn [records_from find_case]. unfold has_case_id.
    rewrite new_record_case_id. cbn [bind remove_first map].
    destruct (String.eqb (CaseDocument.case_id d) case_id) eqn:E.
    + apply String.eqb_eq in E. right. exists 0%nat, d.
      rewrite !Nat.add_0_r. repeat split; auto.
    + apply String.eqb_neq in E.
      destruct (IH (S k) (S i)) as [[Hno Hf] | (j & d' & Hf & Hn & Hid & Hrem)].
      * left. split; [|exact Hf]. intros [Heq | Hin]; [congruence | auto].
      * right. exists (S j), d'. rewrite !Nat.add_succ_r.
        repeat split; auto. cbn. rewrite Hrem. reflexivity.
Qed.

Lemma renumber_records docs :
  forall i cases,
  Forall2 (fun case d => exists n, case = new_record d n) cases docs ->
  renumber i cases = Ok (records_from i docs).
Proof.
  induction docs as [|d docs IH]; intros i cases Hall;
    inversion Hall as [|c ? cases' ? (n & ->) Hrest]; subst; [reflexivity|].
  cbn [renumber records_from new_record]. rewrite (IH (S i) cases' Hrest).
  cbn [bind]. rewrite new_record_renumber. reflexivity.
Qed.

Lemma records_Forall2 i docs :
  Forall2 (fun case d => exists n, case = new_record d n) (records_from i docs) docs.
Proof.
  revert i. induction docs; intros; cbn; constructor; eauto.
Qed.

Lemma Forall2_remove_nth {A B : Type} (R : A -> B -> Prop) j l l' :
  Forall2 R l l' -> Forall2 R (remove_nth j l) (remove_nth j l').
Proof.
  intros Hall. revert j. induction Hall; intros [|j]; cbn; auto.
Qed.

Lemma NoDup_remove_nth {A : Type} j (l : list A) :
  NoDup l -> NoDup (remove_nth j l).
Proof.
  intros Hl. revert j. induction Hl as [|x l Hx Hl IH]; intros [|j]; cbn;
    try constructor; auto.
  intros Hin. apply Hx. clear - Hin. revert j Hin.
  induction l as [|y l IH]; intros [|j] Hin; cbn in *; auto.
  destruct Hin as [<-|Hin]; eauto.
Qed.

Lemma map_remove_nth {A B : Type} (f : A -> B) j l :
  map f (remove_nth j l) = remove_nth j (map f l).
Proof.
  revert j. induction l as [|x l IH]; intros [|j]; cbn; auto. rewrite IH. auto.
Qed.

Lemma save_case_metadata_written env cases fs fs' r :
  save_case_metadata env cases fs = (fs', r) ->
  (exists e, r = Err e /\ fs' = fs /\ late_failure e = false)
  \/ (r = Ok tt /\ stored_cases fs' = Some cases
      /\ stored_total fs' = Some (PyInt (Z.of_nat (List.length cases)))).
Proof.
  intros Hsave.
  pose proof (save_case_metadata_spec _ _ _ _ _ Hsave)
    as [(-> & Hst & _) | (e & -> & -> & He)];
    [|left; exists e; auto].
  right. split; [reflexivity|]. split; [exact Hst|].
  unfold save_case_metadata, bind_io, lift, raise in Hsave.
  destruct (check_cases cases) as [[]|]; [|discriminate].
  destruct (Z.of_nat (List.length cases) >? MAX_REPOSITORY_SIZE); [discriminate|].
  destruct (_get_creation_time env fs) as [fs1 [created|]]; [|discriminate].
  unfold _save_metadata in Hsave.
  destruct (metadata_writable env); [|discriminate].
  injection Hsave as <-. reflexivity.
Qed.

Lemma NoDup_snoc {A : Type} (l : list A) (x : A) :
  NoDup l -> ~ In x l -> NoDup (l ++ [x]).
Proof.
  induction 1 as [|y l Hy Hl IH]; intros Hx; cbn.
  - constructor; [intros [] | constructor].
  - constructor.
    + intros Hin. apply in_app_or in Hin as [Hin | [-> | []]]; [auto|].
      apply Hx. left. reflexivity.
    + apply IH. intros Hin. apply Hx. right. exact Hin.
Qed.

(** [add_case] refines appending to the list of documents. *)
Lemma add_case_tracked env doc v docs fs fs' r :
  tracks docs fs ->
  add_case env doc v fs = (fs', r) ->
  tracks (match r with
          | Ok _ => docs ++ [doc]
          | Err e => if late_failure e then docs ++ [doc] else docs
          end)%list fs'.
Proof.
  intros (Hst & Hnd & Hcap & Htot) Hadd.
  assert (Htr : tracks docs fs) by (repeat split; assumption).
  unfold add_case, bind_io in Hadd.
  rewrite (load_stored env fs _ Hst), records_from_length in Hadd.
  destruct (Z.of_nat (List.length docs) >=? MAX_REPOSITORY_SIZE) eqn:Hfull.
  { injection Hadd as <- <-. exact Htr. }
  assert (Hlt : Z.of_nat (List.length docs) < MAX_REPOSITORY_SIZE).
  { destruct (Z.geb_spec (Z.of_nat (List.length docs)) MAX_REPOSITORY_SIZE);
      [discriminate | assumption]. }
  unfold lift at 1 in Hadd.
  destruct (find_case_records (CaseDocument.case_id doc) docs 0 0)
    as [[Hno Hf] | (j & d & Hf & _)]; rewrite Hf in Hadd.
  2:{ cbn in Hadd. injection Hadd as <- <-. exact Htr. }
  cbn [truthy] in Hadd. fold (new_record doc (List.length docs)) in Hadd.
  destruct (case_errors _) as [|err errs] eqn:Herr.
  2:{ injection Hadd as <- <-. exact Htr. }
  destruct (save_case_metadata env
              (records_from 0 docs ++ [new_record doc (List.length docs)]) fs)
    as [fs1 r1] eqn:Hsave.
  apply save_case_metadata_written in Hsave
    as [(e & -> & -> & He) | (-> & Hst1 & Htot1)].
  { injection Hadd as <- <-. rewrite He. exact Htr. }
  assert (Hnew : tracks (docs ++ [doc]) fs1).
  { split; [|split; [|split]].
    - rewrite records_from_snoc. exact Hst1.
    - rewrite map_app. apply NoDup_snoc; assumption.
    - rewrite length_app. cbn. lia.
    - rewrite Htot1, !length_app, records_from_length. reflexivity. }
  assert (Hkeep : metadata_file fs' = metadata_file fs1
                  /\ (r = Ok tt \/ exists e, r = Err e /\ late_failure e = true)).
  { unfold load_case_vectors, lift, save_case_vectors, vstack in Hadd.
    destruct (vectors_file fs1) as [[|a]|];
      try destruct (Nat.eqb (ncols a) (ncols (reshape_row v)));
      try destruct (vectors_writable env);
      injection Hadd as <- <-; split; auto; right; eexists; split; reflexivity. }
  destruct Hkeep as [Hmeta Hr].
  assert (Htr' : tracks (docs ++ [doc]) fs').
  { destruct Hnew as (H1 & H2 & H3 & H4).
    destruct (stored_same_metadata fs1 fs' Hmeta) as [E1 E2].
    repeat split; congruence. }
  destruct Hr as [-> | (e & -> & He)]; [|rewrite He]; exact Htr'.
Qed.

Lemma remove_nth_length_le {A : Type} j (l : list A) :
  (List.length (remove_nth j l) <= List.length l)%nat.
Proof.
  revert j. induction l as [|x l IH]; intros [|j]; cbn; auto.
  specialize (IH j). lia.
Qed.

(** [remove_case] refines removing the first document with the id. *)
Lemma remove_case_tracked env case_id docs fs fs' r :
  tracks docs fs ->
  remove_case env case_id fs = (fs', r) ->
  tracks (match r with
          | Ok true => remove_first case_id docs
          | Ok false => docs
          | Err e => if late_failure e then remove_first case_id docs else docs
          end) fs'.
Proof.
  intros (Hst & Hnd & Hcap & Htot) Hrem.
  assert (Htr : tracks docs fs) by (repeat split; assumption).
  unfold remove_case, bind_io in Hrem.
  rewrite (load_stored env fs _ Hst) in Hrem. unfold lift at 1 in Hrem.
  destruct (find_case_records case_id docs 0 0)
    as [[Hno Hf] | (j & d & Hf & Hn & Hid & Hrf)]; rewrite Hf in Hrem.
  { injection Hrem as <- <-. exact Htr. }
  cbn [Nat.add] in Hrem.
  rewrite (renumber_records (remove_nth j docs) 0 _
             (Forall2_remove_nth _ j _ _ (records_Forall2 0 docs))) in Hrem.
  unfold lift at 1 in Hrem.
  destruct (save_case_metadata env (records_from 0 (remove_nth j docs)) fs)
    as [fs1 r1] eqn:Hsave.
  apply save_case_metadata_written in Hsave
    as [(e & -> & -> & He) | (-> & Hst1 & Htot1)].
  { injection Hrem as <- <-. rewrite He. exact Htr. }
  rewrite Hrf.
  assert (Hnew : tracks (remove_nth j docs) fs1).
  { split; [|split; [|split]].
    - exact Hst1.
    - rewrite map_remove_nth. apply NoDup_remove_nth. exact Hnd.
    - pose proof (remove_nth_length_le j docs). lia.
    - rewrite Htot1, records_from_length. reflexivity. }
  assert (Hkeep : metadata_file fs' = metadata_file fs1
                  /\ (r = Ok true \/ exists e, r = Err e /\ late_failure e = true)).
  { unfold load_case_vectors, save_case_vectors, ret in Hrem.
    destruct (vectors_file fs1) as [[|a]|];
      try destruct (j <? len a)%nat;
      try destruct (vectors_writable env);
      injection Hrem as <- <-; split; auto; right; eexists; split; reflexivity. }
  destruct Hkeep as [Hmeta Hr].
  assert (Htr' : tracks (remove_nth j docs) fs').
  { destruct Hnew as (H1 & H2 & H3 & H4).
    destruct (stored_same_metadata fs1 fs' Hmeta) as [E1 E2].
    repeat split; congruence. }
  destruct Hr as [-> | (e & -> & He)]; [|rewrite He]; exact Htr'.
Qed.



Lemma from_dict_new_record doc n :
  CaseDocument.fromisoformat (CaseDocument.isoformat (CaseDocument.date doc))
  = Some (CaseDocument.date doc) ->
  CaseDocument.from_dict (new_record doc n) "" = CaseDocument.Returned (CaseDocument.stored_view doc).
Proof.
  intros Hdate. unfold CaseDocument.from_dict, new_record, CaseDocument.to_dict.
  cbn. rewrite Hdate. reflexivity.
Qed.

Lemma NoDup_map_In {A B : Type} (f : A -> B) (l : list A) j x y :
  NoDup (map f l) -> nth_error l j = Some x -> In y l -> f x = f y -> x = y.
Proof.
  intros Hnd. revert j. induction l as [|z l IH]; intros j Hn Hin Hf.
  - destruct Hin.
  - cbn in Hnd. inversion Hnd as [|? ? Hz Hl]; subst.
    destruct j as [|j]; cbn in Hn.
    + injection Hn as ->. destruct Hin as [-> | Hin]; [reflexivity|].
      exfalso. apply Hz. rewrite Hf. apply in_map. exact Hin.
    + destruct Hin as [-> | Hin].
      * exfalso. apply Hz. rewrite <- Hf. apply in_map.
        eapply nth_error_In; eauto.
      * eapply IH; eauto.
Qed.

Lemma remove_first_absent case_id docs :
  NoDup (map CaseDocument.case_id docs) ->
  ~ In case_id (map CaseDocument.case_id (remove_first case_id docs)).
Proof.
  induction docs as [|d docs IH]; cbn; intros Hnd; [tauto|].
  inversion Hnd as [|? ? Hd Hl]; subst.
  destruct (String.eqb (CaseDocument.case_id d) case_id) eqn:E.
  - apply String.eqb_eq in E. subst. exact Hd.
  - apply String.eqb_neq in E. cbn. intros [Heq | Hin]; [congruence|].
    exact (IH Hl Hin).
Qed.

Lemma get_case_by_id_present env docs fs doc :
  tracks docs fs ->
  In doc docs ->
  CaseDocument.fromisoformat (CaseDocument.isoformat (CaseDocument.date doc))
  = Some (CaseDocument.date doc) ->
  get_case_by_id env (CaseDocument.case_id doc) fs
  = (fs, CaseDocument.Returned (Some (CaseDocument.stored_view doc))).
Proof.
  intros (Hst & Hnd & _) Hin Hdate. unfold get_case_by_id.
  rewrite (load_stored env fs _ Hst).
  destruct (find_case_records (CaseDocument.case_id doc) docs 0 0)
    as [[Hno _] | (j & d & Hf & Hn & Hid & _)].
  { exfalso. apply Hno. apply in_map. exact Hin. }
  rewrite Hf. assert (d = doc) as -> by (eapply NoDup_map_In; eauto).
  cbn [CaseDocument.of_result CaseDocument.bind_outcome].
  rewrite from_dict_new_record by exact Hdate. reflexivity.
Qed.

Lemma get_case_by_id_absent env docs fs case_id :
  tracks docs fs ->
  ~ In case_id (map CaseDocument.case_id docs) ->
  get_case_by_id env case_id fs = (fs, CaseDocument.Returned None).
Proof.
  intros (Hst & _) Hno. unfold get_case_by_id.
  rewrite (load_stored env fs _ Hst).
  destruct (find_case_records case_id docs 0 0)
    as [[_ Hf] | (j & d & _ & Hn & Hid & _)].
  - rewrite Hf. reflexivity.
  - exfalso. apply Hno. rewrite <- Hid. apply in_map. eapply nth_error_In; eauto.
Qed.



(** X2. [get_case_by_id] on a metadata file that holds the records of
    [docs]: for the id of a document of the list whose date survives
    [isoformat] and [fromisoformat], it returns that document with an empty
    text and no vector; for an id outside the list it returns [None].  The
    files are left as they were. *)
Theorem get_case_by_id_returns_the_stored_document env docs fs :
  tracks docs fs ->
  (forall doc,
      In doc docs ->
      CaseDocument.fromisoformat (CaseDocument.isoformat (CaseDocument.date doc))
      = Some (CaseDocument.date doc) ->
      get_case_by_id env (CaseDocument.case_id doc) fs
      = (fs, CaseDocument.Returned (Some (CaseDocument.stored_view doc))))
  /\ (forall case_id,
         ~ In case_id (map CaseDocument.case_id docs) ->
         get_case_by_id env case_id fs = (fs, CaseDocument.Returned None)).
Proof.
  intros Htr. split.
  - intros doc. apply get_case_by_id_present. exact Htr.
  - intros case_id. apply get_case_by_id_absent. exact Htr.
Qed.

(** X3. A case that [add_case] stored can be read back, and a case that
    [remove_case] removed cannot: after [add_case] returned, or raised in
    its vector step, [get_case_by_id] on the id of the document returns the
    document; after [remove_case] returned true, or raised in its vector
    step, [get_case_by_id] on the id returns [None]. *)
Theorem get_case_by_id_after_a_call env env' docs fs fs' :
  tracks docs fs ->
  (forall doc v r,
      add_case env doc v fs = (fs', r) ->
      r = Ok tt \/ (exists e, r = Err e /\ late_failure e = true) ->
      CaseDocument.fromisoformat (CaseDocument.isoformat (CaseDocument.date doc))
      = Some (CaseDocument.date doc) ->
      get_case_by_id env' (CaseDocument.case_id doc) fs'
      = (fs', CaseDocument.Returned (Some (CaseDocument.stored_view doc))))
  /\ (forall case_id r,
         remove_case env case_id fs = (fs', r) ->
         r = Ok true \/ (exists e, r = Err e /\ late_failure e = true) ->
         get_case_by_id env' case_id fs' = (fs', CaseDocument.Returned None)).
Proof.
  intros Htr. split.
  - intros doc v r Hadd Hr Hdate.
    pose proof (add_case_tracked _ _ _ _ _ _ _ Htr Hadd) as Htr'.
    assert (Hnew : tracks (docs ++ [doc]) fs').
    { destruct Hr as [-> | (e & -> & He)]; [|rewrite He in Htr']; exact Htr'. }
    apply (get_case_by_id_present env' _ _ _ Hnew); [|exact Hdate].
    apply in_or_app. right. left. reflexivity.
  - intros case_id r Hrem Hr.
    pose proof (remove_case_tracked _ _ _ _ _ _ Htr Hrem) as Htr'.
    assert (Hnew : tracks (remove_first case_id docs) fs').
    { destruct Hr as [-> | (e & -> & He)]; [|rewrite He in Htr']; exact Htr'. }
    apply (get_case_by_id_absent env' _ _ _ Hnew).
    apply remove_first_absent. destruct Htr as (_ & Hnd & _). exact Hnd.
Qed.

Lemma from_dicts_records docs :
  Forall (fun doc =>
            CaseDocument.fromisoformat (CaseDocument.isoformat (CaseDocument.date doc))
            = Some (CaseDocument.date doc)) docs ->
  forall i,
    from_dicts (records_from i docs)
    = CaseDocument.Returned (map CaseDocument.stored_view docs).
Proof.
  induction 1 as [|doc docs Hdate _ IH]; intros i; [reflexivity|].
  cbn [records_from from_dicts map].
  rewrite from_dict_new_record by exact Hdate.
  cbn [CaseDocument.bind_outcome]. rewrite IH. reflexivity.
Qed.

(** X4. [get_all_cases] on a metadata file that holds the records of
    [docs], each with a date that survives [isoformat] and
    [fromisoformat], returns the documents in the order of the file, each
    with an empty text and no vector. *)
Theorem get_all_cases_returns_the_stored_documents env docs fs :
  tracks docs fs ->
  Forall (fun doc =>
            CaseDocument.fromisoformat (CaseDocument.isoformat (CaseDocument.date doc))
            = Some (CaseDocument.date doc)) docs ->
  get_all_cases env fs
  = (fs, CaseDocument.Returned (map CaseDocument.stored_view docs)).
Proof.
  intros (Hst & _) Hdates. unfold get_all_cases.
  rewrite (load_stored env fs _ Hst). rewrite from_dicts_records by exact Hdates.
  reflexivity.
Qed.

(** *** [update_case_metadata] *)

Lemma replace_nth_length {A : Type} i (x : A) l :
  List.length (replace_nth i x l) = List.length l.
Proof. revert i. induction l as [|y l IH]; intros [|i]; cbn; auto. Qed.

Lemma nth_error_replace_nth_eq {A : Type} i (x : A) l :
  (i < List.length l)%nat -> nth_error (replace_nth i x l) i = Some x.
Proof.
  revert i. induction l as [|y l IH]; intros [|i] Hi; cbn in *; try lia; auto.
  apply IH. lia.
Qed.

Lemma nth_error_replace_nth_neq {A : Type} i j (x : A) l :
  i <> j -> nth_error (replace_nth i x l) j = nth_error l j.
Proof.
  revert i j. induction l as [|y l IH]; intros [|i] [|j] Hij; cbn; auto;
    congruence.
Qed.

Lemma update_case_metadata_spec env case_id updates fs cases fs' r :
  stored_cases fs = Some cases ->
  update_case_metadata env case_id updates fs = (fs', r) ->
  vectors_file fs' = vectors_file fs
  /\ match r with
     | Ok false => fs' = fs /\ ~ has_id case_id cases
     | Ok true =>
         exists i d,
           find_case case_id 0 cases = Ok (Some (i, PyDict d))
           /\ nth_error cases i = Some (PyDict d)
           /\ case_errors (dict_update updates d) = []
           /\ stored_cases fs'
              = Some (replace_nth i (PyDict (dict_update updates d)) cases)
     | Err e => fs' = fs /\ late_failure e = false
     end.
Proof.
  intros Hst Hupd. pose proof (stored_cases_valid _ _ Hst) as Hv.
  unfold update_case_metadata, bind_io in Hupd.
  rewrite (load_stored env fs cases Hst) in Hupd. unfold lift at 1 in Hupd.
  destruct (find_case_spec case_id cases Hv 0%nat)
    as [(j & case & Hf & Hn & Hid & _) | [Hf Hno]]; rewrite Hf in Hupd.
  2:{ injection Hupd as <- <-. auto. }
  cbn [Nat.add] in Hf, Hupd.
  assert (Hc : valid_case case).
  { eapply Forall_forall; [exact Hv | eapply nth_error_In; eauto]. }
  destruct Hc as (d & -> & Hd).
  destruct (case_errors (dict_update updates d)) as [|err errs] eqn:Herr.
  2:{ injection Hupd as <- <-. auto. }
  destruct (save_case_metadata env
              (replace_nth j (PyDict (dict_update updates d)) cases) fs)
    as [fs1 r1] eqn:Hsave.
  pose proof (save_case_metadata_spec _ _ _ _ _ Hsave)
    as [(-> & Hst1 & Hvec1 & _) | (e & -> & -> & He)].
  - injection Hupd as <- <-. split; [exact Hvec1|].
    exists j, d. auto.
  - injection Hupd as <- <-. auto.
Qed.


(** X6. [update_case_metadata] does not protect [vector_index]: after a
    call that returned true on a repository where the index invariant
    held, the invariant holds again exactly when the updated dict still
    carries the position of the case as its [vector_index]. *)
Theorem update_case_metadata_index_invariant env case_id updates fs cases fs' :
  index_invariant fs ->
  stored_cases fs = Some cases ->
  update_case_metadata env case_id updates fs = (fs', Ok true) ->
  exists i d,
    find_case case_id 0 cases = Ok (Some (i, PyDict d))
    /\ (index_invariant fs'
        <-> dict_get "vector_index" (dict_update updates d)
            = Some (PyInt (Z.of_nat i))).
Proof.
  intros (cases0 & Hst0 & Hidx & Hcount) Hst Hupd.
  assert (cases0 = cases) as -> by congruence.
  destruct (update_case_metadata_spec _ _ _ _ _ _ _ Hst Hupd)
    as (Hvec & i & d & Hf & Hn & _ & Hst').
  exists i, d. split; [exact Hf|].
  assert (Hi : (i < List.length cases)%nat) by (apply nth_error_Some; congruence).
  split.
  - intros (cases' & Hst'' & Hidx' & _).
    assert (cases' = replace_nth i (PyDict (dict_update updates d)) cases)
      as -> by congruence.
    specialize (Hidx' i _ (nth_error_replace_nth_eq i _ cases Hi)).
    cbn in Hidx'.
    destruct (dict_get "vector_index" (dict_update updates d));
      [injection Hidx' as ->; reflexivity | discriminate Hidx'].
  - intros Hget. eexists. split; [exact Hst'|]. split.
    + intros j case Hj. destruct (Nat.eq_dec i j) as [<- | Hij].
      * rewrite nth_error_replace_nth_eq in Hj by exact Hi.
        injection Hj as <-. cbn. rewrite Hget. reflexivity.
      * rewrite nth_error_replace_nth_neq in Hj by exact Hij.
        apply Hidx. exact Hj.
    + rewrite replace_nth_length, <- Hcount. unfold vector_count.
      rewrite Hvec. reflexivity.
Qed.

(** *** [validate_repository] *)

Lemma load_body_parts data cases :
  load_body data = Ok cases
  <-> (_validate_metadata_structure data = Ok []
       /\ get_or data "cases" (PyList []) = Ok (PyList cases)
       /\ check_cases cases = Ok tt).
Proof.
  unfold load_body. split.
  - destruct (_validate_metadata_structure data) as [[|]|]; cbn;
      try (intros Habs; discriminate Habs).
    destruct (get_or data "cases" (PyList [])) as [[]|]; cbn;
      try (intros Habs; discriminate Habs).
    destruct (check_cases l) as [[]|] eqn:Hk; cbn;
      try (intros Habs; discriminate Habs).
    intros [= <-]. auto.
  - intros (-> & -> & Hc). cbn. rewrite Hc. reflexivity.
Qed.

Lemma validate_cases_valid cases :
  check_cases cases = Ok tt ->
  forall i r, validate_cases i cases r = (r, None).
Proof.
  induction cases as [|c cases IH]; intros Hc i r; [reflexivity|].
  destruct c; try discriminate Hc. cbn in Hc |- *.
  destruct (case_errors d); [apply IH; exact Hc | discriminate Hc].
Qed.

Lemma validate_cases_mono cases :
  forall i r r' oe,
    validate_cases i cases r = (r', oe) ->
    Report.consistent r = false -> Report.consistent r' = false.
Proof.
  induction cases as [|c cases IH]; intros i r r' oe; cbn.
  - intros [= <- _]. auto.
  - destruct (_validate_case_metadata c) as [[|err errs]|].
    + apply IH.
    + intros Hv _. eapply IH; [exact Hv | reflexivity].
    + intros [= <- _]. auto.
Qed.

Lemma validate_cases_consistent cases :
  forall i r r',
    validate_cases i cases r = (r', None) ->
    Report.consistent r' = true ->
    r' = r /\ check_cases cases = Ok tt.
Proof.
  induction cases as [|c cases IH]; intros i r r'; cbn.
  - intros [= <-]. auto.
  - destruct c; cbn; try (intros Habs; discriminate Habs).
    destruct (case_errors d) as [|err errs].
    + apply IH.
    + intros Hv Hcons. apply validate_cases_mono in Hv; [congruence | reflexivity].
Qed.

Lemma member_strs x seen :
  PyCompare.member (PyStr x) (map PyStr seen) = true <-> In x seen.
Proof.
  unfold PyCompare.member. rewrite existsb_exists. split.
  - intros (y & Hin & Heq). apply in_map_iff in Hin as (s & <- & Hin).
    cbn in Heq. apply String.eqb_eq in Heq. subst. exact Hin.
  - intros Hin. exists (PyStr x). split; [apply in_map; exact Hin|].
    cbn. apply String.eqb_refl.
Qed.

Lemma distinct_from_length_le values :
  forall seen,
    (List.length (PyCompare.distinct_from seen values) <= List.length values)%nat.
Proof.
  induction values as [|x values IH]; intros seen; cbn; [lia|].
  destruct (PyCompare.member x seen); cbn.
  - specialize (IH seen). lia.
  - specialize (IH (x :: seen)). lia.
Qed.

Lemma distinct_from_strs ids :
  forall seen,
    List.length (PyCompare.distinct_from (map PyStr seen) (map PyStr ids))
    = List.length ids
    <-> (NoDup ids /\ forall x, In x ids -> ~ In x seen).
Proof.
  induction ids as [|x ids IH]; intros seen; cbn [map PyCompare.distinct_from].
  - split; [intros _; split; [constructor | intros ? []] | reflexivity].
  - destruct (PyCompare.member (PyStr x) (map PyStr seen)) eqn:Hm.
    + apply member_strs in Hm. split.
      * intros Hlen.
        pose proof (distinct_from_length_le (map PyStr ids) (map PyStr seen)) as Hle.
        rewrite length_map in Hle. cbn in Hlen. lia.
      * intros [_ Hno]. exfalso. apply (Hno x); [left; reflexivity | exact Hm].
    + assert (Hx : ~ In x seen).
      { intros Hin. apply member_strs in Hin. congruence. }
      cbn [List.length]. split.
      * intros Hlen. injection Hlen as Hlen.
        apply (IH (x :: seen)) in Hlen as [Hnd Hno].
        split.
        -- constructor; [|exact Hnd]. intros Hin. apply (Hno x Hin). left. reflexivity.
        -- intros y [<- | Hin]; [exact Hx|]. intros Hs. apply (Hno y Hin).
           right. exact Hs.
      * intros [Hnd Hno]. inversion Hnd as [|? ? Hxi Hnd']; subst. f_equal.
        apply (IH (x :: seen)). split; [exact Hnd'|].
        intros y Hin [<- | Hs]; [exact (Hxi Hin)|].
        apply (Hno y); [right; exact Hin | exact Hs].
Qed.

Lemma hashable_strs ids : forallb PyCompare.hashable (map PyStr ids) = true.
Proof. induction ids; cbn; auto. Qed.

Lemma validate_duplicates_strs ids r :
  NoDup ids -> validate_duplicates (map PyStr ids) r = (r, None).
Proof.
  intros Hnd. unfold validate_duplicates. rewrite hashable_strs. cbn [negb].
  unfold PyCompare.distinct. change (@nil py_value) with (map PyStr []).
  assert (Hlen : List.length (PyCompare.distinct_from (map PyStr []) (map PyStr ids))
                 = List.length ids).
  { apply distinct_from_strs. split; [exact Hnd | intros ? _ []]. }
  rewrite Hlen, length_map, Nat.eqb_refl. reflexivity.
Qed.

Lemma validate_duplicates_consistent ids r r' :
  validate_duplicates (map PyStr ids) r = (r', None) ->
  Report.consistent r' = true ->
  r' = r /\ NoDup ids.
Proof.
  unfold validate_duplicates. rewrite hashable_strs. cbn [negb].
  destruct (Nat.eqb (List.length (map PyStr ids))
                    (List.length (PyCompare.distinct (map PyStr ids)))) eqn:Hlen;
    cbn [negb].
  - intros [= <-] _. split; [reflexivity|].
    apply Nat.eqb_eq in Hlen. rewrite length_map in Hlen.
    unfold PyCompare.distinct in Hlen. change (@nil py_value) with (map PyStr []) in Hlen.
    symmetry in Hlen. apply distinct_from_strs in Hlen. apply Hlen.
  - destruct (as_strings _); [|intros Habs; discriminate Habs].
    intros [= <-] Hcons. discriminate Hcons.
Qed.

Lemma mapM_case_ids_records docs :
  forall i,
    mapM (fun case => subscript case "case_id") (records_from i docs)
    = Ok (map PyStr (map CaseDocument.case_id docs)).
Proof.
  induction docs as [|d docs IH]; intros i; [reflexivity|].
  cbn [records_from mapM map]. rewrite new_record_case_id, IH. reflexivity.
Qed.

Lemma mapM_case_ids_valid cases :
  Forall valid_case cases ->
  exists ids,
    mapM (fun case => subscript case "case_id") cases = Ok (map PyStr ids).
Proof.
  induction 1 as [|c cases Hc _ (ids & IH)]; [exists []; reflexivity|].
  destruct (valid_case_id c Hc) as (s & Hs & _).
  exists (s :: ids). cbn [mapM map]. rewrite Hs, IH. reflexivity.
Qed.

Lemma validate_indices_records docs :
  forall i r, validate_indices i (records_from i docs) r = (r, None).
Proof.
  induction docs as [|d docs IH]; intros i r; [reflexivity|].
  cbn [records_from validate_indices].
  assert (Hget : get_or (new_record d i) "vector_index" (PyInt (-1))
                 = Ok (PyInt (Z.of_nat i))) by reflexivity.
  rewrite Hget. cbn [PyCompare.eq_int]. rewrite Z.eqb_refl. cbn [negb].
  apply IH.
Qed.

Lemma validate_indices_mono cases :
  forall i r r' oe,
    validate_indices i cases r = (r', oe) ->
    Report.consistent r = false -> Report.consistent r' = false.
Proof.
  induction cases as [|c cases IH]; intros i r r' oe; cbn [validate_indices].
  - intros [= <- _]. auto.
  - destruct (get_or c "vector_index" (PyInt (-1))) as [v|];
      [|intros [= <- _]; auto].
    destruct (negb (PyCompare.eq_int v (Z.of_nat i))); [|apply IH].
    destruct (subscript c "case_id").
    + intros Hv _. eapply IH; [exact Hv | reflexivity].
    + intros [= <- _] _. reflexivity.
Qed.

Lemma validate_indices_consistent cases :
  forall i r r',
    validate_indices i cases r = (r', None) ->
    Report.consistent r' = true ->
    r' = r
    /\ forall k case,
        nth_error cases k = Some case ->
        exists v,
          get_or case "vector_index" (PyInt (-1)) = Ok v
          /\ PyCompare.eq_int v (Z.of_nat (i + k)) = true.
Proof.
  induction cases as [|c cases IH]; intros i r r'; cbn [validate_indices].
  - intros [= <-] _. split; [reflexivity|]. intros [|k] ? Habs; discriminate Habs.
  - destruct (get_or c "vector_index" (PyInt (-1))) as [v|] eqn:Hget;
      [|intros Habs; discriminate Habs].
    destruct (PyCompare.eq_int v (Z.of_nat i)) eqn:Heq; cbn [negb].
    + intros Hv Hcons. destruct (IH _ _ _ Hv Hcons) as [-> Hrest].
      split; [reflexivity|]. intros [|k] case Hn; cbn in Hn.
      * injection Hn as <-. exists v. rewrite Nat.add_0_r. auto.
      * rewrite Nat.add_succ_r. apply (Hrest k case Hn).
    + destruct (subscript c "case_id"); [|intros Habs; discriminate Habs].
      intros Hv Hcons. apply validate_indices_mono in Hv; [congruence | reflexivity].
Qed.

Lemma validate_repository_report docs fs :
  tracks docs fs ->
  validate_repository fs
  = match vectors_file fs with
    | Some (Pickled vectors) =>
        {| Report.metadata_count := List.length docs;
           Report.vector_count := len vectors;
           Report.consistent := Nat.eqb (List.length docs) (len vectors);
           Report.issues :=
             if Nat.eqb (List.length docs) (len vectors) then []
             else [Report.CountMismatch (List.length docs) (len vectors)];
           Report.schema_valid := true;
           Report.capacity_ok := true |}
    | _ =>
        {| Report.metadata_count := List.length docs;
           Report.vector_count := 0;
           Report.consistent := true;
           Report.issues := [];
           Report.schema_valid := true;
           Report.capacity_ok := true |}
    end.
Proof.
  intros (Hst & Hnd & Hcap & Htot).
  unfold stored_cases in Hst. unfold stored_total in Htot.
  destruct (metadata_file fs) as [[|data]|] eqn:Hfile; try discriminate Hst.
  destruct (load_body data) as [cases|] eqn:Hload; [|discriminate Hst].
  injection Hst as ->. apply load_body_parts in Hload as (Hs & Hc & Hk).
  destruct data as [| | | | | |d]; try discriminate Htot.
  destruct (dict_get "metadata" d) as [[| | | | | |m]|] eqn:Hm; try discriminate Htot.
  unfold validate_repository, validate_body. rewrite Hfile, Hs, Hc.
  rewrite validate_cases_valid by exact Hk.
  rewrite records_from_length.
  assert (Hgt : (Z.of_nat (List.length docs) >? MAX_REPOSITORY_SIZE) = false).
  { destruct (Z.gtb_spec (Z.of_nat (List.length docs)) MAX_REPOSITORY_SIZE);
      [lia | reflexivity]. }
  rewrite Hgt, mapM_case_ids_records.
  rewrite validate_duplicates_strs by exact Hnd.
  rewrite validate_indices_records.
  cbn [get_or bind]. rewrite Hm. cbn [get_or bind]. rewrite Htot.
  cbn [PyCompare.eq_int]. rewrite Z.eqb_refl. cbn [negb].
  unfold load_case_vectors.
  destruct (vectors_file fs) as [[|a]|]; cbn; try reflexivity.
  destruct (Nat.eqb (List.length docs) (len a)); reflexivity.
Qed.

(** X7. The report of [validate_repository] on a metadata file that
    holds the records of [docs].  With a readable vectors file of as
    many rows as there are documents, and also with no readable vectors
    file at all, the report is consistent and lists no issue; a
    readable vectors file with another number of rows gives the one
    issue of the count mismatch.  A missing vectors file is thus not
    reported, whatever the number of cases. *)
Theorem validate_repository_on_tracked_metadata docs fs :
  tracks docs fs ->
  validate_repository fs
  = match vectors_file fs with
    | Some (Pickled vectors) =>
        {| Report.metadata_count := List.length docs;
           Report.vector_count := len vectors;
           Report.consistent := Nat.eqb (List.length docs) (len vectors);
           Report.issues :=
             if Nat.eqb (List.length docs) (len vectors) then []
             else [Report.CountMismatch (List.length docs) (len vectors)];
           Report.schema_valid := true;
           Report.capacity_ok := true |}
    | _ =>
        {| Report.metadata_count := List.length docs;
           Report.vector_count := 0;
           Report.consistent := true;
           Report.issues := [];
           Report.schema_valid := true;
           Report.capacity_ok := true |}
    end.
Proof. apply validate_repository_report. Qed.

Lemma load_body_total data cases :
  load_body data = Ok cases ->
  exists d m total,
    data = PyDict d
    /\ dict_get "metadata" d = Some (PyDict m)
    /\ dict_get "total_cases" m = Some total.
Proof.
  unfold load_body, _validate_metadata_structure.
  destruct data as [| | | |s|l|d]; try (cbn; intros Habs; discriminate Habs).
  - destruct (str_has "cases" s || str_has "metadata" s); cbn;
      intros Habs; discriminate Habs.
  - destruct (list_has_str "cases" l || list_has_str "metadata" l); cbn;
      intros Habs; discriminate Habs.
  - cbn [bind get_or].
    destruct (dict_get "cases" d) as [c|];
      [|cbn; intros Habs; discriminate Habs].
    destruct (is_list c); [|cbn; intros Habs; discriminate Habs].
    cbn [app].
    destruct (dict_get "metadata" d) as [m|] eqn:Hm;
      [|cbn; intros Habs; discriminate Habs].
    destruct m as [| | | | | |m]; try (cbn; intros Habs; discriminate Habs).
    unfold dict_mem. cbn [filter].
    destruct (dict_get "total_cases" m) as [total|] eqn:Htot.
    + intros _. exists d, m, total. auto.
    + destruct (dict_get "version" m), (dict_get "created_at" m),
        (dict_get "last_updated" m), (dict_get "schema_version" m);
        cbn; intros Habs; discriminate Habs.
Qed.

(** X8. What a consistent report of [validate_repository] establishes.
    When the report says [consistent], the metadata file loads; it holds
    at most 1000 cases; the case ids are strings without repetition; each
    case has a [vector_index] equal, as Python compares, to its position;
    a readable vectors file has as many rows as there are cases; the
    declared [total_cases] equals the number of cases; and the report
    lists no issue and gives the two counts. *)
Theorem validate_repository_consistent_means fs :
  Report.consistent (validate_repository fs) = true ->
  exists cases ids total,
    stored_cases fs = Some cases
    /\ Z.of_nat (List.length cases) <= MAX_REPOSITORY_SIZE
    /\ mapM (fun case => subscript case "case_id") cases = Ok (map PyStr ids)
    /\ NoDup ids
    /\ (forall i case,
          nth_error cases i = Some case ->
          exists v,
            subscript case "vector_index" = Ok v
            /\ PyCompare.eq_int v (Z.of_nat i) = true)
    /\ (forall vectors,
          vectors_file fs = Some (Pickled vectors) ->
          len vectors = List.length cases)
    /\ stored_total fs = Some total
    /\ PyCompare.eq_int total (Z.of_nat (List.length cases)) = true
    /\ validate_repository fs
       = {| Report.metadata_count := List.length cases;
            Report.vector_count := vector_count fs;
            Report.consistent := true;
            Report.issues := [];
            Report.schema_valid := true;
            Report.capacity_ok := true |}.
Proof.
  unfold validate_repository.
  destruct (metadata_file fs) as [[|data]|] eqn:Hfile;
    try (cbn; intros Habs; discriminate Habs).
  destruct (validate_body data fs) as [results [e|]] eqn:Hbody;
    [cbn; intros Habs; discriminate Habs|].
  intros Hcons. unfold validate_body in Hbody.
  destruct (_validate_metadata_structure data) as [[|se ses]|] eqn:Hs;
    [| injection Hbody as <-; discriminate Hcons | discriminate Hbody].
  destruct (get_or data "cases" (PyList [])) as [[| | | | |cases|]|] eqn:Hc;
    try discriminate Hbody.
  destruct (validate_cases 0 cases
              (Report.set_metadata_count (List.length cases) Report.initial))
    as [r1 [e|]] eqn:H1; [discriminate Hbody|].
  destruct (mapM (fun case => subscript case "case_id") cases)
    as [case_ids|] eqn:Hids; [|discriminate Hbody].
  match type of Hbody with
  | context [validate_duplicates case_ids ?r] =>
      remember r as r3 eqn:Hr3 in Hbody
  end.
  destruct (validate_duplicates case_ids r3) as [r4 [e|]] eqn:H4;
    [discriminate Hbody|].
  destruct (validate_indices 0 cases r4) as [r5 [e|]] eqn:H5;
    [discriminate Hbody|].
  destruct (bind (get_or data "metadata" (PyDict []))
                 (fun meta_section => get_or meta_section "total_cases" (PyInt 0)))
    as [total|] eqn:Htot; [|discriminate Hbody].
  destruct (PyCompare.eq_int total (Z.of_nat (List.length cases))) eqn:Heq;
    cbn [negb] in Hbody; injection Hbody as <-; [|discriminate Hcons].
  destruct (validate_indices_consistent _ _ _ _ H5 Hcons) as [-> Hidx].
  assert (Hcons3 : Report.consistent r3 = true /\ r4 = r3
                   /\ exists ids, case_ids = map PyStr ids /\ NoDup ids).
  { assert (Hc1 : Report.consistent r1 = false -> Report.consistent r4 = false).
    { intros Hf.
      assert (Hf3 : Report.consistent r3 = false).
      { subst r3. destruct (Z.of_nat (List.length cases) >? MAX_REPOSITORY_SIZE);
          destruct (snd (load_case_vectors fs)) as [[a|]|];
          try destruct (negb (Nat.eqb (List.length cases) (len a)));
          cbn; auto. }
      clear - H4 Hf3. unfold validate_duplicates in H4.
      destruct (negb (forallb PyCompare.hashable case_ids)); [discriminate H4|].
      destruct (negb _).
      - destruct (as_strings _); [|discriminate H4]. injection H4 as <-. reflexivity.
      - injection H4 as <-. exact Hf3. }
    assert (Hr1 : Report.consistent r1 = true).
    { destruct (Report.consistent r1); [reflexivity|].
      rewrite Hc1 in Hcons by reflexivity. discriminate Hcons. }
    destruct (validate_cases_consistent _ _ _ _ H1 Hr1) as [_ Hk].
    apply check_cases_valid in Hk.
    destruct (mapM_case_ids_valid cases Hk) as (ids & Hids').
    assert (case_ids = map PyStr ids) as -> by congruence.
    destruct (validate_duplicates_consistent _ _ _ H4 Hcons) as [-> Hnd].
    split; [exact Hcons|]. split; [reflexivity|]. exists ids. auto. }
  destruct Hcons3 as (Hcons3 & -> & ids & -> & Hnd).
  assert (Hcap : (Z.of_nat (List.length cases) >? MAX_REPOSITORY_SIZE) = false).
  { destruct (Z.of_nat (List.length cases) >? MAX_REPOSITORY_SIZE); [|reflexivity].
    exfalso. subst r3.
    destruct (snd (load_case_vectors fs)) as [[a|]|];
      try destruct (negb (Nat.eqb (List.length cases) (len a)));
      cbn in Hcons3; discriminate Hcons3. }
  rewrite Hcap in Hr3.
  assert (Hr1 : Report.consistent r1 = true).
  { subst r3.
    destruct (snd (load_case_vectors fs)) as [[a|]|];
      try destruct (negb (Nat.eqb (List.length cases) (len a)));
      cbn in Hcons3; auto; discriminate Hcons3. }
  destruct (validate_cases_consistent _ _ _ _ H1 Hr1) as [-> Hk].
  assert (Hload : load_body data = Ok cases).
  { apply load_body_parts. auto. }
  destruct (load_body_total _ _ Hload) as (d & m & total' & -> & Hm & Htot').
  cbn [get_or bind] in Htot. rewrite Hm in Htot. cbn [get_or bind] in Htot.
  rewrite Htot' in Htot. injection Htot as ->.
  exists cases, ids, total.
  split; [unfold stored_cases; rewrite Hfile, Hload; reflexivity|].
  split.
  { destruct (Z.gtb_spec (Z.of_nat (List.length cases)) MAX_REPOSITORY_SIZE);
      [discriminate Hcap | assumption]. }
  split; [exact Hids|]. split; [exact Hnd|]. split.
  { intros i case Hn. destruct (Hidx i case Hn) as (v & Hget & Hv).
    exists v. split; [|exact Hv].
    pose proof (check_cases_valid cases) as [Hvalid _].
    specialize (Hvalid Hk).
    assert (Hcase : valid_case case).
    { eapply Forall_forall; [exact Hvalid | eapply nth_error_In; eauto]. }
    destruct Hcase as (cd & -> & _). cbn in Hget |- *.
    destruct (dict_get "vector_index" cd); [exact Hget|].
    injection Hget as <-. cbn [PyCompare.eq_int] in Hv.
    apply Z.eqb_eq in Hv. lia. }
  split.
  { intros a Ha. subst r3. unfold load_case_vectors in Hcons3.
    rewrite Ha in Hcons3. cbn in Hcons3.
    destruct (Nat.eqb (List.length cases) (len a)) eqn:E;
      [|cbn in Hcons3; discriminate Hcons3].
    apply Nat.eqb_eq in E. auto. }
  split; [unfold stored_total; rewrite Hfile, Hm; exact Htot'|].
  split; [exact Heq|].
  subst r3. unfold load_case_vectors, vector_count in *.
  destruct (vectors_file fs) as [[|a]|]; cbn in *; try reflexivity.
  destruct (Nat.eqb (List.length cases) (len a));
    [reflexivity | cbn in Hcons3; discriminate Hcons3].
Qed.


End Tracking.

(** ** The search engine *)

Section Engine.
Import SimilaritySearchEngine.
Arguments prefix : simpl never.








End Engine.

(** ** The start of the application *)

Section Startup.
Context `{DT : CaseDocument.DateTime}.
Import CaseRepository.
Arguments case_errors : simpl never.
Arguments SimilaritySearchEngine.prefix : simpl never.

Lemma initialize_engine_spec env fs cases :
  stored_cases fs = Some cases ->
  Api.initialize_engine env fs
  = (fs,
     match vectors_file fs, cases with
     | Some (Pickled vectors), _ :: _ =>
         if Nat.eqb (len vectors) (List.length cases)
         then Ok (Some (SimilaritySearchEngine.mk vectors cases))
         else Err VectorCountMismatch
     | _, _ => Ok None
     end).
Proof.
  intros Hst. unfold Api.initialize_engine, bind_io, load_case_vectors.
  destruct (vectors_file fs) as [[|a]|]; rewrite (load_stored env fs cases Hst);
    try (destruct cases; reflexivity).
  destruct cases as [|c cases]; [reflexivity|].
  unfold lift, SimilaritySearchEngine.init.
  destruct (Nat.eqb (len a) (List.length (c :: cases))); reflexivity.
Qed.






(** X12. The application does not start on a torn repository.  When
    [add_case] raised in its vector step on a repository that held the
    records of [docs] with the index invariant and a readable vectors
    file, the next start of the application loads one case more than
    there are vector rows, and the engine's constructor raises. *)
Theorem startup_fails_after_torn_add env env' doc v docs fs fs' e vectors :
  tracks docs fs ->
  index_invariant fs ->
  vectors_file fs = Some (Pickled vectors) ->
  add_case env doc v fs = (fs', Err e) ->
  late_failure e = true ->
  Api.initialize_engine env' fs' = (fs', Err VectorCountMismatch)
  /\ stored_cases fs' = Some (records_from 0 (docs ++ [doc]))
  /\ vectors_file fs' = Some (Pickled vectors)
  /\ len vectors = List.length docs.
Proof.
  intros Htr (cases & Hst' & _ & Hcount) Hvec Hadd He.
  pose proof (add_case_tracked _ _ _ _ _ _ _ Htr Hadd) as Htr'.
  cbv beta iota in Htr'. rewrite He in Htr'. destruct Htr as (Hst & _). destruct Htr' as (Hnew & _).
  assert (cases = records_from 0 docs) as -> by congruence.
  rewrite records_from_length in Hcount. unfold vector_count in Hcount.
  rewrite Hvec in Hcount.
  assert (Hsame : vectors_file fs' = vectors_file fs).
  { apply add_case_spec in Hadd
      as [(e0 & [= <-] & He0 & _)
         | (cs & _ & _ & _ & [[Habs _] | (e0 & _ & _ & Hv)])];
      [congruence | discriminate Habs | exact Hv]. }
  split; [|rewrite Hsame; auto].
  rewrite (initialize_engine_spec env' fs' _ Hnew), Hsame, Hvec.
  rewrite records_from_length, length_app, Hcount. cbn [List.length].
  replace (Nat.eqb (List.length docs) (List.length docs + 1)) with false
    by (symmetry; apply Nat.eqb_neq; lia).
  rewrite records_from_snoc.
  destruct (records_from 0 docs); reflexivity.
Qed.

End Startup.

(** ** The vectorizer *)

Section Vectorizer.
Import LegalVectorizer.
#[local] Remove Hints CountingTfidf : typeclass_instances.
Context `{TF : Tfidf}.

(** [b <= a] on the scores of two pairs. *)
Let desc (a b : string * float) : Prop := PrimFloat.leb (snd b) (snd a) = true.
Let positive (p : string * float) : Prop := PrimFloat.ltb 0%float (snd p) = true.

Lemma positive_features_spec names vector :
  forall i,
    (i + List.length vector <= List.length names)%nat ->
    exists feature_scores,
      positive_features names i vector = Ok feature_scores
      /\ map snd feature_scores = filter (PrimFloat.ltb 0%float) vector
      /\ Forall (fun p =>
                   positive p
                   /\ exists k, nth_error names (i + k) = Some (fst p)
                                /\ nth_error vector k = Some (snd p))
                feature_scores.
Proof.
  induction vector as [|x vector IH]; intros i Hlen; cbn [positive_features filter].
  - exists []. repeat split; constructor.
  - cbn [List.length] in Hlen.
    destruct (IH (S i)) as (rest & Hrest & Hsnd & Hall); [lia|].
    assert (Hshift : Forall (fun p =>
                       positive p
                       /\ exists k, nth_error names (i + k) = Some (fst p)
                                    /\ nth_error (x :: vector) k = Some (snd p))
                     rest).
    { eapply Forall_impl; [|exact Hall].
      intros p (Hp & k & Hn & Hv). split; [exact Hp|].
      exists (S k). rewrite Nat.add_succ_r. auto. }
    destruct (PrimFloat.ltb 0 x) eqn:Hx.
    + destruct (nth_error names i) as [name|] eqn:Hname;
        [|apply nth_error_None in Hname; lia].
      rewrite Hrest. cbn [bind]. eexists. split; [reflexivity|].
      split; [cbn; rewrite Hsnd; reflexivity|].
      constructor; [|exact Hshift].
      split; [exact Hx|]. exists 0%nat. rewrite Nat.add_0_r. auto.
    + exists rest. auto.
Qed.

Lemma insert_desc_perm p l : Permutation (insert_desc p l) (p :: l).
Proof.
  induction l as [|q l IH]; cbn; [reflexivity|].
  destruct (PrimFloat.ltb (snd p) (snd q)); [|reflexivity].
  rewrite IH. apply perm_swap.
Qed.

Lemma sort_desc_perm l : Permutation (sort_desc l) l.
Proof.
  induction l as [|p l IH]; cbn; [constructor|].
  rewrite insert_desc_perm. constructor. exact IH.
Qed.

Lemma insert_desc_sorted p l :
  positive p -> Forall positive l ->
  StronglySorted desc l -> StronglySorted desc (insert_desc p l).
Proof.
  intros Hp Hpos Hs. induction Hs as [|q l Hs IH Hall]; cbn.
  - constructor; constructor.
  - inversion Hpos as [|? ? Hq Hpos']; subst.
    destruct (PrimFloat.ltb (snd p) (snd q)) eqn:Hlt.
    + constructor; [apply IH; exact Hpos'|].
      apply (Permutation_Forall (Permutation_sym (insert_desc_perm p l))).
      constructor; [|exact Hall].
      unfold desc. apply ltb_leb. exact Hlt.
    + assert (Hqp : desc p q).
      { unfold desc, positive in *. rank_lia. }
      constructor; [constructor; assumption|].
      constructor; [exact Hqp|].
      eapply Forall_impl; [|exact Hall].
      intros r Hr. unfold desc in *. rank_lia.
Qed.

Lemma sort_desc_sorted l :
  Forall positive l -> StronglySorted desc (sort_desc l).
Proof.
  induction 1 as [|p l Hp Hl IH]; cbn; [constructor|].
  apply insert_desc_sorted; [exact Hp | | exact IH].
  apply (Permutation_Forall (Permutation_sym (sort_desc_perm l))). exact Hl.
Qed.

(** X13. [get_top_features] on a fitted vectorizer whose feature names
    cover the columns of the document's row.  It returns the pairs
    (feature name, score) of the entries of the row that are greater than
    zero; the pairs are in non-increasing order of score; with a
    count n >= 0 there are min(n, number of positive entries) of them;
    and the positive entries that are left out are not above the ones
    returned. *)
Theorem get_top_features_returns_the_largest_scores
    (self : t) document n names vector :
  _is_fitted self = true ->
  _feature_names self = Some names ->
  nth_error (rows (sk_transform (vectorizer self) [document])) 0 = Some vector ->
  (List.length vector <= List.length names)%nat ->
  exists top rest,
    get_top_features self document n = Ok top
    /\ Permutation (map snd (top ++ rest)) (filter (PrimFloat.ltb 0%float) vector)
    /\ Forall (fun p =>
                 PrimFloat.ltb 0%float (snd p) = true
                 /\ exists k, nth_error names k = Some (fst p)
                              /\ nth_error vector k = Some (snd p))
              top
    /\ StronglySorted (fun a b => PrimFloat.leb (snd b) (snd a) = true) top
    /\ (forall p q, In p top -> In q rest ->
                    PrimFloat.leb (snd q) (snd p) = true)
    /\ (0 <= n ->
        Z.of_nat (List.length top)
        = Z.min n (Z.of_nat (List.length (filter (PrimFloat.ltb 0%float) vector)))).
Proof.
  intros Hfit Hnames Hrow Hlen.
  destruct (positive_features_spec names vector 0 Hlen)
    as (feature_scores & Hfs & Hsnd & Hall).
  assert (Hpos : Forall positive feature_scores).
  { eapply Forall_impl; [|exact Hall]. intros p [Hp _]. exact Hp. }
  pose proof (sort_desc_sorted _ Hpos) as Hsorted.
  pose proof (sort_desc_perm feature_scores) as Hperm.
  unfold get_top_features, transform, get_feature_names.
  rewrite Hfit. cbn [negb bind]. rewrite Hrow, Hnames. cbn [bind].
  rewrite Hfs. cbn [bind].
  assert (Hslice : exists m,
             slice_to n (sort_desc feature_scores) = firstn m (sort_desc feature_scores)
             /\ (0 <= n -> m = Z.to_nat n)).
  { unfold slice_to. destruct (n <? 0) eqn:E; eexists; split; try reflexivity.
    apply Z.ltb_lt in E. lia. }
  destruct Hslice as (m & Hslice & Hm).
  exists (firstn m (sort_desc feature_scores)), (skipn m (sort_desc feature_scores)).
  rewrite Hslice. split; [reflexivity|].
  rewrite <- (firstn_skipn m (sort_desc feature_scores)) in Hsorted.
  apply StronglySorted_app_iff in Hsorted as (Htop & _ & Hcross).
  split; [|split; [|split; [|split]]].
  - rewrite firstn_skipn, <- Hsnd. apply Permutation_map. exact Hperm.
  - assert (Hall' : Forall (fun p =>
                       PrimFloat.ltb 0 (snd p) = true
                       /\ exists k, nth_error names k = Some (fst p)
                                    /\ nth_error vector k = Some (snd p))
                     (sort_desc feature_scores)).
    { apply (Permutation_Forall (Permutation_sym Hperm)). exact Hall. }
    rewrite Forall_forall in Hall' |- *. intros p Hp.
    apply Hall'. eapply In_firstn. exact Hp.
  - exact Htop.
  - intros p q Hp Hq. exact (Hcross p q Hp Hq).
  - intros Hn. rewrite (Hm Hn), length_firstn.
    rewrite (Permutation_length Hperm), <- Hsnd, length_map. lia.
Qed.

End Vectorizer.

(** ** The text preprocessor *)

Section Text.
Import TextPreprocessor.
#[local] Remove Hints NoNltk : typeclass_instances.
Context `{NL : Nltk}.

(** The characters [normalize_text] lets through. *)
Let clean (c : ascii) : bool :=
  is_lower c || is_digit c || Ascii.eqb c "_"%char || Ascii.eqb c " "%char.
Let replaced (c : ascii) : ascii :=
  if is_word c || is_space c then c else " "%char.

Ltac all_chars c :=
  destruct c as [[] [] [] [] [] [] [] []]; vm_compute; try reflexivity;
  try discriminate; auto.

Lemma replaced_lower_char c :
  let c' := replaced (lower_char c) in
  (if is_space c' then true else clean c' && negb (Ascii.eqb c' " "%char)) = true.
Proof. all_chars c. Qed.

Lemma clean_char c :
  clean c = true ->
  lower_char c = c /\ replaced c = c /\ is_space c = Ascii.eqb c " "%char.
Proof. all_chars c. Qed.

Lemma alpha_lower_char c : is_alpha c = true -> is_lower (lower_char c) = true.
Proof. all_chars c. Qed.

Lemma forall_string_map p f s :
  forall_string p (map_string f s) = forall_string (fun c => p (f c)) s.
Proof. induction s as [|c s IH]; cbn; [reflexivity | rewrite IH; reflexivity]. Qed.

Lemma forall_string_impl (p q : ascii -> bool) s :
  (forall c, p c = true -> q c = true) ->
  forall_string p s = true -> forall_string q s = true.
Proof.
  intros Hpq. induction s as [|c s IH]; cbn; [reflexivity|].
  intros Hs. apply andb_true_iff in Hs as [Hc Hs].
  rewrite (Hpq c Hc), (IH Hs). reflexivity.
Qed.

Lemma forall_string_all p s : (forall c, p c = true) -> forall_string p s = true.
Proof.
  intros Hp. induction s as [|c s IH]; cbn; [reflexivity|].
  rewrite Hp, IH. reflexivity.
Qed.

Lemma map_string_id f s :
  forall_string (fun c => Ascii.eqb (f c) c) s = true -> map_string f s = s.
Proof.
  induction s as [|c s IH]; cbn; [reflexivity|].
  intros Hs. apply andb_true_iff in Hs as [Hc Hs].
  apply Ascii.eqb_eq in Hc. rewrite Hc, (IH Hs). reflexivity.
Qed.

Lemma map_string_length f s : String.length (map_string f s) = String.length s.
Proof. induction s as [|c s IH]; cbn; [reflexivity | rewrite IH; reflexivity]. Qed.

(** The text between the two substitutions: a character is whitespace, or
    clean and not the space. *)
Let spaced (c : ascii) : bool :=
  if is_space c then true else clean c && negb (Ascii.eqb c " "%char).

Lemma collapse_spaces_clean s :
  forall_string spaced s = true ->
  forall in_run,
    forall_string clean (collapse_spaces in_run s) = true
    /\ no_double_space in_run (collapse_spaces in_run s) = true.
Proof.
  induction s as [|c s IH]; cbn [forall_string collapse_spaces];
    [intros _ b; split; reflexivity|].
  intros Hs b. apply andb_true_iff in Hs as [Hc Hs]. unfold spaced in Hc.
  destruct (is_space c) eqn:Hsp.
  - destruct b.
    + apply IH. exact Hs.
    + destruct (IH Hs true) as [H1 H2]. cbn. rewrite H1, H2. split; reflexivity.
  - apply andb_true_iff in Hc as [Hclean Hne].
    destruct (IH Hs false) as [H1 H2]. cbn [forall_string no_double_space].
    rewrite Hclean, H1. apply negb_true_iff in Hne. rewrite Hne, H2.
    split; reflexivity.
Qed.

Lemma no_double_space_weaken s :
  no_double_space true s = true -> no_double_space false s = true.
Proof.
  destruct s as [|c s]; cbn; [reflexivity|].
  destruct (Ascii.eqb c " "); [discriminate | auto].
Qed.

Lemma lstrip_clean s :
  forall_string clean s = true ->
  forall b,
    no_double_space b s = true ->
    forall_string clean (lstrip s) = true
    /\ no_double_space true (lstrip s) = true.
Proof.
  induction s as [|c s IH]; cbn [forall_string lstrip no_double_space];
    [intros _ b _; split; reflexivity|].
  intros Hs b Hnds. apply andb_true_iff in Hs as [Hc Hs].
  destruct (clean_char c Hc) as (_ & _ & Hsp). rewrite Hsp.
  destruct (Ascii.eqb c " ") eqn:E.
  - apply andb_true_iff in Hnds as [_ Hnds]. apply (IH Hs true Hnds).
  - cbn [forall_string no_double_space]. rewrite Hc, Hs, E. auto.
Qed.

Lemma rstrip_clean s :
  forall_string clean s = true ->
  forall b,
    no_double_space b s = true ->
    forall_string clean (rstrip s) = true
    /\ (rstrip s = "" \/ single_spaced b (rstrip s) = true).
Proof.
  induction s as [|c s IH]; cbn [forall_string rstrip no_double_space];
    [intros _ b _; split; [reflexivity | left; reflexivity]|].
  intros Hs b Hnds. apply andb_true_iff in Hs as [Hc Hs].
  destruct (clean_char c Hc) as (_ & _ & Hsp). rewrite Hsp.
  destruct (Ascii.eqb c " ") eqn:E.
  - apply andb_true_iff in Hnds as [Hb Hnds].
    destruct (IH Hs true Hnds) as [Hcl [Hempty | Hss]].
    + rewrite Hempty. split; [reflexivity | left; reflexivity].
    + destruct (rstrip s) as [|c' r] eqn:Hr; [discriminate Hss|].
      split.
      * cbn [forall_string]. rewrite Hc. exact Hcl.
      * right. cbn [single_spaced]. rewrite E, Hb. exact Hss.
  - destruct (IH Hs false Hnds) as [Hcl [Hempty | Hss]].
    + rewrite Hempty. split.
      * cbn. rewrite Hc. reflexivity.
      * right. cbn. rewrite E. reflexivity.
    + destruct (rstrip s) as [|c' r] eqn:Hr.
      * split; [cbn; rewrite Hc; reflexivity | right; cbn; rewrite E; reflexivity].
      * split.
        -- cbn [forall_string]. rewrite Hc. exact Hcl.
        -- right. cbn [single_spaced]. rewrite E. exact Hss.
Qed.

Lemma single_spaced_no_double s :
  forall b, single_spaced b s = true -> no_double_space b s = true.
Proof.
  induction s as [|c s IH]; intros b; cbn; [reflexivity|].
  destruct (Ascii.eqb c " ").
  - intros Hs. apply andb_true_iff in Hs as [-> Hs]. apply IH. exact Hs.
  - apply IH.
Qed.

Lemma collapse_spaces_id s :
  forall_string clean s = true ->
  forall b, no_double_space b s = true -> collapse_spaces b s = s.
Proof.
  induction s as [|c s IH]; cbn [forall_string collapse_spaces no_double_space];
    [reflexivity|].
  intros Hs b Hnds. apply andb_true_iff in Hs as [Hc Hs].
  destruct (clean_char c Hc) as (_ & _ & Hsp). rewrite Hsp.
  destruct (Ascii.eqb c " ") eqn:E.
  - apply andb_true_iff in Hnds as [Hb Hnds]. apply negb_true_iff in Hb. subst b.
    apply Ascii.eqb_eq in E. subst c. rewrite (IH Hs true Hnds). reflexivity.
  - rewrite (IH Hs false Hnds). reflexivity.
Qed.

Lemma lstrip_id s :
  forall_string clean s = true -> single_spaced true s = true -> lstrip s = s.
Proof.
  destruct s as [|c s]; cbn [forall_string lstrip single_spaced]; [reflexivity|].
  intros Hs Hss. apply andb_true_iff in Hs as [Hc _].
  destruct (clean_char c Hc) as (_ & _ & Hsp). rewrite Hsp.
  destruct (Ascii.eqb c " "); [discriminate Hss | reflexivity].
Qed.

Lemma rstrip_id s :
  forall_string clean s = true ->
  forall b, single_spaced b s = true -> rstrip s = s.
Proof.
  induction s as [|c s IH]; cbn [forall_string rstrip single_spaced];
    [reflexivity|].
  intros Hs b Hss. apply andb_true_iff in Hs as [Hc Hs].
  destruct (clean_char c Hc) as (_ & _ & Hsp). rewrite Hsp.
  destruct (Ascii.eqb c " ") eqn:E.
  - apply andb_true_iff in Hss as [_ Hss]. rewrite (IH Hs true Hss).
    destruct s; [discriminate Hss | reflexivity].
  - rewrite (IH Hs false Hss). destruct s; reflexivity.
Qed.

Lemma normalize_text_str s :
  normalize_text (PyStr s)
  = strip (collapse_spaces false (map_string replaced (lower s))).
Proof.
  unfold normalize_text. cbn [truthy].
  destruct (String.eqb s "") eqn:E; cbn [negb]; [|reflexivity].
  apply String.eqb_eq in E. subst. reflexivity.
Qed.

Lemma normalize_text_clean s :
  forall_string clean (normalize_text (PyStr s)) = true
  /\ (normalize_text (PyStr s) = ""
      \/ single_spaced true (normalize_text (PyStr s)) = true).
Proof.
  rewrite normalize_text_str. unfold strip, lower.
  assert (Hsp : forall_string spaced (map_string replaced (map_string lower_char s))
                = true).
  { rewrite !forall_string_map. apply forall_string_all.
    intros c. apply replaced_lower_char. }
  destruct (collapse_spaces_clean _ Hsp false) as [Hc Hnds].
  destruct (lstrip_clean _ Hc false Hnds) as [Hc' Hnds'].
  exact (rstrip_clean _ Hc' true Hnds').
Qed.

(** X14. The output of [normalize_text] on ASCII text.  It is made of
    lowercase letters, digits, underscores and spaces only; it is empty, or
    it neither starts nor ends with a space and has no two spaces in a row;
    and normalizing it again changes nothing. *)
Theorem normalize_text_output s :
  forall_string is_ascii s = true ->
  let normalized := normalize_text (PyStr s) in
  forall_string
    (fun c => is_lower c || is_digit c || Ascii.eqb c "_"%char
              || Ascii.eqb c " "%char) normalized = true
  /\ (normalized = "" \/ single_spaced true normalized = true)
  /\ normalize_text (PyStr normalized) = normalized.
Proof.
  intros _ normalized.
  destruct (normalize_text_clean s) as [Hc Hss]. fold normalized in Hc, Hss.
  split; [exact Hc|]. split; [exact Hss|].
  destruct Hss as [-> | Hss]; [reflexivity|].
  rewrite normalize_text_str. unfold lower.
  rewrite (map_string_id lower_char normalized).
  2:{ eapply forall_string_impl; [|exact Hc].
      intros c Hcl. destruct (clean_char c Hcl) as (-> & _). apply Ascii.eqb_refl. }
  rewrite (map_string_id replaced normalized).
  2:{ eapply forall_string_impl; [|exact Hc].
      intros c Hcl. destruct (clean_char c Hcl) as (_ & -> & _). apply Ascii.eqb_refl. }
  rewrite (collapse_spaces_id _ Hc false)
    by (apply no_double_space_weaken, single_spaced_no_double; exact Hss).
  unfold strip. rewrite (lstrip_id _ Hc Hss). apply (rstrip_id _ Hc true Hss).
Qed.

Lemma isalpha_letters token :
  isalpha token = true -> forall_string is_alpha token = true.
Proof. unfold isalpha. intros Ht. apply andb_true_iff in Ht as [_ Ht]. exact Ht. Qed.

Lemma tokenize_text_letters text :
  Forall (fun token => forall_string is_alpha token = true) (tokenize_text text).
Proof.
  unfold tokenize_text. destruct (String.eqb text ""); [constructor|].
  destruct (word_tokenize text); apply Forall_forall; intros token Hin;
    apply filter_In in Hin as [_ Hin]; apply isalpha_letters; exact Hin.
Qed.

(** X15. The output of [preprocess] with lemmatization disabled, on
    ASCII text.  The call returns the words of its result joined by single
    spaces; each word is made of lowercase letters only, has more than two
    characters and is not one of the stopwords of the preprocessor. *)
Theorem preprocess_output_words (self : t) s :
  forall_string is_ascii s = true ->
  enable_lemmatization self = false ->
  exists words,
    preprocess self (PyStr s) = Ok (join_spaces words)
    /\ Forall (fun word =>
                 forall_string is_lower word = true
                 /\ (2 < String.length word)%nat
                 /\ existsb (String.eqb word) (stopwords_set self) = false)
              words.
Proof.
  intros _ Hlem. unfold preprocess. rewrite Hlem.
  destruct (negb (truthy (PyStr s)) || negb (is_str (PyStr s)));
    [exists []; split; [reflexivity | constructor]|].
  destruct (String.eqb (normalize_text (PyStr s)) "");
    [exists []; split; [reflexivity | constructor]|].
  pose proof (tokenize_text_letters (normalize_text (PyStr s))) as Htok.
  destruct (tokenize_text (normalize_text (PyStr s))) as [|tok toks] eqn:E;
    [exists []; split; [reflexivity | constructor]|].
  exists (map lower (remove_stopwords self (tok :: toks))).
  split; [reflexivity|].
  apply Forall_forall. intros word Hin.
  apply in_map_iff in Hin as (token & <- & Hin).
  unfold remove_stopwords in Hin. apply filter_In in Hin as [Hin Hkeep].
  apply andb_true_iff in Hkeep as [Hstop Hlen].
  rewrite Forall_forall in Htok. specialize (Htok token Hin).
  split; [|split].
  - unfold lower. rewrite forall_string_map.
    eapply forall_string_impl; [|exact Htok].
    intros c. apply alpha_lower_char.
  - unfold lower. rewrite map_string_length. apply Nat.ltb_lt. exact Hlen.
  - apply negb_true_iff. exact Hstop.
Qed.

Lemma forall_string_of_list p l :
  forall_string p (string_of_list_ascii l) = forallb p l.
Proof. induction l as [|c l IH]; cbn; [reflexivity | rewrite IH; reflexivity]. Qed.

Lemma forallb_reversed {A : Type} (p : A -> bool) l :
  forallb p (rev l) = forallb p l.
Proof.
  induction l as [|x l IH]; cbn; [reflexivity|].
  rewrite forallb_app, IH. cbn. rewrite andb_true_r. apply andb_comm.
Qed.

(** The words of [split] are made of characters of the text. *)
Lemma split_from_chars p s :
  forall_string p s = true ->
  forall word,
    forallb p word = true ->
    Forall (fun token => forall_string p token = true) (split_from word s).
Proof.
  induction s as [|c s IH]; cbn [forall_string split_from]; intros Hs word Hword.
  - destruct word; constructor; [|constructor].
    rewrite forall_string_of_list, forallb_reversed. exact Hword.
  - apply andb_true_iff in Hs as [Hc Hs]. destruct (is_space c).
    + apply Forall_app. split; [|apply IH; auto].
      destruct word; constructor; [|constructor].
      rewrite forall_string_of_list, forallb_reversed. exact Hword.
    + apply IH; [exact Hs|]. cbn. rewrite Hc, Hword. reflexivity.
Qed.

Lemma filter_filter {A : Type} (f g : A -> bool) l :
  filter g (filter f l) = filter (fun x => f x && g x) l.
Proof.
  induction l as [|x l IH]; cbn; [reflexivity|].
  destruct (f x); cbn; [destruct (g x)|]; rewrite IH; reflexivity.
Qed.

Lemma map_lower_clean tokens :
  Forall (fun token => forall_string clean token = true) tokens ->
  map lower tokens = tokens
  /\ filter (fun token =>
               negb (existsb (String.eqb (lower token)) basic_stopwords)
               && (2 <? String.length token)%nat) tokens
     = filter (fun token =>
                 negb (existsb (String.eqb token) basic_stopwords)
                 && (2 <? String.length token)%nat) tokens.
Proof.
  assert (Hlower : forall token, forall_string clean token = true -> lower token = token).
  { intros token Ht. apply map_string_id.
    eapply forall_string_impl; [|exact Ht].
    intros c Hc. destruct (clean_char c Hc) as (-> & _). apply Ascii.eqb_refl. }
  induction 1 as [|token tokens Ht _ [IH1 IH2]]; [split; reflexivity|].
  cbn [map filter]. rewrite (Hlower token Ht), IH1, IH2. split; reflexivity.
Qed.

(** X21. [preprocess] when NLTK has no resource, on ASCII text.  With the
    stopword corpus and the tokenizer both failing, a preprocessor built
    with either setting of the lemmatization flag returns the words of the
    normalized text, split at spaces, that are made of letters only, are
    not among the built-in stopwords and have more than two characters,
    joined by single spaces. *)
Theorem preprocess_without_nltk enable s e :
  forall_string is_ascii s = true ->
  stopwords_words = Err e ->
  (forall text, is_ok (word_tokenize text) = false) ->
  preprocess (init enable) (PyStr s)
  = Ok (join_spaces
          (filter (fun word =>
                     isalpha word
                     && (negb (existsb (String.eqb word) basic_stopwords)
                         && (2 <? String.length word)%nat))
                  (split (normalize_text (PyStr s))))).
Proof.
  intros _ Hstop Htok. unfold init. rewrite Hstop.
  destruct (normalize_text_clean s) as [Hclean _].
  set (normalized := normalize_text (PyStr s)) in *.
  assert (Hwords : Forall (fun token => forall_string clean token = true)
                     (filter isalpha (split normalized))).
  { apply Forall_forall. intros token Hin. apply filter_In in Hin as [Hin _].
    pose proof (split_from_chars clean normalized Hclean [] eq_refl) as Hall.
    rewrite Forall_forall in Hall. exact (Hall token Hin). }
  assert (Hnorm : s = "" -> normalized = "").
  { intros ->. reflexivity. }
  unfold preprocess. cbn [truthy is_str negb orb].
  destruct (String.eqb_spec s "") as [Hs | Hs]; cbn [negb].
  { fold normalized. rewrite (Hnorm Hs). reflexivity. }
  fold normalized.
  destruct (String.eqb_spec normalized "") as [-> | Hn]; [reflexivity|].
  unfold tokenize_text.
  destruct (String.eqb_spec normalized "") as [Hn' | _]; [contradiction|].
  specialize (Htok normalized).
  destruct (word_tokenize normalized) as [tokens|]; [discriminate Htok|].
  rewrite <- filter_filter.
  destruct (filter isalpha (split normalized)) as [|tok toks] eqn:E;
    [reflexivity|].
  cbn [enable_lemmatization].
  destruct (map_lower_clean _ Hwords) as [_ Hfilter].
  unfold remove_stopwords. cbn [stopwords_set]. rewrite Hfilter.
  set (kept := filter _ (tok :: toks)).
  assert (Hkept : Forall (fun token => forall_string clean token = true) kept).
  { apply Forall_forall. intros token Hin. apply filter_In in Hin as [Hin _].
    rewrite Forall_forall in Hwords. exact (Hwords token Hin). }
  destruct enable.
  - unfold lemmatize_tokens. cbn [enable_lemmatization lemmatizer negb orb].
    destruct kept; reflexivity.
  - destruct (map_lower_clean _ Hkept) as [-> _]. reflexivity.
Qed.

End Text.

(** ** The documents *)

Section Documents.
Context `{DT : CaseDocument.DateTime}.

Lemma prefix_length n s :
  String.length (SimilaritySearchEngine.prefix n s) = Nat.min n (String.length s).
Proof.
  revert s. induction n as [|n IH]; intros [|c s]; cbn; auto.
Qed.

Lemma string_append_length s1 s2 :
  String.length (s1 ++ s2) = (String.length s1 + String.length s2)%nat.
Proof. induction s1 as [|c s1 IH]; cbn; auto. Qed.

(** X16. [get_snippet] returns the text itself when it has at most
    [max_length] characters.  Otherwise it returns a cut of the text
    followed by three dots: for [max_length >= 0] the first [max_length]
    characters, so the snippet has [max_length + 3] characters, three more
    than the maximum; for a negative [max_length] the text without its
    last [- max_length] characters. *)
Theorem get_snippet_length (self : CaseDocument.t) (max_length : Z) :
  let text := CaseDocument.text_content self in
  let snippet := CaseDocument.get_snippet self max_length in
  (Z.of_nat (String.length text) <= max_length -> snippet = text)
  /\ (0 <= max_length < Z.of_nat (String.length text) ->
      snippet = SimilaritySearchEngine.prefix (Z.to_nat max_length) text ++ "..."
      /\ Z.of_nat (String.length snippet) = max_length + 3)
  /\ (max_length < 0 ->
      snippet
      = SimilaritySearchEngine.prefix
          (String.length text - Z.to_nat (- max_length)) text ++ "..."
      /\ Z.of_nat (String.length snippet)
         = Z.max 0 (Z.of_nat (String.length text) + max_length) + 3).
Proof.
  intros text snippet. unfold snippet, CaseDocument.get_snippet. fold text.
  destruct (Z.leb_spec (Z.of_nat (String.length text)) max_length) as [Hle | Hgt].
  - split; [reflexivity|]. split; intros; lia.
  - split; [lia|]. unfold CaseDocument.str_slice_to. split.
    + intros [Hn _]. destruct (Z.ltb_spec max_length 0); [lia|].
      split; [reflexivity|].
      rewrite string_append_length, prefix_length. cbn [String.length]. lia.
    + intros Hn. destruct (Z.ltb_spec max_length 0); [|lia].
      replace (Z.to_nat (Z.of_nat (String.length text) + max_length))
        with (String.length text - Z.to_nat (- max_length))%nat by lia.
      split; [reflexivity|].
      rewrite string_append_length, prefix_length. cbn [String.length]. lia.
Qed.

End Documents.

(** ** The legal vocabulary *)

Section Vocabulary.
Import LegalVocabulary.

Lemma mem_In x l : mem x l = true <-> In x l.
Proof.
  unfold mem. rewrite existsb_exists. split.
  - intros (y & Hy & E). apply String.eqb_eq in E. subst. exact Hy.
  - intros Hx. exists x. split; [exact Hx | apply String.eqb_refl].
Qed.

Lemma mem_false x l : mem x l = false <-> ~ In x l.
Proof.
  split.
  - intros Hm Hin. apply mem_In in Hin. congruence.
  - intros Hno. destruct (mem x l) eqn:E; [|reflexivity].
    apply mem_In in E. contradiction.
Qed.

Lemma remove_one_In x y l : In y (remove_one x l) -> In y l.
Proof.
  induction l as [|z l IH]; cbn; [tauto|].
  destruct (String.eqb z x); cbn; tauto.
Qed.

Lemma remove_one_other x y l : y <> x -> In y l -> In y (remove_one x l).
Proof.
  intros Hne. induction l as [|z l IH]; cbn; [tauto|].
  destruct (String.eqb_spec z x) as [-> | Hz]; cbn.
  - intros [Heq | Hin]; [congruence | exact Hin].
  - intros [Heq | Hin]; auto.
Qed.

Lemma remove_one_NoDup x l : NoDup l -> NoDup (remove_one x l) /\ ~ In x (remove_one x l).
Proof.
  induction 1 as [|z l Hz Hl [IH1 IH2]]; cbn; [split; [constructor | tauto]|].
  destruct (String.eqb_spec z x) as [-> | Hne].
  - auto.
  - split.
    + constructor; [|exact IH1]. intros Hin. apply Hz. eapply remove_one_In; eauto.
    + intros [Heq | Hin]; [congruence | contradiction].
Qed.

Lemma remove_one_length x l :
  In x l -> S (List.length (remove_one x l)) = List.length l.
Proof.
  induction l as [|z l IH]; cbn; [tauto|].
  destruct (String.eqb_spec z x) as [-> | Hne]; [reflexivity|].
  intros [Heq | Hin]; [congruence|]. cbn. rewrite (IH Hin). reflexivity.
Qed.

Lemma remove_one_snoc x l : ~ In x l -> remove_one x (l ++ [x]) = l.
Proof.
  induction l as [|z l IH]; cbn; [rewrite String.eqb_refl; reflexivity|].
  intros Hno. destruct (String.eqb_spec z x) as [-> | Hne]; [tauto|].
  rewrite IH by tauto. reflexivity.
Qed.

Lemma remove_one_duplicate x l :
  (1 < count_occ string_dec l x)%nat -> In x (remove_one x l).
Proof.
  induction l as [|z l IH]; cbn; [lia|].
  destruct (string_dec z x) as [-> | Hne].
  - rewrite String.eqb_refl. intros Hc. apply (count_occ_In string_dec). lia.
  - destruct (String.eqb_spec z x); [congruence|]. intros Hc. right. auto.
Qed.

Lemma as_set_length_le l : (List.length (as_set l) <= List.length l)%nat.
Proof.
  unfold as_set. induction l as [|x l IH]; cbn; [lia|].
  destruct (in_dec string_dec x l); cbn; lia.
Qed.

Lemma as_set_length l : List.length (as_set l) = List.length l <-> NoDup l.
Proof.
  split.
  - unfold as_set. induction l as [|x l IH]; cbn; [constructor|].
    destruct (in_dec string_dec x l) as [Hin | Hno]; cbn.
    + pose proof (as_set_length_le l). unfold as_set in *. lia.
    + intros Hlen. constructor; [exact Hno | apply IH; lia].
  - intros Hnd. unfold as_set. rewrite (nodup_fixed_point string_dec Hnd).
    reflexivity.
Qed.

Lemma flat_map_nil {A B : Type} (f : A -> list B) l :
  flat_map f l = [] <-> forall x, In x l -> f x = [].
Proof.
  induction l as [|y l IH]; cbn; [tauto|]. split.
  - intros Happ. apply app_eq_nil in Happ as [Hy Hl].
    intros x [<- | Hin]; [exact Hy | apply IH; assumption].
  - intros Hall. rewrite (Hall y) by auto. apply IH. auto.
Qed.

Lemma filter_nil {A : Type} (f : A -> bool) l :
  filter f l = [] <-> forall x, In x l -> f x = false.
Proof.
  induction l as [|y l IH]; cbn; [tauto|]. split.
  - destruct (f y) eqn:E; [discriminate|].
    intros Hl x [<- | Hin]; [exact E | apply IH; assumption].
  - intros Hall. rewrite (Hall y) by auto. apply IH. auto.
Qed.

Lemma issue_when_nonempty {A B : Type} (l : list A) (x : B) :
  match l with [] => [] | _ :: _ => [x] end = [] <-> l = [].
Proof. destruct l; split; intros; try discriminate; auto. Qed.

(** The four conditions [validate_vocabulary] checks. *)
Lemma validate_vocabulary_valid (self : t) :
  valid (validate_vocabulary self) = true
  <-> ((200 <= size self <= 300)%nat
       /\ NoDup (_terms self)
       /\ (forall category terms term,
              In (category, terms) (_categories self) -> In term terms ->
              In term (_terms self))
       /\ (forall term,
              In term (_terms self) ->
              exists category terms,
                In (category, terms) (_categories self) /\ In term terms)).
Proof.
  unfold validate_vocabulary, size. cbn [valid].
  set (terms := _terms self). set (cats := _categories self).
  match goal with
  | |- (match (?a ++ ?b ++ ?c ++ ?d)%list with _ => _ end = true) <-> _ =>
      assert (Hshape : (match (a ++ b ++ c ++ d)%list with [] => true | _ => false end
                        = true)
                       <-> (a = [] /\ b = [] /\ c = [] /\ d = []))
  end.
  { split.
    - intros Hv.
      match type of Hv with
      | match ?l with _ => _ end = true => destruct l eqn:E; [|discriminate Hv]
      end.
      apply app_eq_nil in E as [-> E]. apply app_eq_nil in E as [-> E].
      apply app_eq_nil in E as [-> ->]. auto.
    - intros (-> & -> & -> & ->). reflexivity. }
  rewrite Hshape. clear Hshape.
  assert (H1 : (if negb ((200 <=? List.length terms)%nat && (List.length terms <=? 300)%nat)
                then [SizeOutOfRange (List.length terms)] else []) = []
               <-> (200 <= List.length terms <= 300)%nat).
  { destruct (Nat.leb_spec 200 (List.length terms));
      destruct (Nat.leb_spec (List.length terms) 300); cbn;
      split; intros; try lia; try discriminate; auto. }
  assert (H2 : (if negb (Nat.eqb (List.length terms) (List.length (as_set terms)))
                then [DuplicateTerms
                        (filter (fun term => (1 <? count_occ string_dec terms term)%nat)
                                (as_set terms))]
                else []) = []
               <-> NoDup terms).
  { rewrite <- as_set_length.
    destruct (Nat.eqb_spec (List.length terms) (List.length (as_set terms))); cbn;
      split; intros; try discriminate; auto; congruence. }
  assert (H3 : flat_map (fun entry =>
                  flat_map (fun term =>
                              if negb (mem term terms)
                              then [TermNotInVocabulary term (fst entry)] else [])
                           (snd entry)) cats = []
               <-> (forall category ts term,
                       In (category, ts) cats -> In term ts -> In term terms)).
  { rewrite flat_map_nil. split.
    - intros Hall category ts term Hin Ht.
      specialize (Hall _ Hin). cbn [fst snd] in Hall.
      rewrite flat_map_nil in Hall. specialize (Hall term Ht).
      destruct (mem term terms) eqn:E; [apply mem_In; exact E | discriminate Hall].
    - intros Hall [category ts] Hin. cbn [fst snd]. apply flat_map_nil.
      intros term Ht. pose proof (Hall category ts term Hin Ht) as Hm.
      apply mem_In in Hm. rewrite Hm. reflexivity. }
  assert (H4 : match filter (fun term => negb (mem term (as_set (flat_map snd cats))))
                            (as_set terms) with
               | [] => []
               | _ :: _ =>
                   [UncategorizedTerms
                      (filter (fun term => negb (mem term (as_set (flat_map snd cats))))
                              (as_set terms))]
               end = []
               <-> (forall term, In term terms ->
                      exists category ts, In (category, ts) cats /\ In term ts)).
  { transitivity (filter (fun term => negb (mem term (as_set (flat_map snd cats))))
                         (as_set terms) = []).
    { apply issue_when_nonempty. }
    rewrite filter_nil. unfold as_set. split.
    - intros Hall term Hin.
      specialize (Hall term (proj2 (nodup_In string_dec terms term) Hin)).
      apply negb_false_iff, mem_In in Hall.
      apply nodup_In, in_flat_map in Hall as ([category ts] & Hc & Ht).
      exists category, ts. auto.
    - intros Hall term Hin. apply nodup_In in Hin.
      destruct (Hall term Hin) as (category & ts & Hc & Ht).
      apply negb_false_iff, mem_In, nodup_In, in_flat_map.
      exists (category, ts). auto. }
  rewrite H1, H2, H3, H4. reflexivity.
Qed.

(** X17. [validate_vocabulary] reports [valid] exactly when the
    vocabulary has between 200 and 300 terms, no term occurs twice, every
    term listed in a category is a term of the vocabulary, and every term
    of the vocabulary is listed in some category.  A valid report lists no
    issue, counts as many categorized terms as there are terms, and no
    uncategorized one. *)
Theorem validate_vocabulary_characterized (self : t) :
  let results := validate_vocabulary self in
  (valid results = true
   <-> ((200 <= size self <= 300)%nat
        /\ NoDup (_terms self)
        /\ (forall category terms term,
               In (category, terms) (_categories self) -> In term terms ->
               In term (_terms self))
        /\ (forall term,
               In term (_terms self) ->
               exists category terms,
                 In (category, terms) (_categories self) /\ In term terms)))
  /\ (valid results = true ->
      issues results = []
      /\ vocabulary_size results = size self
      /\ categorized_terms results = size self
      /\ uncategorized_terms results = 0%nat).
Proof.
  intros results. split; [apply validate_vocabulary_valid|].
  intros Hvalid.
  pose proof (proj1 (validate_vocabulary_valid self) Hvalid)
    as (_ & Hnd & Hsub & Hsup).
  unfold results, validate_vocabulary in *. cbn [valid issues vocabulary_size
    categorized_terms uncategorized_terms] in *.
  match type of Hvalid with
  | match ?l with _ => _ end = true => destruct l eqn:E; [|discriminate Hvalid]
  end.
  split; [reflexivity|]. split; [reflexivity|].
  apply app_eq_nil in E as [_ E]. apply app_eq_nil in E as [_ E].
  apply app_eq_nil in E as [_ E].
  assert (Hunc : filter
                   (fun term => negb (mem term (as_set (flat_map snd (_categories self)))))
                   (as_set (_terms self)) = []).
  { destruct (filter _ (as_set (_terms self))); [reflexivity | discriminate E]. }
  split; [|rewrite Hunc; reflexivity].
  unfold size, as_set. apply Permutation_length. apply NoDup_Permutation.
  - apply NoDup_nodup.
  - exact Hnd.
  - intros term. rewrite nodup_In, in_flat_map. split.
    + intros ([category ts] & Hc & Ht). eapply Hsub; eauto.
    + intros Hin. destruct (Hsup term Hin) as (category & ts & Hc & Ht).
      exists (category, ts). auto.
Qed.

(** X18. What [add_term] and [remove_term] do to the list of terms.
    After [add_term] the term is in the vocabulary, once more than before
    only if it was absent, and a list without repetition stays so.
    [remove_term] returns whether the term was there; it removes the
    first occurrence only, so a term that occurred twice is still there
    afterwards, while in a vocabulary without repetition it is gone and
    the other terms stay.  Removing a term that was just added to a
    vocabulary that did not have it gives back the former list. *)
Theorem add_term_and_remove_term_on_terms (self : t) (term : string)
    (category : option string) (weight : py_value) :
  let added := add_term self term category weight in
  let removed := remove_term self term in
  (contains added term = true
   /\ (forall other, In other (_terms added) <-> In other (_terms self) \/ other = term)
   /\ (contains self term = true -> _terms added = _terms self)
   /\ (contains self term = false -> size added = S (size self))
   /\ (NoDup (_terms self) -> NoDup (_terms added)))
  /\ (snd removed = contains self term
      /\ (snd removed = false -> fst removed = self)
      /\ (snd removed = true -> S (size (fst removed)) = size self)
      /\ ((1 < count_occ string_dec (_terms self) term)%nat ->
          contains (fst removed) term = true)
      /\ (NoDup (_terms self) ->
          contains (fst removed) term = false
          /\ NoDup (_terms (fst removed))
          /\ forall other, In other (_terms (fst removed))
                           <-> In other (_terms self) /\ other <> term))
  /\ (contains self term = false ->
      _terms (fst (remove_term added term)) = _terms self).
Proof.
  intros added removed. unfold added, removed, add_term, remove_term, contains, size.
  cbn [_terms]. split; [|split].
  - destruct (mem term (_terms self)) eqn:Hmem; cbn [negb].
    + split; [exact Hmem|]. split.
      { intros other. split; [auto|]. intros [H | ->]; [exact H|].
        apply mem_In. exact Hmem. }
      split; [reflexivity|]. split; [discriminate | auto].
    + apply mem_false in Hmem. split.
      { apply mem_In, in_or_app. right. left. reflexivity. }
      split.
      { intros other. rewrite in_app_iff. cbn. intuition. }
      split; [discriminate|]. split.
      { intros _. rewrite length_app. cbn. lia. }
      intros Hnd. apply NoDup_app; [exact Hnd | repeat constructor; cbn; tauto |].
      intros x Hx [<- | []]. contradiction.
  - destruct (mem term (_terms self)) eqn:Hmem; cbn [fst snd _terms].
    + apply mem_In in Hmem. split; [reflexivity|]. split; [discriminate|].
      split; [intros _; apply remove_one_length; exact Hmem|].
      split; [intros Hc; apply mem_In, remove_one_duplicate; exact Hc|].
      intros Hnd. destruct (remove_one_NoDup term _ Hnd) as [Hnd' Hno].
      split; [apply mem_false; exact Hno|]. split; [exact Hnd'|].
      intros other. split.
      * intros Hin. split; [eapply remove_one_In; eauto|].
        intros ->. contradiction.
      * intros [Hin Hne]. apply remove_one_other; assumption.
    + split; [reflexivity|]. split; [reflexivity|]. split; [discriminate|].
      split.
      * intros Hc. exfalso. apply mem_false in Hmem.
        apply (count_occ_not_In string_dec) in Hmem. lia.
      * intros Hnd. split; [exact Hmem|]. split; [exact Hnd|].
        intros other. apply mem_false in Hmem. split.
        -- intros Hin. split; [exact Hin|]. intros ->. contradiction.
        -- tauto.
  - intros Hmem. rewrite Hmem. cbn [negb].
    assert (Hin : mem term (_terms self ++ [term]) = true).
    { apply mem_In, in_or_app. right. left. reflexivity. }
    rewrite Hin. cbn [fst _terms]. apply remove_one_snoc.
    apply mem_false. exact Hmem.
Qed.

Lemma append_to_category_lists category term categories :
  has_category category categories = true ->
  exists terms,
    In (category, terms) (append_to_category category term categories)
    /\ In term terms.
Proof.
  unfold has_category. induction categories as [|[name ts] rest IH]; cbn;
    [discriminate|].
  destruct (String.eqb_spec category name) as [-> | Hne]; cbn.
  - intros _. eexists. split; [left; reflexivity|].
    destruct (mem term ts) eqn:E; [apply mem_In; exact E|].
    apply in_or_app. right. left. reflexivity.
  - intros Hhas. destruct (IH Hhas) as (ts' & Hin & Ht).
    exists ts'. split; [right; exact Hin | exact Ht].
Qed.

Lemma append_to_category_from category term categories name terms' :
  In (name, terms') (append_to_category category term categories) ->
  exists terms,
    In (name, terms) categories
    /\ forall other, In other terms' -> In other terms \/ other = term.
Proof.
  induction categories as [|[name0 ts] rest IH]; cbn; [tauto|].
  destruct (String.eqb category name0).
  - intros [[= <- <-] | Hin].
    + exists ts. split; [left; reflexivity|].
      destruct (mem term ts); [auto|].
      intros other Ho. apply in_app_or in Ho as [Ho | [<- | []]]; auto.
    + exists terms'. split; [right; exact Hin | auto].
  - intros [[= <- <-] | Hin].
    + exists ts. split; [left; reflexivity | auto].
    + destruct (IH Hin) as (ts0 & Hin0 & Hsub). exists ts0. split; [right|]; auto.
Qed.

Lemma append_to_category_keeps category term categories name terms :
  In (name, terms) categories ->
  exists terms',
    In (name, terms') (append_to_category category term categories)
    /\ forall other, In other terms -> In other terms'.
Proof.
  induction categories as [|[name0 ts] rest IH]; cbn; [tauto|].
  destruct (String.eqb category name0).
  - intros [[= <- <-] | Hin].
    + eexists. split; [left; reflexivity|].
      destruct (mem term ts); [auto|].
      intros other Ho. apply in_or_app. left. exact Ho.
    + exists terms. split; [right; exact Hin | auto].
  - intros [[= <- <-] | Hin].
    + exists ts. split; [left; reflexivity | auto].
    + destruct (IH Hin) as (ts0 & Hin0 & Hsub). exists ts0. split; [right|]; auto.
Qed.

(** X19. [add_term] of a new term on a valid vocabulary leaves a valid
    vocabulary exactly when the vocabulary has fewer than 300 terms and
    the call names a non-empty category that the vocabulary has.  With
    no category, or with one the vocabulary does not have, the term is
    added uncategorized and [validate_vocabulary] rejects the result. *)
Theorem add_term_keeps_valid (self : t) (term : string)
    (category : option string) (weight : py_value) :
  valid (validate_vocabulary self) = true ->
  contains self term = false ->
  (valid (validate_vocabulary (add_term self term category weight)) = true
   <-> ((size self < 300)%nat
        /\ exists name,
             category = Some name /\ name <> ""
             /\ has_category name (_categories self) = true)).
Proof.
  intros Hvalid Hnew.
  apply validate_vocabulary_valid in Hvalid as (Hsize & Hnd & Hsub & Hsup).
  unfold contains in Hnew. pose proof (proj1 (mem_false _ _) Hnew) as Hno.
  rewrite validate_vocabulary_valid. unfold size, add_term in *.
  rewrite Hnew. cbn [negb _terms _categories].
  rewrite length_app. cbn [List.length].
  split.
  - intros (Hsize' & _ & Hsub' & Hsup'). split; [lia|].
    destruct (Hsup' term) as (name & ts & Hin & Ht);
      [apply in_or_app; right; left; reflexivity|].
    destruct category as [name0|].
    + destruct (String.eqb_spec name0 "") as [-> | Hne]; cbn [negb andb] in Hin.
      * exfalso. apply Hno. eapply Hsub; eauto.
      * destruct (has_category name0 (_categories self)) eqn:Hhas;
          cbn [andb] in Hin.
        -- exists name0. auto.
        -- exfalso. apply Hno. eapply Hsub; eauto.
    + exfalso. apply Hno. eapply Hsub; eauto.
  - intros (Hlt & name & -> & Hne & Hhas).
    apply String.eqb_neq in Hne. rewrite Hne, Hhas. cbn [negb andb].
    split; [lia|]. split.
    { apply NoDup_app; [exact Hnd | repeat constructor; cbn; tauto |].
      intros x Hx [<- | []]. contradiction. }
    split.
    + intros c ts' t Hin Ht.
      destruct (append_to_category_from _ _ _ _ _ Hin) as (ts & Hin0 & Hfrom).
      apply in_or_app. destruct (Hfrom t Ht) as [Hold | ->].
      * left. eapply Hsub; eauto.
      * right. left. reflexivity.
    + intros t Ht. apply in_app_or in Ht as [Ht | [<- | []]].
      * destruct (Hsup t Ht) as (c & ts & Hin & Hts).
        destruct (append_to_category_keeps name term _ _ _ Hin) as (ts' & Hin' & Hk).
        exists c, ts'. auto.
      * destruct (append_to_category_lists name term _ Hhas) as (ts' & Hin' & Ht').
        exists name, ts'. auto.
Qed.

(** X20. [remove_term] of a term of a valid vocabulary whose category
    lists name no term twice leaves a valid vocabulary exactly when the
    vocabulary had more than 200 terms. *)
Theorem remove_term_keeps_valid (self : t) (term : string) :
  valid (validate_vocabulary self) = true ->
  contains self term = true ->
  (forall category terms, In (category, terms) (_categories self) -> NoDup terms) ->
  (valid (validate_vocabulary (fst (remove_term self term))) = true
   <-> (200 < size self)%nat).
Proof.
  intros Hvalid Hhas Hlists.
  apply validate_vocabulary_valid in Hvalid as (Hsize & Hnd & Hsub & Hsup).
  unfold contains in Hhas. pose proof (proj1 (mem_In _ _) Hhas) as Hin.
  rewrite validate_vocabulary_valid. unfold size, remove_term in *.
  rewrite Hhas. cbn [fst _terms _categories].
  pose proof (remove_one_length term _ Hin) as Hlen.
  destruct (remove_one_NoDup term _ Hnd) as [Hnd' Hgone].
  split; [intros (Hsize' & _); lia|].
  intros Hgt. split; [lia|]. split; [exact Hnd'|]. split.
  - intros c ts' t Hentry Ht.
    apply in_map_iff in Hentry as ([c0 ts] & [= <- <-] & Hentry).
    cbn [fst snd] in Ht.
    assert (Hboth : In t ts /\ t <> term).
    { destruct (mem term ts) eqn:E.
      - destruct (remove_one_NoDup term _ (Hlists _ _ Hentry)) as [_ Hno].
        split; [eapply remove_one_In; eauto | intros ->; contradiction].
      - apply mem_false in E. split; [exact Ht | intros ->; contradiction]. }
    destruct Hboth as [Hts Hne]. apply remove_one_other; [exact Hne|].
    eapply Hsub; eauto.
  - intros t Ht.
    assert (Hne : t <> term) by (intros ->; contradiction).
    apply remove_one_In in Ht.
    destruct (Hsup t Ht) as (c & ts & Hentry & Hts).
    exists c, (if mem term ts then remove_one term ts else ts). split.
    + apply in_map_iff. exists (c, ts). auto.
    + destruct (mem term ts); [apply remove_one_other; assumption | exact Hts].
Qed.

Lemma get_terms_after_append category term categories :
  has_category category categories = true ->
  In term
     match find (fun entry => String.eqb category (fst entry))
                (append_to_category category term categories) with
     | Some (_, terms) => terms
     | None => []
     end.
Proof.
  unfold has_category. induction categories as [|[name ts] rest IH]; cbn;
    [discriminate|].
  destruct (String.eqb category name) eqn:E; cbn; rewrite E.
  - intros _. destruct (mem term ts) eqn:M; [apply mem_In; exact M|].
    apply in_or_app. right. left. reflexivity.
  - exact IH.
Qed.

Lemma find_listing_some term (categories : list (string * list string)) :
  (exists name terms, In (name, terms) categories /\ In term terms) ->
  exists name terms,
    find (fun entry => mem term (snd entry)) categories = Some (name, terms).
Proof.
  intros (name & ts & Hin & Ht).
  destruct (find (fun entry => mem term (snd entry)) categories) as [[n l]|] eqn:E;
    [eauto|].
  exfalso. pose proof (find_none _ _ E (name, ts) Hin) as Hnone.
  cbn in Hnone. apply mem_false in Hnone. contradiction.
Qed.

(** X24. Looking a term up after [add_term] and [remove_term].  After
    [add_term] with a non-empty category that the vocabulary has,
    [get_terms_by_category] of that category lists the term and
    [get_category_for_term] finds a category for it.  After [remove_term]
    of a contained term, in a vocabulary whose category lists name no
    term twice, [get_category_for_term] finds none. *)
Theorem category_lookup_after_add_and_remove (self : t) (term : string) :
  (forall category weight,
      category <> "" ->
      has_category category (_categories self) = true ->
      let added := add_term self term (Some category) weight in
      In term (get_terms_by_category added category)
      /\ exists found, get_category_for_term added term = Some found)
  /\ (contains self term = true ->
      (forall category terms,
          In (category, terms) (_categories self) -> NoDup terms) ->
      get_category_for_term (fst (remove_term self term)) term = None).
Proof.
  split.
  - intros category weight Hne Hhas added.
    unfold added, add_term, get_terms_by_category, get_category_for_term.
    cbn [_categories]. apply String.eqb_neq in Hne. rewrite Hne, Hhas.
    cbn [negb andb]. split.
    + apply get_terms_after_append. exact Hhas.
    + destruct (append_to_category_lists category term _ Hhas) as (ts & Hin & Ht).
      destruct (find_listing_some term (append_to_category category term (_categories self)))
        as (name & ts' & ->); [eauto|].
      eauto.
  - intros Hhas Hlists. unfold contains in Hhas.
    unfold remove_term, get_category_for_term. rewrite Hhas. cbn [fst _categories].
    match goal with
    | |- match ?f with _ => _ end = None => destruct f as [[name ts']|] eqn:E
    end; [|reflexivity].
    exfalso. apply find_some in E as [Hin Hmem]. cbn [snd] in Hmem.
    apply mem_In in Hmem.
    apply in_map_iff in Hin as ([name0 ts] & [= <- <-] & Hin). cbn [fst snd] in Hmem.
    destruct (mem term ts) eqn:M.
    + destruct (remove_one_NoDup term _ (Hlists _ _ Hin)) as [_ Hno]. contradiction.
    + apply mem_false in M. contradiction.
Qed.

End Vocabulary.

(** ** Loading and stamping the metadata file *)

Section Loading.
Context `{DT : CaseDocument.DateTime}.
Import CaseRepository.

Lemma nonempty_str_inv v :
  nonempty_str v = true -> exists s, v = PyStr s /\ strip_nonempty s = true.
Proof. destruct v; try discriminate. intros Hs. eauto. Qed.

(** What [_validate_case_metadata] accepts. *)
Lemma valid_case_fields case :
  valid_case case ->
  exists d case_id title date file_path parsed,
    case = PyDict d
    /\ dict_get "case_id" d = Some (PyStr case_id) /\ strip_nonempty case_id = true
    /\ dict_get "title" d = Some (PyStr title) /\ strip_nonempty title = true
    /\ dict_get "date" d = Some (PyStr date)
    /\ CaseDocument.fromisoformat date = Some parsed
    /\ dict_get "file_path" d = Some (PyStr file_path)
    /\ strip_nonempty file_path = true.
Proof.
  intros (d & -> & Hd). unfold case_errors in Hd.
  apply app_nil_both in Hd as [Hmiss Hd].
  apply app_nil_both in Hd as [Hid Hd].
  apply app_nil_both in Hd as [Htitle Hd].
  apply app_nil_both in Hd as [Hdate Hd].
  apply app_nil_both in Hd as [Hpath _].
  apply issue_when_nonempty in Hmiss.
  pose proof (proj1 (filter_nil _ _) Hmiss) as Hall.
  assert (Hmem : forall f, In f REQUIRED_CASE_FIELDS -> dict_mem f d = true).
  { intros f Hf. apply negb_false_iff. exact (Hall f Hf). }
  assert (M1 : dict_mem "case_id" d = true) by (apply Hmem; cbn; tauto).
  assert (M2 : dict_mem "title" d = true) by (apply Hmem; cbn; tauto).
  assert (M3 : dict_mem "date" d = true) by (apply Hmem; cbn; tauto).
  assert (M4 : dict_mem "file_path" d = true) by (apply Hmem; cbn; tauto).
  clear Hmem Hall Hmiss. unfold dict_mem in M1, M2, M3, M4.
  destruct (dict_get "case_id" d) as [v1|] eqn:G1; [|discriminate M1].
  destruct (dict_get "title" d) as [v2|] eqn:G2; [|discriminate M2].
  destruct (dict_get "date" d) as [v3|] eqn:G3; [|discriminate M3].
  destruct (dict_get "file_path" d) as [v4|] eqn:G4; [|discriminate M4].
  destruct (nonempty_str v1) eqn:E1; [|discriminate Hid].
  destruct (nonempty_str v2) eqn:E2; [|discriminate Htitle].
  destruct (nonempty_str v4) eqn:E4; [|discriminate Hpath].
  apply nonempty_str_inv in E1 as (s1 & -> & S1).
  apply nonempty_str_inv in E2 as (s2 & -> & S2).
  apply nonempty_str_inv in E4 as (s4 & -> & S4).
  destruct v3 as [| | | |s3| |]; try discriminate Hdate.
  destruct (CaseDocument.fromisoformat s3) as [parsed|] eqn:E3;
    [|discriminate Hdate].
  exists d, s1, s2, s3, s4, parsed. repeat split; assumption.
Qed.

(** X22. The outcomes of [load_case_metadata].  A list it returns holds
    only dicts whose [case_id], [title] and [file_path] are strings with
    a character that is not whitespace and whose [date] is a string that
    [fromisoformat] parses.  It returns the content of the file and
    leaves the files alone, except on a missing file, which it creates
    with no case before returning the empty list.  When it raises, the
    files are unchanged, and the exception is a [ValueError], or the
    [OSError] of the write that would have created the missing file. *)
Theorem load_case_metadata_outcomes env fs fs' r :
  load_case_metadata env fs = (fs', r) ->
  match r with
  | Ok cases =>
      Forall (fun case =>
                exists d case_id title date file_path parsed,
                  case = PyDict d
                  /\ dict_get "case_id" d = Some (PyStr case_id)
                  /\ strip_nonempty case_id = true
                  /\ dict_get "title" d = Some (PyStr title)
                  /\ strip_nonempty title = true
                  /\ dict_get "date" d = Some (PyStr date)
                  /\ CaseDocument.fromisoformat date = Some parsed
                  /\ dict_get "file_path" d = Some (PyStr file_path)
                  /\ strip_nonempty file_path = true)
             cases
      /\ ((fs' = fs /\ stored_cases fs = Some cases)
          \/ (metadata_file fs = None /\ cases = []
              /\ metadata_writable env = true
              /\ stored_cases fs' = Some []
              /\ vectors_file fs' = vectors_file fs))
  | Err e =>
      fs' = fs
      /\ ((class_of e = ClsValueError /\ metadata_file fs <> None)
          \/ (e = MetadataWriteError /\ metadata_file fs = None
              /\ metadata_writable env = false))
  end.
Proof.
  unfold load_case_metadata.
  destruct (metadata_file fs) as [[|data]|] eqn:Hfile.
  - intros [= <- <-]. split; [reflexivity|]. left. split; [reflexivity | discriminate].
  - destruct (load_body data) as [cases|] eqn:Hload; intros [= <- <-].
    + assert (Hst : stored_cases fs = Some cases).
      { unfold stored_cases. rewrite Hfile, Hload. reflexivity. }
      split; [|left; auto].
      eapply Forall_impl; [|exact (stored_cases_valid _ _ Hst)].
      intros case. apply valid_case_fields.
    + split; [reflexivity|]. left. split; [reflexivity | discriminate].
  - unfold bind_io, _initialize_metadata_file, _save_metadata, ret.
    destruct (metadata_writable env) eqn:Hw; intros [= <- <-].
    + split; [constructor|]. right. repeat split; reflexivity.
    + split; [reflexivity|]. right. auto.
Qed.







End Loading.

(** ** Examples of the further properties *)

(** The examples run on dates kept as text. *)
#[local] Existing Instance CaseDocument.TextDate.

Ltac tracks_by_evaluation :=
  split; [reflexivity|];
  split; [repeat constructor; cbn; intuition discriminate|];
  split; [cbn; unfold CaseRepository.MAX_REPOSITORY_SIZE; lia | reflexivity].


(** The one stored case is read back. *)
Lemma get_case_by_id_returns_the_stored_document_witness :
  CaseRepository.get_case_by_id Examples.healthy "case-1" Examples.one_case
  = (Examples.one_case,
     CaseDocument.Returned
       (Some (CaseDocument.stored_view (Examples.document "case-1" "First")))).
Proof.
  destruct (@get_case_by_id_returns_the_stored_document CaseDocument.TextDate
              Examples.healthy [Examples.document "case-1" "First"] Examples.one_case)
    as [Hpresent _].
  - tracks_by_evaluation.
  - apply (Hpresent (Examples.document "case-1" "First")).
    + left. reflexivity.
    + reflexivity.
Defined.

(** A case added to a fresh repository is read back. *)
Lemma get_case_by_id_after_a_call_witness :
  CaseRepository.get_case_by_id Examples.vectors_read_only "case-1" Examples.one_case
  = (Examples.one_case,
     CaseDocument.Returned
       (Some (CaseDocument.stored_view (Examples.document "case-1" "First")))).
Proof.
  destruct (@get_case_by_id_after_a_call CaseDocument.TextDate
              Examples.healthy Examples.vectors_read_only [] Examples.fresh
              Examples.one_case)
    as [Hadded _].
  - tracks_by_evaluation.
  - apply (Hadded (Examples.document "case-1" "First") [1; 0]%float (Ok tt)).
    + reflexivity.
    + left. reflexivity.
    + reflexivity.
Defined.

Lemma get_all_cases_returns_the_stored_documents_witness :
  CaseRepository.get_all_cases Examples.healthy Examples.one_case
  = (Examples.one_case,
     CaseDocument.Returned
       [CaseDocument.stored_view (Examples.document "case-1" "First")]).
Proof.
  apply (@get_all_cases_returns_the_stored_documents CaseDocument.TextDate
           Examples.healthy [Examples.document "case-1" "First"] Examples.one_case).
  - tracks_by_evaluation.
  - repeat constructor.
Defined.


Lemma update_case_metadata_index_invariant_witness :
  let fs' :=
    fst (CaseRepository.update_case_metadata Examples.healthy "case-1"
           [("vector_index", PyInt 7)] Examples.one_case) in
  exists i d,
    CaseRepository.find_case "case-1" 0 [Examples.entry "case-1" "First" 0]
    = Ok (Some (i, PyDict d))
    /\ (CaseRepository.index_invariant fs'
        <-> dict_get "vector_index"
              (CaseRepository.dict_update [("vector_index", PyInt 7)] d)
            = Some (PyInt (Z.of_nat i))).
Proof.
  cbv zeta.
  apply (@update_case_metadata_index_invariant CaseDocument.TextDate
           Examples.healthy "case-1" [("vector_index", PyInt 7)]
           Examples.one_case [Examples.entry "case-1" "First" 0]).
  - exists [Examples.entry "case-1" "First" 0].
    split; [reflexivity|]. split; [|reflexivity].
    intros [|[|i]] case Hn; [injection Hn as <-; reflexivity | | ];
      discriminate Hn.
  - reflexivity.
  - reflexivity.
Defined.

Lemma validate_repository_on_tracked_metadata_witness :
  CaseRepository.validate_repository Examples.one_case
  = {| CaseRepository.Report.metadata_count := 1;
       CaseRepository.Report.vector_count := 1;
       CaseRepository.Report.consistent := true;
       CaseRepository.Report.issues := [];
       CaseRepository.Report.schema_valid := true;
       CaseRepository.Report.capacity_ok := true |}.
Proof.
  apply (@validate_repository_on_tracked_metadata CaseDocument.TextDate
           [Examples.document "case-1" "First"] Examples.one_case).
  tracks_by_evaluation.
Defined.

Lemma validate_repository_consistent_means_witness :
  exists cases,
    CaseRepository.stored_cases Examples.one_case = Some cases
    /\ Z.of_nat (List.length cases) <= CaseRepository.MAX_REPOSITORY_SIZE
    /\ CaseRepository.validate_repository Examples.one_case
       = {| CaseRepository.Report.metadata_count := List.length cases;
            CaseRepository.Report.vector_count :=
              CaseRepository.vector_count Examples.one_case;
            CaseRepository.Report.consistent := true;
            CaseRepository.Report.issues := [];
            CaseRepository.Report.schema_valid := true;
            CaseRepository.Report.capacity_ok := true |}.
Proof.
  destruct (@validate_repository_consistent_means CaseDocument.TextDate
              Examples.one_case)
    as (cases & ids & total & Hst & Hcap & _ & _ & _ & _ & _ & _ & Hrep).
  - reflexivity.
  - exists cases. auto.
Defined.




(** The second case was added while the vector file was read-only. *)
Lemma startup_fails_after_torn_add_witness :
  Api.initialize_engine Examples.healthy Examples.torn
  = (Examples.torn, Err VectorCountMismatch)
  /\ CaseRepository.stored_cases Examples.torn
     = Some (CaseRepository.records_from 0
               [Examples.document "case-1" "First";
                Examples.document "case-2" "Second"])
  /\ CaseRepository.vectors_file Examples.torn
     = Some (CaseRepository.Pickled {| ncols := 2; rows := [[1; 0]%float] |})
  /\ len {| ncols := 2; rows := [[1; 0]%float] |} = 1%nat.
Proof.
  apply (@startup_fails_after_torn_add CaseDocument.TextDate
           Examples.vectors_read_only Examples.healthy
           (Examples.document "case-2" "Second") [0; 1]%float
           [Examples.document "case-1" "First"] Examples.one_case Examples.torn
           VectorWriteError).
  - tracks_by_evaluation.
  - exists [Examples.entry "case-1" "First" 0].
    split; [reflexivity|]. split; [|reflexivity].
    intros [|[|i]] case Hn; [injection Hn as <-; reflexivity | | ];
      discriminate Hn.
  - reflexivity.
  - reflexivity.
  - reflexivity.
Defined.

(** The document made of the term tort, under the vectorizer of two
    terms. *)
Lemma get_top_features_returns_the_largest_scores_witness :
  exists top,
    LegalVectorizer.get_top_features Examples.fitted_vectorizer "tort" 10 = Ok top
    /\ StronglySorted (fun a b => PrimFloat.leb (snd b) (snd a) = true) top
    /\ Z.of_nat (List.length top)
       = Z.min 10 (Z.of_nat (List.length (filter (PrimFloat.ltb 0%float) [0; 1]%float))).
Proof.
  destruct (@get_top_features_returns_the_largest_scores
              LegalVectorizer.CountingTfidf Examples.fitted_vectorizer
              "tort" 10 Examples.two_terms [0; 1]%float)
    as (top & rest & Htop & _ & _ & Hsorted & _ & Hlen).
  - reflexivity.
  - reflexivity.
  - reflexivity.
  - cbn. lia.
  - exists top. split; [exact Htop|]. split; [exact Hsorted|]. apply Hlen. lia.
Defined.

(** A text with capitals, punctuation and a double space. *)
Lemma normalize_text_output_witness :
  TextPreprocessor.normalize_text (PyStr "Hello,  World!") = "hello world"
  /\ TextPreprocessor.normalize_text
       (PyStr (TextPreprocessor.normalize_text (PyStr "Hello,  World!")))
     = TextPreprocessor.normalize_text (PyStr "Hello,  World!").
Proof.
  split; [reflexivity|].
  destruct (normalize_text_output "Hello,  World!") as (_ & _ & Hagain).
  - reflexivity.
  - exact Hagain.
Defined.

(** A sentence, preprocessed without NLTK and without lemmatization. *)
Lemma preprocess_output_words_witness :
  exists words,
    TextPreprocessor.preprocess (H := TextPreprocessor.NoNltk)
      (TextPreprocessor.init (H := TextPreprocessor.NoNltk) false)
      (PyStr "The Court held that contracts bind.")
    = Ok (TextPreprocessor.join_spaces words)
    /\ Forall (fun word =>
                 TextPreprocessor.forall_string TextPreprocessor.is_lower word = true
                 /\ (2 < String.length word)%nat
                 /\ existsb (String.eqb word)
                      (TextPreprocessor.stopwords_set
                         (TextPreprocessor.init (H := TextPreprocessor.NoNltk) false))
                    = false)
              words.
Proof.
  apply (@preprocess_output_words TextPreprocessor.NoNltk
           (TextPreprocessor.init (H := TextPreprocessor.NoNltk) false)
           "The Court held that contracts bind.").
  - reflexivity.
  - reflexivity.
Defined.

(** A new term for the category of the vocabulary of 200 terms. *)
Lemma add_term_keeps_valid_witness :
  LegalVocabulary.valid
    (LegalVocabulary.validate_vocabulary
       (LegalVocabulary.add_term Examples.vocabulary "tort" (Some "general") PyNone))
  = true
  <-> ((LegalVocabulary.size Examples.vocabulary < 300)%nat
       /\ exists name,
            Some "general" = Some name /\ name <> ""
            /\ LegalVocabulary.has_category name
                 (LegalVocabulary._categories Examples.vocabulary) = true).
Proof.
  apply (add_term_keeps_valid Examples.vocabulary "tort" (Some "general") PyNone).
  - vm_compute. reflexivity.
  - vm_compute. reflexivity.
Defined.

(** A term is removed from the vocabulary of 200 terms. *)
Lemma remove_term_keeps_valid_witness :
  LegalVocabulary.valid
    (LegalVocabulary.validate_vocabulary
       (fst (LegalVocabulary.remove_term Examples.vocabulary "c007")))
  = true
  <-> (200 < LegalVocabulary.size Examples.vocabulary)%nat.
Proof.
  apply (remove_term_keeps_valid Examples.vocabulary "c007").
  - vm_compute. reflexivity.
  - vm_compute. reflexivity.
  - intros category terms [[= <- <-] | []].
    apply as_set_length. vm_compute. reflexivity.
Defined.

(** The same sentence under the default setting, with NLTK missing. *)
Lemma preprocess_without_nltk_witness :
  TextPreprocessor.preprocess (H := TextPreprocessor.NoNltk)
    (TextPreprocessor.init (H := TextPreprocessor.NoNltk) true)
    (PyStr "The Court held that contracts bind.")
  = Ok "court held contracts bind".
Proof.
  apply (@preprocess_without_nltk TextPreprocessor.NoNltk true
           "The Court held that contracts bind." LookupError).
  - reflexivity.
  - reflexivity.
  - intros text. reflexivity.
Defined.

(** The repository of one case is loaded. *)
Lemma load_case_metadata_outcomes_witness :
  Forall (fun case =>
            exists d case_id title date file_path parsed,
              case = PyDict d
              /\ dict_get "case_id" d = Some (PyStr case_id)
              /\ strip_nonempty case_id = true
              /\ dict_get "title" d = Some (PyStr title)
              /\ strip_nonempty title = true
              /\ dict_get "date" d = Some (PyStr date)
              /\ CaseDocument.fromisoformat date = Some parsed
              /\ dict_get "file_path" d = Some (PyStr file_path)
              /\ strip_nonempty file_path = true)
         [Examples.entry "case-1" "First" 0]
  /\ ((Examples.one_case = Examples.one_case
       /\ CaseRepository.stored_cases Examples.one_case
          = Some [Examples.entry "case-1" "First" 0])
      \/ (CaseRepository.metadata_file Examples.one_case = None
          /\ [Examples.entry "case-1" "First" 0] = []
          /\ CaseRepository.metadata_writable Examples.healthy = true
          /\ CaseRepository.stored_cases Examples.one_case = Some []
          /\ CaseRepository.vectors_file Examples.one_case
             = CaseRepository.vectors_file Examples.one_case)).
Proof.
  apply (@load_case_metadata_outcomes CaseDocument.TextDate
           Examples.healthy Examples.one_case Examples.one_case
           (Ok [Examples.entry "case-1" "First" 0])).
  reflexivity.
Defined.

